(** * takbench: the benchmark harness of kthwaite/tak, embedded in Rocq

    The development follows [bench/takbench.py]: Python helpers first, then
    the analyzers ([load_tasks], [collect_git_metrics]), the scoring engine
    ([run_scoring]), the validity checks of [main] and the session driver
    ([wait_for_worker_ready], [drive_worker_session]).  Theorems come after
    all definitions.

    Conventions of the embedding
    - Python [int] is [Z]; Python [float] (clock readings, ratios) is kept as
      the exact rational [Q] it denotes, compared with [Qle_bool];
    - Python [str] is [string], one [ascii] per code point, so the model
      covers the code points below 256;
    - a [dict] with a fixed key set produced by this program is a record, a
      [dict] with free keys ([scoring], [status_counts]) is a [gmap];
    - a raised exception is a value of [exn]; the outside world (clock,
      transcript file, tmux, the shell) is an oracle indexed by the number of
      calls made so far;
    - the two polling loops take a fuel argument, the number of passes they
      may make; statements about their results say which fuel suffices. *)

From Stdlib Require Import ZArith QArith Lqa Ascii String List Bool Lia.
From Stdlib Require Import Sorted Permutation.
From stdpp Require Import base option gmap strings.

Import ListNotations.
Local Open Scope string_scope.
Local Open Scope list_scope.
Local Open Scope Z_scope.

(** ** Python helpers *)

Module Py.

(** [str.isspace] on one code point below 256: TAB..CR, FS..US, SPACE,
    NEL (0x85) and NBSP (0xA0). *)
Definition isspace (c : ascii) : bool :=
  let n := N_of_ascii c in
  ((9 <=? n) && (n <=? 13) || (28 <=? n) && (n <=? 32)
   || (n =? 133) || (n =? 160))%N.

Fixpoint lstrip (s : string) : string :=
  match s with
  | EmptyString => EmptyString
  | String c s' => if isspace c then lstrip s' else s
  end.

Fixpoint rstrip (s : string) : string :=
  match s with
  | EmptyString => EmptyString
  | String c s' =>
      match rstrip s' with
      | EmptyString => if isspace c then EmptyString else String c EmptyString
      | r => String c r
      end
  end.

(** [s.strip()] *)
Definition strip (s : string) : string := rstrip (lstrip s).

(** [bool(s)] for a string *)
Definition truthy (s : string) : bool :=
  match s with EmptyString => false | _ => true end.

Fixpoint all_space (s : string) : bool :=
  match s with
  | EmptyString => true
  | String c s' => isspace c && all_space s'
  end.

(** [needle in hay] *)
Fixpoint contains (needle hay : string) : bool :=
  String.prefix needle hay
  || match hay with
     | EmptyString => false
     | String _ hay' => contains needle hay'
     end.

(** [s.startswith(p)] *)
Definition startswith (p s : string) : bool := String.prefix p s.

(** Float comparisons on the rationals the floats denote. *)
Definition Qgeb (x y : Q) : bool := Qle_bool y x.
Definition Qgtb (x y : Q) : bool := negb (Qle_bool x y).
Definition Qltb (x y : Q) : bool := negb (Qle_bool y x).

End Py.

(** ** Data model *)

Record ExecResult := mkExecResult {
  command : string;
  exit_code : Z;
  stdout : string;
  stderr : string;
  timed_out : bool;
}.

(** One entry of [normalization_issues]: [{"file": ..., "issue": ...}]. *)
Record Issue := mkIssue { issue_file : string; issue_kind : string }.

(** The bundle returned by [collect_tak_metrics]. *)
Record TakMetrics := mkTakMetrics {
  task_count : Z;
  status_counts : gmap string Z;
  kind_counts : gmap string Z;
  epic_count : Z;
  child_count : Z;
  dependency_edges : Z;
  contract_task_count : Z;
  contract_verification_task_count : Z;
  history_event_count : Z;
  history_event_counts : gmap string Z;
  history_events_after_change : Z;
  verification_result_count : Z;
  context_count : Z;
  learning_count : Z;
  tasks_modified_after_change : Z;
  normalization_issues : list Issue;
}.

(** One element of [commits] in [collect_git_metrics]; [file_count] is
    [len(files)] there, so it is derived here. *)
Record Commit := mkCommit {
  sha : string;
  message : string;
  timestamp : Z;
  files : list string;
  lines_changed : Z;
}.

Definition file_count (c : Commit) : Z := Z.of_nat (length (files c)).

(** The bundle returned by [collect_git_metrics]. *)
Record GitMetrics := mkGitMetrics {
  commit_count : Z;
  commits : list Commit;
  first_tak_commit_index : option Z;
  first_code_commit_index : option Z;
  small_commit_ratio : Q;
  good_message_ratio : Q;
  final_commit_ratio : Q;
  commits_after_change : Z;
  total_lines_changed : Z;
}.

(** The keys of [transcript_metrics] that [run_scoring] reads. *)
Record TranscriptMetrics := mkTranscriptMetrics {
  tak_mentions : Z;
  tak_verify_mentions : Z;
  pytest_mentions : Z;
  test_command_mentions : Z;
  manual_tak_edit_evidence : list string;
}.

(** ** [test_command_executed] *)

Definition test_command_executed (result : option ExecResult) : bool :=
  match result with
  | None => false
  | Some r =>
      if timed_out r then false
      else if exit_code r =? 127 then false
      else Py.truthy (Py.strip (command r))
  end.

(** ** Objective configuration *)

Record ObjectiveConfig := mkObjectiveConfig {
  objective_id : string;
  name : string;
  description : string;
  root : string;
  template_dir : string;
  initial_prompt_path : string;
  change_prompt_path : string;
  time_budget_minutes : Z;
  poll_interval_seconds : Z;
  public_probe_interval_seconds : Z;
  worker_ready_strategy : string;
  worker_ready_delay_seconds : Z;
  worker_ready_timeout_seconds : Z;
  worker_ready_token : string;
  worker_prompt_transport : string;
  hidden_tests_required : bool;
  public_test_command : string;
  hidden_test_command : string;
  change_probe_command : string;
  change_min_minutes : Z;
  change_target_minutes : Z;
  phase1_done_token : string;
  final_done_token : string;
  scoring : gmap string Z;
}.

(** [d.get(key, dflt)] on a [dict[str, int]] *)
Definition dict_get (d : gmap string Z) (key : string) (dflt : Z) : Z :=
  default dflt (d !! key).

(** ** The score report *)

Record FunctionalReport := mkFunctionalReport {
  fn_score : Z;
  fn_max : Z;
  public_pass : bool;
  hidden_pass : bool;
  change_probe_pass : bool;
}.

Record TakComponents := mkTakComponents {
  early_adoption : Z;
  planning_structure : Z;
  lifecycle_hygiene : Z;
  verification_discipline : Z;
}.

Record TakWorkflowReport := mkTakWorkflowReport {
  tw_score : Z;
  tw_max : Z;
  tw_components : TakComponents;
}.

Record GitComponents := mkGitComponents {
  cadence : Z;
  atomicity : Z;
  message_quality : Z;
}.

Record GitReport := mkGitReport {
  gd_score : Z;
  gd_max : Z;
  gd_components : GitComponents;
}.

Record ChangeComponents := mkChangeComponents {
  replan_after_change : Z;
  implement_and_validate_change : Z;
  close_loop : Z;
}.

Record ChangeReport := mkChangeReport {
  ca_score : Z;
  ca_max : Z;
  ca_components : ChangeComponents;
  ca_change_injected : bool;
  ca_change_injected_epoch : option Q;
}.

Record BonusComponents := mkBonusComponents {
  contract_richness : Z;
  verify_usage : Z;
  context_or_learnings : Z;
}.

Record BonusReport := mkBonusReport {
  bn_score : Z;
  bn_max : Z;
  bn_components : BonusComponents;
}.

Record Penalties := mkPenalties {
  manual_tak_edits : Z;
  no_commits : Z;
  few_commits : Z;
  giant_final_commit : Z;
}.

Record PenaltiesReport := mkPenaltiesReport {
  pn_score : Z;
  pn_components : Penalties;
  manual_tak_edit_incidents : Z;
}.

Record Totals := mkTotals {
  tot_core : Z;
  tot_bonus : Z;
  tot_penalties : Z;
  tot_raw : Z;
  tot_clamped : Z;
}.

Record ScoreReport := mkScoreReport {
  functional : FunctionalReport;
  tak_workflow : TakWorkflowReport;
  git_discipline : GitReport;
  change_adaptation : ChangeReport;
  bonus : BonusReport;
  penalties : PenaltiesReport;
  totals : Totals;
}.

(** ** [run_scoring], block by block *)

Section Scoring.

Variable objective : ObjectiveConfig.
Variable public_result : ExecResult.
Variables hidden_result change_probe_result : option ExecResult.
Variable tak : TakMetrics.
Variable git : GitMetrics.
Variable transcript : TranscriptMetrics.
Variable change_injected : bool.
Variable change_injected_epoch : option Q.

Let w_public := dict_get (scoring objective) "functional_public" 15.
Let w_hidden := dict_get (scoring objective) "functional_hidden" 30.
Let w_tak := dict_get (scoring objective) "tak_workflow" 25.
Let w_git := dict_get (scoring objective) "git_discipline" 20.
Let w_change := dict_get (scoring objective) "change_adaptation" 10.
Let w_bonus_cap := dict_get (scoring objective) "bonus" 10.

(** Functional *)
Definition score_public_pass : bool := exit_code public_result =? 0.

Definition score_hidden_pass : bool :=
  match hidden_result with
  | Some r => exit_code r =? 0
  | None => false
  end.

Definition score_change_probe_pass : bool :=
  match change_probe_result with
  | Some r => exit_code r =? 0
  | None => false
  end.

Definition functional_score : Z :=
  (if score_public_pass then w_public else 0)
  + (if score_hidden_pass then w_hidden else 0).

(** tak workflow *)
Definition score_tak_components : TakComponents :=
  let first_tak := first_tak_commit_index git in
  let first_code := first_code_commit_index git in
  let early :=
    match first_tak, first_code with
    | Some _, None => 5
    | Some ft, Some fc =>
        if ft <=? fc then 5
        else if ft - fc <=? 1 then 3
        else if task_count tak >? 0 then 1 else 0
    | None, _ => if task_count tak >? 0 then 1 else 0
    end in
  let epics := epic_count tak in
  let children := child_count tak in
  let dep_edges := dependency_edges tak in
  let planning :=
    if (epics >=? 1) && (task_count tak >=? 5) && (children >=? 3) then 8
    else if (task_count tak >=? 4) && (dep_edges >=? 1) then 6
    else if task_count tak >=? 2 then 3
    else if task_count tak >=? 1 then 1
    else 0 in
  let in_progress := dict_get (status_counts tak) "in_progress" 0 in
  let done_count := dict_get (status_counts tak) "done" 0 in
  let history_counts := history_event_counts tak in
  let lifecycle_score := 8 in
  let lifecycle_score :=
    if in_progress >? 0 then lifecycle_score - Z.min 4 in_progress
    else lifecycle_score in
  let lifecycle_score :=
    if (dict_get history_counts "start" 0 =? 0) && (task_count tak >? 0)
    then lifecycle_score - 2 else lifecycle_score in
  let lifecycle_score :=
    if (done_count >? 0) && (dict_get history_counts "finish" 0 =? 0)
    then lifecycle_score - 2 else lifecycle_score in
  let lifecycle_score := Z.max 0 lifecycle_score in
  let verify_mentions := tak_verify_mentions transcript in
  let verification_files := verification_result_count tak in
  let verification :=
    if (verify_mentions >? 0) && (verification_files >? 0) then 4
    else if test_command_mentions transcript >=? 2 then 2
    else if (test_command_mentions transcript >=? 1)
            || (pytest_mentions transcript >=? 1) then 1
    else 0 in
  {| early_adoption := early;
     planning_structure := planning;
     lifecycle_hygiene := lifecycle_score;
     verification_discipline := verification |}.

Definition tak_workflow_score : Z :=
  let c := score_tak_components in
  Z.min w_tak
    (early_adoption c + planning_structure c + lifecycle_hygiene c
     + verification_discipline c).

(** Git discipline *)
Definition score_git_components : GitComponents :=
  let n := commit_count git in
  let cad :=
    if n >=? 5 then 8 else if n >=? 4 then 6
    else if n >=? 3 then 4 else if n >=? 1 then 2 else 0 in
  let small_ratio := small_commit_ratio git in
  let atom :=
    if Py.Qgeb small_ratio (7 # 10) then 8
    else if Py.Qgeb small_ratio (5 # 10) then 6
    else if Py.Qgeb small_ratio (3 # 10) then 4
    else if Py.Qgtb small_ratio 0 then 2 else 0 in
  let msg_ratio := good_message_ratio git in
  let msg :=
    if Py.Qgeb msg_ratio (75 # 100) then 4
    else if Py.Qgeb msg_ratio (5 # 10) then 3
    else if Py.Qgeb msg_ratio (25 # 100) then 2
    else if Py.Qgtb msg_ratio 0 then 1 else 0 in
  {| cadence := cad; atomicity := atom; message_quality := msg |}.

(** [git_score] before the zero-commit rule of the penalties block *)
Definition git_score_initial : Z :=
  let c := score_git_components in
  Z.min w_git (cadence c + atomicity c + message_quality c).

(** Change adaptation *)
Definition score_change_components : ChangeComponents :=
  if change_injected then
    let tasks_after_change := tasks_modified_after_change tak in
    let history_after_change := history_events_after_change tak in
    let replan :=
      if (tasks_after_change >? 0) && (history_after_change >? 0) then 4
      else if tasks_after_change >? 0 then 2 else 0 in
    let impl :=
      if score_change_probe_pass && score_hidden_pass then 4
      else if score_change_probe_pass then 3
      else if score_hidden_pass then 2 else 0 in
    let in_progress_after := dict_get (status_counts tak) "in_progress" 0 in
    let close :=
      if (commits_after_change git >=? 1) && (in_progress_after =? 0) then 2
      else if commits_after_change git >=? 1 then 1 else 0 in
    {| replan_after_change := replan;
       implement_and_validate_change := impl;
       close_loop := close |}
  else
    {| replan_after_change := 0;
       implement_and_validate_change := 0;
       close_loop := 0 |}.

Definition change_score : Z :=
  let c := score_change_components in
  Z.min w_change
    (replan_after_change c + implement_and_validate_change c + close_loop c).

(** Bonus *)
Definition score_bonus_components : BonusComponents :=
  let contract_tasks := contract_task_count tak in
  let contract_verify_tasks := contract_verification_task_count tak in
  let verify_mentions := tak_verify_mentions transcript in
  let verification_files := verification_result_count tak in
  let richness :=
    if (contract_tasks >=? 2) && (contract_verify_tasks >=? 1) then 4
    else if contract_tasks >=? 1 then 2 else 0 in
  let usage :=
    if (verify_mentions >? 0) && (verification_files >? 0) then 3
    else if verify_mentions >? 0 then 1 else 0 in
  let ctx :=
    if (context_count tak >? 0) && (learning_count tak >? 0) then 3
    else if (context_count tak >? 0) || (learning_count tak >? 0) then 2
    else 0 in
  {| contract_richness := richness;
     verify_usage := usage;
     context_or_learnings := ctx |}.

Definition bonus_score : Z :=
  let c := score_bonus_components in
  Z.min w_bonus_cap
    (contract_richness c + verify_usage c + context_or_learnings c).

(** Penalties *)
Definition incident_count : Z :=
  Z.of_nat (length (manual_tak_edit_evidence transcript))
  + Z.of_nat (length (normalization_issues tak)).

(** The [manual_tak_edits] entry, as a function of the incident count. *)
Definition manual_tak_penalty (incidents : Z) : Z :=
  let first_penalty := dict_get (scoring objective) "penalty_manual_tak_first" 20 in
  let add_penalty := dict_get (scoring objective) "penalty_manual_tak_additional" 10 in
  let cap_penalty := dict_get (scoring objective) "penalty_manual_tak_cap" 40 in
  if incidents >? 0 then
    let total := first_penalty + Z.max 0 (incidents - 1) * add_penalty in
    Z.min cap_penalty total
  else 0.

Definition score_penalties : Penalties :=
  let n := commit_count git in
  {| manual_tak_edits := manual_tak_penalty incident_count;
     no_commits := if n =? 0 then 30 else 0;
     few_commits := if n =? 0 then 0 else if n <? 4 then 10 else 0;
     giant_final_commit :=
       if Py.Qgtb (final_commit_ratio git) (6 # 10) && (n >=? 1) then 8 else 0 |}.

(** [git_score] after [if commit_count == 0: ... git_score = 0] *)
Definition git_score : Z :=
  if commit_count git =? 0 then 0 else git_score_initial.

Definition penalties_total : Z :=
  let p := score_penalties in
  manual_tak_edits p + no_commits p + few_commits p + giant_final_commit p.

Definition run_scoring : ScoreReport :=
  let core_total :=
    functional_score + tak_workflow_score + git_score + change_score in
  let total_raw := core_total + bonus_score - penalties_total in
  let total_clamped := Z.max 0 total_raw in
  {| functional :=
       {| fn_score := functional_score;
          fn_max := w_public + w_hidden;
          public_pass := score_public_pass;
          hidden_pass := score_hidden_pass;
          change_probe_pass := score_change_probe_pass |};
     tak_workflow :=
       {| tw_score := tak_workflow_score;
          tw_max := w_tak;
          tw_components := score_tak_components |};
     git_discipline :=
       {| gd_score := git_score;
          gd_max := w_git;
          gd_components := score_git_components |};
     change_adaptation :=
       {| ca_score := change_score;
          ca_max := w_change;
          ca_components := score_change_components;
          ca_change_injected := change_injected;
          ca_change_injected_epoch := change_injected_epoch |};
     bonus :=
       {| bn_score := bonus_score;
          bn_max := w_bonus_cap;
          bn_components := score_bonus_components |};
     penalties :=
       {| pn_score := penalties_total;
          pn_components := score_penalties;
          manual_tak_edit_incidents := incident_count |};
     totals :=
       {| tot_core := core_total;
          tot_bonus := bonus_score;
          tot_penalties := penalties_total;
          tot_raw := total_raw;
          tot_clamped := total_clamped |} |}.

End Scoring.


(** ** Exceptions *)

(** The exceptions that the modelled code lets escape.  [RuntimeError] is
    the one [ensure_success] raises, with its context and the failed result;
    [UnsupportedTransport] is the [RuntimeError] that [drive_worker_session]
    raises for a prompt transport other than "tmux_buffer_paste". *)
Inductive exn :=
| AttributeError
| TypeError
| UnicodeDecodeError
| RuntimeError (context : string) (failed : ExecResult)
| UnsupportedTransport (transport : string).

Inductive result (A : Type) :=
| Ok (a : A)
| Raise (e : exn).

Arguments Ok {A} a.
Arguments Raise {A} e.

Definition rbind {A B} (r : result A) (k : A -> result B) : result B :=
  match r with
  | Ok a => k a
  | Raise e => Raise e
  end.

(** ** [collect_git_metrics]: the metrics derived from the commit list *)

Module Git.

Fixpoint count_if {A} (p : A -> bool) (l : list A) : Z :=
  match l with
  | [] => 0
  | x :: l' => (if p x then 1 else 0) + count_if p l'
  end.

(** index of the first element satisfying [p], as [enumerate] numbers them *)
Fixpoint first_index {A} (p : A -> bool) (i : Z) (l : list A) : option Z :=
  match l with
  | [] => None
  | x :: l' => if p x then Some i else first_index p (i + 1) l'
  end.

Definition touches_tak (c : Commit) : bool :=
  existsb (Py.startswith ".tak/") (files c).

Definition touches_code (c : Commit) : bool :=
  existsb (fun path => negb (Py.startswith ".tak/" path)) (files c).

(** [0 < commit["file_count"] <= 3] *)
Definition is_small (c : Commit) : bool :=
  (0 <? file_count c) && (file_count c <=? 3).

Definition lower (c : ascii) : ascii :=
  let n := N_of_ascii c in
  if ((65 <=? n) && (n <=? 90))%N then ascii_of_N (n + 32) else c.

(** [\w] on a code point below 256 *)
Definition is_word (c : ascii) : bool :=
  let n := N_of_ascii c in
  ((48 <=? n) && (n <=? 57) || (65 <=? n) && (n <=? 90)
   || (97 <=? n) && (n <=? 122) || (n =? 95)
   || (n =? 170) || (n =? 178) || (n =? 179) || (n =? 181)
   || (n =? 185) || (n =? 186) || (188 <=? n) && (n <=? 190)
   || (192 <=? n) && (n <=? 214) || (216 <=? n) && (n <=? 246)
   || (248 <=? n))%N.

(** [word] matched case-insensitively at the start of [s], followed by [\b] *)
Fixpoint prefix_word (word s : string) : bool :=
  match word, s with
  | EmptyString, EmptyString => true
  | EmptyString, String c _ => negb (is_word c)
  | String _ _, EmptyString => false
  | String w word', String c s' =>
      Ascii.eqb w (lower c) && prefix_word word' s'
  end.

(** [weak_message_re.search(message)] for
    [(?i)^(wip|update|fix|changes|misc|tmp)\b] *)
Definition weak_message (s : string) : bool :=
  existsb (fun w => prefix_word w s)
    ["wip"; "update"; "fix"; "changes"; "misc"; "tmp"].

Definition is_good_message (c : Commit) : bool :=
  let m := Py.strip (message c) in
  (10 <=? Z.of_nat (String.length m)) && negb (weak_message m).

Definition sum_lines (l : list Commit) : Z :=
  fold_left (fun acc c => acc + lines_changed c) l 0.

(** [a / b] of two ints, as the rational the float result rounds *)
Definition ratio (a b : Z) : Q := (inject_Z a / inject_Z b)%Q.

(** [int(x)] of a float: truncation toward zero *)
Definition int_of_float (x : Q) : Z := Z.quot (Qnum x) (Zpos (Qden x)).

Definition collect_git_metrics (commits : list Commit) (change_epoch : option Q)
  : GitMetrics :=
  let commit_count := Z.of_nat (length commits) in
  let first_tak_index := first_index touches_tak 0 commits in
  let first_code_index := first_index touches_code 0 commits in
  let small_commits := count_if is_small commits in
  let good_messages := count_if is_good_message commits in
  let total_lines_changed := sum_lines commits in
  let small_commit_ratio :=
    if commit_count >? 0 then ratio small_commits commit_count else 0%Q in
  let good_message_ratio :=
    if commit_count >? 0 then ratio good_messages commit_count else 0%Q in
  let final_commit_ratio :=
    match last commits with
    | Some c =>
        if (commit_count >? 0) && (total_lines_changed >? 0)
        then ratio (lines_changed c) total_lines_changed else 0%Q
    | None => 0%Q
    end in
  let commits_after_change :=
    match change_epoch with
    | Some e => count_if (fun c => timestamp c >=? int_of_float e) commits
    | None => 0
    end in
  {| commit_count := commit_count;
     commits := commits;
     first_tak_commit_index := first_tak_index;
     first_code_commit_index := first_code_index;
     small_commit_ratio := small_commit_ratio;
     good_message_ratio := good_message_ratio;
     final_commit_ratio := final_commit_ratio;
     commits_after_change := commits_after_change;
     total_lines_changed := total_lines_changed |}.

End Git.

(** ** Task store: JSON values and [load_tasks] *)

(** What [json.loads] returns.  A float is the rational it denotes; the
    non-finite literals are left out. *)
#[warnings="-register-all"]
Inductive JValue :=
| JNull
| JBool (b : bool)
| JInt (n : Z)
| JFloat (q : Q)
| JStr (s : string)
| JArr (items : list JValue)
| JObj (fields : list (string * JValue)).

(** Outcome of [json.loads(task_path.read_text(encoding="utf-8"))]:
    [read_text] raises [UnicodeDecodeError] on bytes that are not UTF-8,
    [json.loads] raises [JSONDecodeError] on text that is not JSON. *)
Inductive Loaded :=
| NotUtf8
| NotJson
| Json (v : JValue).

Record TaskFile := mkTaskFile { tf_name : string; tf_loaded : Loaded }.

Module Json.

(** [d.get(key)] on a parsed object; a repeated key keeps its last value *)
Fixpoint lookup (key : string) (fields : list (string * JValue)) : option JValue :=
  match fields with
  | [] => None
  | (k, v) :: rest =>
      match lookup key rest with
      | Some v' => Some v'
      | None => if String.eqb k key then Some v else None
      end
  end.

(** [value.get(key, dflt)]: only a dict has the method *)
Definition get (value : JValue) (key : string) (dflt : JValue) : result JValue :=
  match value with
  | JObj fields => Ok (default dflt (lookup key fields))
  | _ => Raise AttributeError
  end.

Definition unhashable (v : JValue) : bool :=
  match v with
  | JArr _ | JObj _ => true
  | _ => false
  end.

(** numeric value of [bool], [int] and [float] *)
Definition num (v : JValue) : option Q :=
  match v with
  | JBool b => Some (inject_Z (Z.b2z b))
  | JInt n => Some (inject_Z n)
  | JFloat q => Some q
  | _ => None
  end.

(** [a == b] on hashable values *)
Definition eqb (a b : JValue) : bool :=
  match a, b with
  | JNull, JNull => true
  | JStr s, JStr t => String.eqb s t
  | _, _ =>
      match num a, num b with
      | Some x, Some y => Qeq_bool x y
      | _, _ => false
      end
  end.

Fixpoint list_eqb (l1 l2 : list JValue) : bool :=
  match l1, l2 with
  | [], [] => true
  | a :: l1', b :: l2' => eqb a b && list_eqb l1' l2'
  | _, _ => false
  end.

(** the elements of [set(l)]: one representative per [==] class *)
Fixpoint dedupe (l : list JValue) : list JValue :=
  match l with
  | [] => []
  | x :: l' => x :: List.filter (fun y => negb (eqb x y)) (dedupe l')
  end.

(** [a < b] where Python defines it; [None] where it raises [TypeError] *)
Definition ltb (a b : JValue) : option bool :=
  match a, b with
  | JStr s, JStr t => Some (String.ltb s t)
  | _, _ =>
      match num a, num b with
      | Some x, Some y => Some (Py.Qltb x y)
      | _, _ => None
      end
  end.

Fixpoint insert_sorted (x : JValue) (l : list JValue) : result (list JValue) :=
  match l with
  | [] => Ok [x]
  | y :: l' =>
      match ltb x y with
      | None => Raise TypeError
      | Some true => Ok (x :: l)
      | Some false => rbind (insert_sorted x l') (fun r => Ok (y :: r))
      end
  end.

Fixpoint sort (l : list JValue) : result (list JValue) :=
  match l with
  | [] => Ok []
  | x :: l' => rbind (sort l') (insert_sorted x)
  end.

(** [sorted(set(l))] *)
Definition sorted_set (l : list JValue) : result (list JValue) :=
  if existsb unhashable l then Raise TypeError else sort (dedupe l).

End Json.

(** *** [load_tasks] *)

Module Store.

(** [sorted(..., key=lambda p: p.name)]: stable insertion by file name *)
Fixpoint insert_by_name (f : TaskFile) (l : list TaskFile) : list TaskFile :=
  match l with
  | [] => [f]
  | g :: l' =>
      if negb (String.ltb (tf_name g) (tf_name f)) then f :: l
      else g :: insert_by_name f l'
  end.

Definition sort_by_name (l : list TaskFile) : list TaskFile :=
  fold_right insert_by_name [] l.

(** [str(task_path.relative_to(repo_dir))] *)
Definition rel_path (f : TaskFile) : string :=
  (".tak/tasks/" ++ tf_name f)%string.

Definition issue (f : TaskFile) (kind : string) : Issue :=
  {| issue_file := rel_path f; issue_kind := kind |}.

(** the [dep_id] of one element of [depends_on]; [isinstance(_, int)] holds
    of a [bool] too *)
Definition int_of (v : JValue) : option Z :=
  match v with
  | JInt n => Some n
  | JBool b => Some (Z.b2z b)
  | _ => None
  end.

Definition dep_id_of (dep : JValue) : option Z :=
  match dep with
  | JObj fields =>
      match Json.lookup "id" fields with
      | Some raw_id => int_of raw_id
      | None => None
      end
  | _ => int_of dep
  end.

Definition dep_ids_of (depends_on : JValue) : list Z :=
  match depends_on with
  | JArr deps => omap dep_id_of deps
  | _ => []
  end.

Fixpoint insert_int (x : Z) (l : list Z) : list Z :=
  match l with
  | [] => [x]
  | y :: l' => if x <? y then x :: l else y :: insert_int x l'
  end.

Fixpoint dedupe_int (l : list Z) : list Z :=
  match l with
  | [] => []
  | x :: l' => x :: List.filter (fun y => negb (x =? y)) (dedupe_int l')
  end.

(** [sorted(set(dep_ids))] *)
Definition sorted_set_int (l : list Z) : list Z :=
  fold_right insert_int [] (dedupe_int l).

Definition list_Z_eqb (l1 l2 : list Z) : bool :=
  bool_decide (l1 = l2).

(** The checks made on one decoded task, after it was appended to [tasks];
    returns the issues of this file. *)
Definition check_task (f : TaskFile) (task : JValue) : result (list Issue) :=
  rbind (Json.get task "tags" (JArr [])) (fun tags =>
  rbind (match tags with
         | JArr items =>
             rbind (Json.sorted_set items) (fun s =>
             Ok (if negb (Json.list_eqb items s)
                 then [issue f "tags_not_sorted_unique"] else []))
         | _ => Ok []
         end) (fun tag_issues =>
  rbind (Json.get task "depends_on" (JArr [])) (fun depends_on =>
  let dep_ids := dep_ids_of depends_on in
  let dep_issues :=
    if negb (Nat.eqb (length dep_ids) 0)
       && negb (list_Z_eqb dep_ids (sorted_set_int dep_ids))
    then [issue f "depends_on_not_sorted_unique"] else [] in
  rbind (Json.get task "title" JNull) (fun title =>
  let title_issues :=
    match title with
    | JStr t =>
        if negb (String.eqb t (Py.strip t))
        then [issue f "title_not_trimmed"] else []
    | _ => []
    end in
  Ok (tag_issues ++ dep_issues ++ title_issues))))).

(** The [for task_path in sorted(...)] loop, on the files still to scan and
    the two accumulators. *)
Fixpoint scan (todo : list TaskFile) (tasks : list JValue) (issues : list Issue)
  : result (list JValue * list Issue) :=
  match todo with
  | [] => Ok (tasks, issues)
  | f :: rest =>
      match tf_loaded f with
      | NotUtf8 => Raise UnicodeDecodeError
      | NotJson => scan rest tasks (issues ++ [issue f "invalid_json"])
      | Json task =>
          rbind (check_task f task) (fun found =>
          scan rest (tasks ++ [task]) (issues ++ found))
      end
  end.

(** [load_tasks(repo_dir)]; [tasks_dir] is [None] when [.tak/tasks] does not
    exist, else the files that [glob("*.json")] yields. *)
Definition load_tasks (tasks_dir : option (list TaskFile))
  : result (list JValue * list Issue) :=
  match tasks_dir with
  | None => Ok ([], [])
  | Some entries => scan (sort_by_name entries) [] []
  end.

End Store.

(** ** The session driver *)

(** The dict returned by [wait_for_worker_ready]. *)
Record ReadyState := mkReadyState {
  ready : bool;
  strategy : string;
  wait_seconds : Q;
  reason : string;
}.

(** What an entry of the command log carries besides its common keys. *)
Inductive Payload :=
| PLine (line : string)
| PPrompt (prompt : string)
| PReady (prompt_transport : string) (state : ReadyState)
| PProbe (code : Z) (passed : bool).

(** One line of [commands.jsonl]. *)
Record CommandEvent := mkCommandEvent {
  ev_timestamp : string;
  ev_type : string;
  ev_target : option string;
  ev_payload : Payload;
}.

(** The outside world.  Every call that leaves the process is numbered, and
    the world answers call number [n]: [clock n] is what [time.time()]
    returns there, [transcript n] what [read_text_safe(worker_log_path)]
    returns, and so on. *)
Record World := mkWorld {
  clock : nat -> Q;
  utc : nat -> string;
  transcript : nat -> string;
  tmux : nat -> list string -> option string -> ExecResult;
  shell : nat -> string -> Z -> ExecResult;
}.

(** The driver's own state: the number of calls made and the command log. *)
Record Machine := mkMachine {
  calls : nat;
  log : list CommandEvent;
}.

(** How a computation of the driver ends: with a value, with an exception
    (the machine is kept: the log written so far stays on disk), or without
    an answer because the fuel given to one of its loops ran out. *)
Inductive run (A : Type) :=
| Returns (a : A) (m : Machine)
| Raises (e : exn) (m : Machine)
| Diverges.

Arguments Returns {A} a m.
Arguments Raises {A} e m.
Arguments Diverges {A}.

(** Driver computations: the world is read, the machine is threaded. *)
Definition M (A : Type) : Type := World -> Machine -> run A.

Definition ret {A} (a : A) : M A := fun _ m => Returns a m.

Definition bind {A B} (c : M A) (k : A -> M B) : M B :=
  fun w m =>
    match c w m with
    | Returns a m' => k a w m'
    | Raises e m' => Raises e m'
    | Diverges => Diverges
    end.

Definition raise {A} (e : exn) : M A := fun _ m => Raises e m.

Definition diverge {A} : M A := fun _ _ => Diverges.

Declare Scope driver_scope.
Delimit Scope driver_scope with driver.

Notation "x <- c ;; k" := (bind c (fun x => k))
  (at level 100, c at next level, right associativity) : driver_scope.
Notation "c ;;; k" := (bind c (fun _ => k))
  (at level 100, right associativity) : driver_scope.

Local Open Scope driver_scope.

Definition tick (m : Machine) : Machine :=
  {| calls := S (calls m); log := log m |}.

(** [time.time()] *)
Definition time_time : M Q := fun w m => Returns (clock w (calls m)) (tick m).

(** [utc_now()] *)
Definition utc_now : M string := fun w m => Returns (utc w (calls m)) (tick m).

(** [read_text_safe(worker_log_path)] *)
Definition read_text_safe : M string :=
  fun w m => Returns (transcript w (calls m)) (tick m).

(** [time.sleep(seconds)] *)
Definition sleep (seconds : Z) : M unit := fun _ m => Returns tt (tick m).

(** [tmux_cmd(args, input_text=...)] *)
Definition tmux_cmd (args : list string) (input_text : option string)
  : M ExecResult :=
  fun w m => Returns (tmux w (calls m) args input_text) (tick m).

(** [exec_shell(command, repo_dir, timeout=...)] *)
Definition exec_shell (cmd : string) (timeout : Z) : M ExecResult :=
  fun w m => Returns (shell w (calls m) cmd timeout) (tick m).

(** [append_jsonl(commands_log_path, payload)] *)
Definition append_jsonl (ev : CommandEvent) : M unit :=
  fun _ m => Returns tt {| calls := calls m; log := log m ++ [ev] |}.

(** [ensure_success(result, context)] *)
Definition ensure_success (r : ExecResult) (context : string) : M unit :=
  if negb (exit_code r =? 0) then raise (RuntimeError context r) else ret tt.

(** [f"{what} ({event_type})"] *)
Definition ctx (what event_type : string) : string :=
  (what ++ " (" ++ event_type ++ ")")%string.

Definition tmux_send_line (pane_target line event_type : string) : M unit :=
  r <- tmux_cmd ["send-keys"; "-t"; pane_target; "-l"; line] None ;;
  ensure_success r (ctx "tmux send line" event_type) ;;;
  r <- tmux_cmd ["send-keys"; "-t"; pane_target; "Enter"] None ;;
  ensure_success r (ctx "tmux send enter" event_type) ;;;
  now <- utc_now ;;
  append_jsonl {| ev_timestamp := now; ev_type := event_type;
                  ev_target := Some pane_target; ev_payload := PLine line |}.

Definition tmux_send_prompt (pane_target prompt_text event_type : string)
  : M unit :=
  r <- tmux_cmd ["load-buffer"; "-"] (Some prompt_text) ;;
  ensure_success r (ctx "tmux load-buffer" event_type) ;;;
  r <- tmux_cmd ["paste-buffer"; "-t"; pane_target; "-d"] None ;;
  ensure_success r (ctx "tmux paste-buffer" event_type) ;;;
  r <- tmux_cmd ["send-keys"; "-t"; pane_target; "Enter"] None ;;
  ensure_success r (ctx "tmux send enter" event_type) ;;;
  now <- utc_now ;;
  append_jsonl {| ev_timestamp := now; ev_type := event_type;
                  ev_target := Some pane_target;
                  ev_payload := PPrompt prompt_text |}.

Definition pane_dead (pane_target : string) : M bool :=
  r <- tmux_cmd ["display-message"; "-p"; "-t"; pane_target; "#{pane_dead}"] None ;;
  if negb (exit_code r =? 0) then ret true
  else ret (String.eqb (Py.strip (stdout r)) "1").

(** [shlex.quote] *)
Module Shlex.

Definition safe (c : ascii) : bool :=
  let n := N_of_ascii c in
  ((48 <=? n) && (n <=? 57) || (65 <=? n) && (n <=? 90)
   || (97 <=? n) && (n <=? 122) || (n =? 95)
   || existsb (N.eqb n) [64; 37; 43; 61; 58; 44; 46; 47; 45])%N.

Fixpoint all_safe (s : string) : bool :=
  match s with
  | EmptyString => true
  | String c s' => safe c && all_safe s'
  end.

(** [s.replace("'", ...)] with the quote, double-quoted, between two quotes *)
Fixpoint escape (s : string) : string :=
  match s with
  | EmptyString => EmptyString
  | String c s' =>
      if Ascii.eqb c "'"%char
      then String "'" (String "034" (String "'" (String "034" (String "'" (escape s')))))
      else String c (escape s')
  end.

Definition quote (s : string) : string :=
  match s with
  | EmptyString => "''"
  | _ => if all_safe s then s else ("'" ++ escape s ++ "'")%string
  end.

End Shlex.

(** *** [wait_for_worker_ready] *)

(** The [while time.time() < deadline] loop of the token strategy. *)
Fixpoint poll_ready_token (fuel : nat) (token : string) (started deadline : Q)
  : M ReadyState :=
  match fuel with
  | O => diverge
  | S fuel' =>
      now <- time_time ;;
      if Py.Qltb now deadline then
        text <- read_text_safe ;;
        if Py.contains token text then
          seen <- time_time ;;
          ret {| ready := true; strategy := "token";
                 wait_seconds := (seen - started)%Q;
                 reason := "ready_token_seen" |}
        else
          sleep 1 ;;;
          poll_ready_token fuel' token started deadline
      else
        stop <- time_time ;;
        ret {| ready := false; strategy := "token";
               wait_seconds := (stop - started)%Q;
               reason := "ready_token_timeout" |}
  end.

Definition wait_for_worker_ready (fuel : nat) (objective : ObjectiveConfig)
  : M ReadyState :=
  started <- time_time ;;
  let strat := worker_ready_strategy objective in
  if String.eqb strat "none" then
    ret {| ready := true; strategy := strat; wait_seconds := 0%Q;
           reason := "no_wait" |}
  else if String.eqb strat "delay" then
    let delay_seconds := Z.max 0 (worker_ready_delay_seconds objective) in
    (if delay_seconds >? 0 then sleep delay_seconds else ret tt) ;;;
    ret {| ready := true; strategy := strat;
           wait_seconds := inject_Z delay_seconds;
           reason := "delay_elapsed" |}
  else
    let token := worker_ready_token objective in
    let deadline :=
      (started + inject_Z (Z.max 1 (worker_ready_timeout_seconds objective)))%Q in
    poll_ready_token fuel token started deadline.

(** *** [drive_worker_session] *)

(** The local variables of [drive_worker_session] that the main loop
    updates. *)
Record LoopVars := mkLoopVars {
  next_public_probe_at : Q;
  change_injected : bool;
  change_injected_epoch : option Q;
  phase1_done_seen : bool;
  final_done_seen : bool;
  public_probe_pass : bool;
  probe_results : list CommandEvent;
  end_reason : string;
}.

(** The dict returned by [drive_worker_session]. *)
Record SessionResult := mkSessionResult {
  sr_start_epoch : Q;
  sr_end_epoch : Q;
  sr_duration_seconds : Q;
  sr_end_reason : string;
  sr_worker_ready : bool;
  sr_worker_ready_strategy : string;
  sr_worker_ready_wait_seconds : Q;
  sr_worker_ready_reason : string;
  sr_change_injected : bool;
  sr_change_injected_epoch : option Q;
  sr_phase1_done_seen : bool;
  sr_final_done_seen : bool;
  sr_public_probe_pass : bool;
  sr_probe_results : list CommandEvent;
}.

Section Driver.

Variable objective : ObjectiveConfig.
Variables repo_dir pane_target initial_prompt change_prompt worker_cmd : string.

Definition min_change_seconds : Z := change_min_minutes objective * 60.
Definition target_change_seconds : Z := change_target_minutes objective * 60.
Definition budget_seconds : Z := time_budget_minutes objective * 60.

Definition set_end_reason (v : LoopVars) (r : string) : LoopVars :=
  {| next_public_probe_at := next_public_probe_at v;
     change_injected := change_injected v;
     change_injected_epoch := change_injected_epoch v;
     phase1_done_seen := phase1_done_seen v;
     final_done_seen := final_done_seen v;
     public_probe_pass := public_probe_pass v;
     probe_results := probe_results v;
     end_reason := r |}.

(** Top of an iteration: clock, token rescan and the public probe when it
    is due.  Returns [elapsed] with the updated variables. *)
Definition observe (start_epoch : Q) (v : LoopVars) : M (Q * LoopVars) :=
  now <- time_time ;;
  let elapsed := (now - start_epoch)%Q in
  worker_text <- read_text_safe ;;
  let phase1 :=
    if Py.contains (phase1_done_token objective) worker_text
    then true else phase1_done_seen v in
  let final :=
    if Py.contains (final_done_token objective) worker_text
    then true else final_done_seen v in
  if Py.Qgeb now (next_public_probe_at v) then
    probe_result <- exec_shell (public_test_command objective) 180 ;;
    let probe_pass := exit_code probe_result =? 0 in
    stamp <- utc_now ;;
    let probe_event :=
      {| ev_timestamp := stamp; ev_type := "public_probe"; ev_target := None;
         ev_payload := PProbe (exit_code probe_result) probe_pass |} in
    append_jsonl probe_event ;;;
    ret (elapsed,
         {| next_public_probe_at :=
              (now + inject_Z (public_probe_interval_seconds objective))%Q;
            change_injected := change_injected v;
            change_injected_epoch := change_injected_epoch v;
            phase1_done_seen := phase1;
            final_done_seen := final;
            public_probe_pass :=
              if probe_pass then true else public_probe_pass v;
            probe_results := probe_results v ++ [probe_event];
            end_reason := end_reason v |})
  else
    ret (elapsed,
         {| next_public_probe_at := next_public_probe_at v;
            change_injected := change_injected v;
            change_injected_epoch := change_injected_epoch v;
            phase1_done_seen := phase1;
            final_done_seen := final;
            public_probe_pass := public_probe_pass v;
            probe_results := probe_results v;
            end_reason := end_reason v |}).

Definition change_trigger (elapsed : Q) (v : LoopVars) : bool :=
  Py.Qgeb elapsed (inject_Z min_change_seconds)
  && (phase1_done_seen v
      || public_probe_pass v
      || Py.Qgeb elapsed (inject_Z target_change_seconds)).

(** [if change_trigger and not change_injected: ...] *)
Definition inject_change (elapsed : Q) (v : LoopVars) : M LoopVars :=
  if change_trigger elapsed v && negb (change_injected v) then
    tmux_send_prompt pane_target change_prompt "change_prompt" ;;;
    stamp <- time_time ;;
    ret {| next_public_probe_at := next_public_probe_at v;
           change_injected := true;
           change_injected_epoch := Some stamp;
           phase1_done_seen := phase1_done_seen v;
           final_done_seen := final_done_seen v;
           public_probe_pass := public_probe_pass v;
           probe_results := probe_results v;
           end_reason := end_reason v |}
  else ret v.

(** The three [break]s and the [sleep]; the boolean tells whether the loop
    has ended. *)
Definition end_checks (elapsed : Q) (v : LoopVars) : M (LoopVars * bool) :=
  dead <- pane_dead pane_target ;;
  if dead then ret (set_end_reason v "worker_pane_dead", true)
  else if change_injected v && final_done_seen v
  then ret (set_end_reason v "final_done_token_seen", true)
  else if Py.Qgeb elapsed (inject_Z budget_seconds)
  then ret (set_end_reason v "time_budget_reached", true)
  else
    sleep (Z.max 1 (poll_interval_seconds objective)) ;;;
    ret (v, false).

(** One pass through the body of [while True]. *)
Definition loop_body (start_epoch : Q) (v : LoopVars) : M (LoopVars * bool) :=
  ob <- observe start_epoch v ;;
  v' <- inject_change (fst ob) (snd ob) ;;
  end_checks (fst ob) v'.

(** At most [fuel] passes; the boolean tells whether a [break] was taken. *)
Fixpoint main_loop (fuel : nat) (start_epoch : Q) (v : LoopVars)
  : M (LoopVars * bool) :=
  match fuel with
  | O => ret (v, false)
  | S fuel' =>
      r <- loop_body start_epoch v ;;
      if snd r then ret r else main_loop fuel' start_epoch (fst r)
  end.

Definition initial_vars (start_epoch : Q) : LoopVars :=
  {| next_public_probe_at :=
       (start_epoch + inject_Z (public_probe_interval_seconds objective))%Q;
     change_injected := false;
     change_injected_epoch := None;
     phase1_done_seen := false;
     final_done_seen := false;
     public_probe_pass := false;
     probe_results := [];
     end_reason := "timeout" |}.

(** The setup lines, the transport check and the worker command. *)
Definition launch_worker : M unit :=
  tmux_send_line pane_target ("cd " ++ Shlex.quote repo_dir)%string "setup" ;;;
  tmux_send_line pane_target
    ("export TAKBENCH_OBJECTIVE=" ++ Shlex.quote (objective_id objective))%string
    "setup" ;;;
  tmux_send_line pane_target
    ("export TAKBENCH_REPO=" ++ Shlex.quote repo_dir)%string "setup" ;;;
  (if negb (String.eqb (worker_prompt_transport objective) "tmux_buffer_paste")
   then raise (UnsupportedTransport (worker_prompt_transport objective))
   else ret tt) ;;;
  tmux_send_line pane_target worker_cmd "worker_start".

(** Everything before the main loop: launch, readiness wait, its log entry
    and the initial prompt. *)
Definition start_worker (fuel : nat) : M ReadyState :=
  launch_worker ;;;
  ready_state <- wait_for_worker_ready fuel objective ;;
  stamp <- utc_now ;;
  append_jsonl
    {| ev_timestamp := stamp; ev_type := "worker_ready";
       ev_target := Some pane_target;
       ev_payload := PReady (worker_prompt_transport objective) ready_state |} ;;;
  tmux_send_prompt pane_target initial_prompt "initial_prompt" ;;;
  ret ready_state.

(** From [start_epoch = time.time()] to the returned dict. *)
Definition run_session (fuel : nat) (ready_state : ReadyState)
  : M SessionResult :=
  start_epoch <- time_time ;;
  r <- main_loop fuel start_epoch (initial_vars start_epoch) ;;
  if snd r then
    let v := fst r in
    end_epoch <- time_time ;;
    last_clock <- time_time ;;
    ret {| sr_start_epoch := start_epoch;
           sr_end_epoch := end_epoch;
           sr_duration_seconds := (last_clock - start_epoch)%Q;
           sr_end_reason := end_reason v;
           sr_worker_ready := ready ready_state;
           sr_worker_ready_strategy := strategy ready_state;
           sr_worker_ready_wait_seconds := wait_seconds ready_state;
           sr_worker_ready_reason := reason ready_state;
           sr_change_injected := change_injected v;
           sr_change_injected_epoch := change_injected_epoch v;
           sr_phase1_done_seen := phase1_done_seen v;
           sr_final_done_seen := final_done_seen v;
           sr_public_probe_pass := public_probe_pass v;
           sr_probe_results := probe_results v |}
  else diverge.

Definition drive_worker_session (fuel : nat) : M SessionResult :=
  ready_state <- start_worker fuel ;;
  run_session fuel ready_state.

(** *** Vocabulary for statements about a run of the main loop *)

(** The end reasons that the three [break]s assign. *)
Definition loop_end_reasons : list string :=
  ["time_budget_reached"; "worker_pane_dead"; "final_done_token_seen"].

(** Number of "change_prompt" entries in a command log. *)
Definition change_prompts (l : list CommandEvent) : nat :=
  length (List.filter (fun ev => String.eqb (ev_type ev) "change_prompt") l).

(** The log and the epoch follow the latch: against the log of [m0], the
    log of [m] holds one more "change_prompt" entry exactly when the latch
    of [v] is closed, and the epoch is set exactly then. *)
Definition latch_ok (m0 : Machine) (v : LoopVars) (m : Machine) : Prop :=
  change_prompts (log m)
  = (change_prompts (log m0) + (if change_injected v then 1 else 0))%nat
  /\ (change_injected v = true
      <-> exists stamp, change_injected_epoch v = Some stamp).

(** The main loop, started on [v0] and [m0] in world [w], has completed [k]
    passes without a [break] and stands at the top of pass [k] (counted from
    0) with variables [v] and machine [m]. *)
Definition at_iteration (start_epoch : Q) (v0 : LoopVars) (w : World)
  (m0 : Machine) (k : nat) (v : LoopVars) (m : Machine) : Prop :=
  main_loop k start_epoch v0 w m0 = Returns (v, false) m.

(** [elapsed] as pass [k] computes it. *)
Definition elapsed_at (start_epoch : Q) (v0 : LoopVars) (w : World)
  (m0 : Machine) (k : nat) (elapsed : Q) : Prop :=
  exists v m v1 m1,
    at_iteration start_epoch v0 w m0 k v m
    /\ observe start_epoch v w m = Returns (elapsed, v1) m1.

(** [change_trigger] is true in pass [k]. *)
Definition trigger_at (start_epoch : Q) (v0 : LoopVars) (w : World)
  (m0 : Machine) (k : nat) : Prop :=
  exists v m elapsed v1 m1,
    at_iteration start_epoch v0 w m0 k v m
    /\ observe start_epoch v w m = Returns (elapsed, v1) m1
    /\ change_trigger elapsed v1 = true.

(** Pass [k] delivers the change prompt: the latch goes from false to true,
    the epoch is set to a clock reading made during the pass and the log
    gains one "change_prompt" entry. *)
Definition injects_at (start_epoch : Q) (v0 : LoopVars) (w : World)
  (m0 : Machine) (k : nat) : Prop :=
  exists v m v' stop m' n,
    at_iteration start_epoch v0 w m0 k v m
    /\ loop_body start_epoch v w m = Returns (v', stop) m'
    /\ change_injected v = false
    /\ change_injected v' = true
    /\ (calls m <= n < calls m')%nat
    /\ change_injected_epoch v' = Some (clock w n)
    /\ change_prompts (log m') = S (change_prompts (log m)).

(** Pass [k] stops on a failed transport command. *)
Definition aborts_at (start_epoch : Q) (v0 : LoopVars) (w : World)
  (m0 : Machine) (k : nat) : Prop :=
  exists v m e m',
    at_iteration start_epoch v0 w m0 k v m
    /\ loop_body start_epoch v w m = Raises e m'.

End Driver.

(** ** The validity checks of [main] *)

Section Validity.

Variable objective : ObjectiveConfig.
Variable allow_missing_hidden_tests : bool.
Variables worker_log_present commands_log_present : bool.
Variable session_result : option SessionResult.
Variable command_events : list CommandEvent.
Variable public_result : ExecResult.
Variable hidden_result : option ExecResult.
Variable hidden_command : string.
Variable git_metrics : GitMetrics.
Variable tak_metrics : TakMetrics.

Definition command_event_types : list string := map ev_type command_events.

(** [name in command_event_type_set] *)
Definition event_logged (name : string) : bool :=
  existsb (String.eqb name) command_event_types.

Definition public_test_executed : bool :=
  test_command_executed (Some public_result).

Definition hidden_test_executed : bool :=
  test_command_executed hidden_result.

Definition worker_progress_evidence : bool :=
  match session_result with
  | Some s => sr_phase1_done_seen s || sr_final_done_seen s
  | None => false
  end
  || (commit_count git_metrics >? 0)
  || (task_count tak_metrics >? 0)
  || (history_event_count tak_metrics >? 0).

(** [if cond: invalid_reasons.append(name)] *)
Definition flag (cond : bool) (name : string) : list string :=
  if cond then [name] else [].

Definition invalid_reasons : list string :=
  flag (negb worker_log_present) "missing_or_empty_worker_log"
  ++ flag (negb commands_log_present) "missing_or_empty_commands_log"
  ++ flag (match session_result with None => true | Some _ => false end)
       "missing_session_result"
  ++ flag (negb (event_logged "worker_start")) "missing_worker_start_event"
  ++ flag (negb (event_logged "initial_prompt")) "missing_initial_prompt_event"
  ++ flag (negb (event_logged "worker_ready")) "missing_worker_ready_event"
  ++ flag (match session_result with
           | Some s => negb (sr_worker_ready s)
           | None => false
           end) "worker_ready_check_failed"
  ++ flag (negb public_test_executed) "public_tests_not_executed"
  ++ flag (hidden_tests_required objective
           && negb (Py.truthy hidden_command)
           && negb allow_missing_hidden_tests) "missing_hidden_test_command"
  ++ flag (hidden_tests_required objective
           && negb allow_missing_hidden_tests
           && negb hidden_test_executed) "hidden_tests_not_executed"
  ++ flag (match session_result with
           | Some s => sr_change_injected s && negb (event_logged "change_prompt")
           | None => false
           end) "missing_change_prompt_event"
  ++ flag (negb worker_progress_evidence) "no_worker_progress_evidence".

(** ["valid": len(invalid_reasons) == 0] *)
Definition valid : bool :=
  match invalid_reasons with [] => true | _ => false end.

End Validity.

(** ** Further functions of [takbench.py] *)

(** [sanitize_session_name]: [re.sub(r"[^A-Za-z0-9_]", "_", name)] *)
Definition session_char (c : ascii) : bool :=
  let n := N_of_ascii c in
  ((48 <=? n) && (n <=? 57) || (65 <=? n) && (n <=? 90)
   || (97 <=? n) && (n <=? 122) || (n =? 95))%N.

Fixpoint sanitize_session_name (name : string) : string :=
  match name with
  | EmptyString => EmptyString
  | String c rest =>
      String (if session_char c then c else "_"%char)
        (sanitize_session_name rest)
  end.

(** [a or b] on a string that may be [None] *)
Definition str_or (a : option string) (b : string) : string :=
  match a with
  | Some s => if Py.truthy s then s else b
  | None => b
  end.

(** The dict returned by [run_tests_and_probes]. *)
Record TestOutputs := mkTestOutputs {
  to_public_result : ExecResult;
  to_hidden_result : option ExecResult;
  to_change_probe_result : option ExecResult;
  to_hidden_command : string;
}.

(** [run_tests_and_probes]; the log files it writes are not modelled. *)
Definition run_tests_and_probes (objective : ObjectiveConfig)
  (hidden_test_command_override : option string) : M TestOutputs :=
  public_result <- exec_shell (public_test_command objective) 300 ;;
  let hidden_command :=
    str_or hidden_test_command_override (hidden_test_command objective) in
  hidden_result <-
    (if Py.truthy hidden_command
     then r <- exec_shell hidden_command 300 ;; ret (Some r)
     else ret None) ;;
  change_probe_result <-
    (if Py.truthy (change_probe_command objective)
     then r <- exec_shell (change_probe_command objective) 120 ;; ret (Some r)
     else ret None) ;;
  ret {| to_public_result := public_result;
         to_hidden_result := hidden_result;
         to_change_probe_result := change_probe_result;
         to_hidden_command := hidden_command |}.

(** In [main]: [hidden_cmd_override = args.hidden_test_cmd.strip() or None] *)
Definition hidden_cmd_override (hidden_test_cmd : string) : option string :=
  let s := Py.strip hidden_test_cmd in
  if Py.truthy s then Some s else None.

(** In [main]: the check that ends the process with status 2 before any
    session is started, when hidden tests are required and no command for
    them is configured. *)
Definition hidden_tests_unconfigured (objective : ObjectiveConfig)
  (hidden_test_cmd : string) (allow_missing_hidden_tests : bool) : bool :=
  let effective_hidden_cmd :=
    str_or (hidden_cmd_override hidden_test_cmd) (hidden_test_command objective) in
  hidden_tests_required objective
  && negb (Py.truthy effective_hidden_cmd)
  && negb allow_missing_hidden_tests.


(** In [transcript_metrics]: the tally of the command log by event type. *)
Fixpoint event_type_counts (command_events : list CommandEvent)
  (counts : gmap string Z) : gmap string Z :=
  match command_events with
  | [] => counts
  | event :: rest =>
      let event_type := ev_type event in
      if negb (Py.truthy event_type) then event_type_counts rest counts
      else event_type_counts rest
             (<[event_type := dict_get counts event_type 0 + 1]> counts)
  end.

(** [bool(value)] of a JSON value *)
Definition json_truthy (v : JValue) : bool :=
  match v with
  | JNull => false
  | JBool b => b
  | JInt n => negb (n =? 0)
  | JFloat q => negb (Qeq_bool q 0)
  | JStr s => Py.truthy s
  | JArr items => match items with [] => false | _ => true end
  | JObj fields => match fields with [] => false | _ => true end
  end.

(** In [collect_tak_metrics]: [has_contract] and [has_verification] of one
    task. *)
Definition contract_flags (task : JValue) : result (bool * bool) :=
  rbind (Json.get task "contract" (JObj [])) (fun contract =>
  match contract with
  | JObj fields =>
      let field key := default JNull (Json.lookup key fields) in
      let verify := field "verification" in
      let has_contract :=
        json_truthy (field "objective") || json_truthy (field "acceptance_criteria")
        || json_truthy verify || json_truthy (field "constraints") in
      let has_verification :=
        match verify with
        | JArr items => 0 <? Z.of_nat (length items)
        | _ => false
        end in
      Ok (has_contract, has_verification)
  | _ => Ok (false, false)
  end).

(** In [collect_tak_metrics]: [contract_task_count] and
    [contract_verification_task_count] over the loaded tasks. *)
Fixpoint contract_counts (tasks : list JValue) (with_contract with_verification : Z)
  : result (Z * Z) :=
  match tasks with
  | [] => Ok (with_contract, with_verification)
  | task :: rest =>
      rbind (contract_flags task) (fun flags =>
      contract_counts rest
        (if fst flags then with_contract + 1 else with_contract)
        (if snd flags then with_verification + 1 else with_verification))
  end.

(** *** Vocabulary for statements about the log and the probes *)

(** The entries of a command log with the given type. *)
Definition events_of_type (kind : string) (l : list CommandEvent)
  : list CommandEvent :=
  List.filter (fun ev => String.eqb (ev_type ev) kind) l.

(** Whether a log entry is a probe that passed. *)
Definition probe_passed (ev : CommandEvent) : bool :=
  match ev_payload ev with
  | PProbe _ passed => passed
  | _ => false
  end.

(** The types of the six entries that [drive_worker_session] logs before
    its main loop, in order. *)
Definition startup_event_types : list string :=
  ["setup"; "setup"; "setup"; "worker_start"; "worker_ready"; "initial_prompt"].

(** The types of the entries that the main loop logs. *)
Definition main_loop_event_types : list string :=
  ["public_probe"; "change_prompt"].

(** From variables [v] and machine [m] to [v'] and [m'], the loop has only
    appended probe and change-prompt entries to the log, has appended to
    [probe_results] the probe entries it logged, has set [public_probe_pass]
    when one of them passed, and has cleared none of its flags. *)
Definition loop_progress (v : LoopVars) (m : Machine) (v' : LoopVars)
  (m' : Machine) : Prop :=
  exists added,
    log m' = log m ++ added
    /\ Forall (fun ev => In (ev_type ev) main_loop_event_types) added
    /\ probe_results v' = probe_results v ++ events_of_type "public_probe" added
    /\ public_probe_pass v'
       = public_probe_pass v
         || existsb probe_passed (events_of_type "public_probe" added)
    /\ (phase1_done_seen v = true -> phase1_done_seen v' = true)
    /\ (final_done_seen v = true -> final_done_seen v' = true)
    /\ (change_injected v = true -> change_injected v' = true)
    /\ (calls m <= calls m')%nat.

(** The reasons that the readiness wait can report. *)
Definition ready_reasons : list string :=
  ["no_wait"; "delay_elapsed"; "ready_token_seen"; "ready_token_timeout"].


(** *** Vocabulary for statements about the task store *)

(** The issue kinds that [load_tasks] records. *)
Definition issue_kinds : list string :=
  ["invalid_json"; "tags_not_sorted_unique"; "depends_on_not_sorted_unique";
   "title_not_trimmed"].

(** Number of issues of a kind. *)
Definition issues_of_kind (kind : string) (issues : list Issue) : nat :=
  length (List.filter (fun i => String.eqb (issue_kind i) kind) issues).

(** Whether a string begins, or ends, with a whitespace character. *)
Definition starts_space (s : string) : bool :=
  match s with
  | EmptyString => false
  | String c _ => Py.isspace c
  end.

Fixpoint ends_space (s : string) : bool :=
  match s with
  | EmptyString => false
  | String c EmptyString => Py.isspace c
  | String _ rest => ends_space rest
  end.

(** ** Sample inputs, used to run the definitions *)

Module Sample.

Definition objective_with (weights : gmap string Z) : ObjectiveConfig :=
  {| objective_id := "markdown_parser_v1";
     name := "Markdown parser";
     description := "";
     root := "/bench/objectives/markdown_parser_v1";
     template_dir := "/bench/objectives/markdown_parser_v1/template";
     initial_prompt_path := "/bench/objectives/markdown_parser_v1/initial.md";
     change_prompt_path := "/bench/objectives/markdown_parser_v1/change.md";
     time_budget_minutes := 60;
     poll_interval_seconds := 5;
     public_probe_interval_seconds := 90;
     worker_ready_strategy := "token";
     worker_ready_delay_seconds := 4;
     worker_ready_timeout_seconds := 5;
     worker_ready_token := "READY>";
     worker_prompt_transport := "tmux_buffer_paste";
     hidden_tests_required := true;
     public_test_command := "pytest -q";
     hidden_test_command := "pytest -q hidden";
     change_probe_command := "";
     change_min_minutes := 10;
     change_target_minutes := 25;
     phase1_done_token := "TAKBENCH_PHASE1_DONE";
     final_done_token := "TAKBENCH_FINAL_DONE";
     scoring := weights |}.

(** the manifest without a [scoring] table: every weight at its default *)
Definition objective : ObjectiveConfig := objective_with ∅.

Definition exited (cmd : string) (code : Z) : ExecResult :=
  {| command := cmd; exit_code := code; stdout := ""; stderr := "";
     timed_out := false |}.

Definition tak_with (issues : list Issue) : TakMetrics :=
  {| task_count := 0; status_counts := ∅; kind_counts := ∅; epic_count := 0;
     child_count := 0; dependency_edges := 0; contract_task_count := 0;
     contract_verification_task_count := 0; history_event_count := 0;
     history_event_counts := ∅; history_events_after_change := 0;
     verification_result_count := 0; context_count := 0; learning_count := 0;
     tasks_modified_after_change := 0; normalization_issues := issues |}.

Definition transcript_with (evidence : list string) : TranscriptMetrics :=
  {| tak_mentions := 0; tak_verify_mentions := 0; pytest_mentions := 0;
     test_command_mentions := 0; manual_tak_edit_evidence := evidence |}.

Definition commit_touching (paths : list string) : Commit :=
  {| sha := "0a1b2c3"; message := "Add heading parser"; timestamp := 1700000000;
     files := paths; lines_changed := 12 |}.

(** A world where every call takes one second, the transcript stays empty,
    tmux succeeds and reports a live pane, and the tests fail. *)
Definition world : World :=
  {| clock := fun n => inject_Z (Z.of_nat n);
     utc := fun _ => "2026-01-01T00:00:00+00:00";
     transcript := fun _ => "";
     tmux := fun _ args _ => exited "tmux" 0;
     shell := fun _ cmd _ => exited cmd 1 |}.

(** A world where every call takes ten minutes. *)
Definition slow_world : World :=
  {| clock := fun n => inject_Z (600 * Z.of_nat n);
     utc := utc world;
     transcript := transcript world;
     tmux := tmux world;
     shell := shell world |}.

Definition machine : Machine := {| calls := 0; log := [] |}.

(** The manifest asking for another prompt transport. *)
Definition objective_over (transport : string) : ObjectiveConfig :=
  {| objective_id := objective_id objective;
     name := name objective;
     description := description objective;
     root := root objective;
     template_dir := template_dir objective;
     initial_prompt_path := initial_prompt_path objective;
     change_prompt_path := change_prompt_path objective;
     time_budget_minutes := time_budget_minutes objective;
     poll_interval_seconds := poll_interval_seconds objective;
     public_probe_interval_seconds := public_probe_interval_seconds objective;
     worker_ready_strategy := worker_ready_strategy objective;
     worker_ready_delay_seconds := worker_ready_delay_seconds objective;
     worker_ready_timeout_seconds := worker_ready_timeout_seconds objective;
     worker_ready_token := worker_ready_token objective;
     worker_prompt_transport := transport;
     hidden_tests_required := hidden_tests_required objective;
     public_test_command := public_test_command objective;
     hidden_test_command := hidden_test_command objective;
     change_probe_command := change_probe_command objective;
     change_min_minutes := change_min_minutes objective;
     change_target_minutes := change_target_minutes objective;
     phase1_done_token := phase1_done_token objective;
     final_done_token := final_done_token objective;
     scoring := scoring objective |}.

(** A world where tmux reports the pane as dead: every command succeeds and
    prints 1 and a newline. *)
Definition dead_pane_world : World :=
  {| clock := clock world;
     utc := utc world;
     transcript := transcript world;
     tmux := fun _ _ _ =>
       {| command := "tmux"; exit_code := 0;
          stdout := String "1" (String "010" EmptyString);
          stderr := EmptyString; timed_out := false |};
     shell := shell world |}.

End Sample.

(** * Theorems *)

(** ** Test execution and validity *)

Lemma truthy_false_iff s : Py.truthy s = false <-> s = EmptyString.
Proof. destruct s; simpl; split; congruence. Qed.

Lemma lstrip_empty_iff s : Py.lstrip s = EmptyString <-> Py.all_space s = true.
Proof.
  induction s as [|c s IH]; simpl; [tauto|].
  destruct (Py.isspace c); simpl; [exact IH|]. split; congruence.
Qed.

Lemma rstrip_empty_iff s : Py.rstrip s = EmptyString <-> Py.all_space s = true.
Proof.
  induction s as [|c s IH]; simpl; [tauto|].
  destruct (Py.rstrip s) eqn:E.
  - destruct (Py.isspace c); simpl.
    + split; intros _; [apply IH|]; reflexivity.
    + split; congruence.
  - split; [congruence|]. intros H. apply andb_true_iff in H as [_ H].
    apply IH in H. congruence.
Qed.

Lemma all_space_lstrip s : Py.all_space s = true -> Py.lstrip s = EmptyString.
Proof. apply lstrip_empty_iff. Qed.

Lemma lstrip_not_space s c r :
  Py.lstrip s = String c r -> Py.isspace c = false.
Proof.
  induction s as [|a s IH]; simpl; [congruence|].
  destruct (Py.isspace a) eqn:E; [exact IH|]. intros [= -> ->]. exact E.
Qed.

(** [s.strip()] is empty exactly for a string of whitespace only (the empty
    string included). *)
Lemma strip_empty_iff s : Py.strip s = EmptyString <-> Py.all_space s = true.
Proof.
  unfold Py.strip. rewrite rstrip_empty_iff. split.
  - intros H. destruct (Py.lstrip s) as [|c r] eqn:E.
    + now apply lstrip_empty_iff.
    + apply lstrip_not_space in E. simpl in H. rewrite E in H. discriminate.
  - intros H. now rewrite (all_space_lstrip _ H).
Qed.

Lemma in_flag c n x : In x (flag c n) <-> c = true /\ x = n.
Proof. destruct c; simpl; intuition congruence. Qed.

(** [main] lists "public_tests_not_executed" exactly when
    [test_command_executed] is false of the public result. *)
Lemma public_tests_not_executed_iff
  objective allow wl cl sess evs r hres hcmd git tak :
  In "public_tests_not_executed"
    (invalid_reasons objective allow wl cl sess evs r hres hcmd git tak)
  <-> test_command_executed (Some r) = false.
Proof.
  unfold invalid_reasons, public_test_executed.
  rewrite !in_app_iff, !in_flag. split.
  - intros H. decompose [and or] H; try discriminate.
    now apply negb_true_iff.
  - intros H. do 7 right. left. split; [now apply negb_true_iff | reflexivity].
Qed.

(** C10: [test_command_executed] is false exactly for an absent result, a
    timed-out one, exit code 127, or a command string of whitespace only;
    hence a public test that ran and exited with a code other than 127 is
    executed, and [main] then does not list "public_tests_not_executed". *)
Theorem test_command_executed_spec :
  (forall result : option ExecResult,
      test_command_executed result = false <->
      (result = None
       \/ exists r, result = Some r
            /\ (timed_out r = true \/ exit_code r = 127
                \/ Py.all_space (command r) = true)))
  /\ (forall r : ExecResult,
        timed_out r = false -> exit_code r <> 127 ->
        Py.all_space (command r) = false ->
        test_command_executed (Some r) = true
        /\ forall objective allow wl cl sess evs hres hcmd git tak,
            ~ In "public_tests_not_executed"
                (invalid_reasons objective allow wl cl sess evs r hres hcmd git tak)).
Proof.
  assert (Hspec : forall r, test_command_executed (Some r) = false <->
            (timed_out r = true \/ exit_code r = 127
             \/ Py.all_space (command r) = true)).
  { intros r. unfold test_command_executed.
    destruct (timed_out r); [intuition|].
    destruct (Z.eqb_spec (exit_code r) 127) as [E|E]; [intuition|].
    rewrite truthy_false_iff, strip_empty_iff. intuition congruence. }
  split.
  - intros [r|].
    + rewrite Hspec. split.
      * intros H. right. exists r. auto.
      * intros [H|[r' [[= <-] H]]]; [discriminate|exact H].
    + simpl. intuition.
  - intros r Ht Hc Hs.
    assert (Hex : test_command_executed (Some r) = true).
    { destruct (test_command_executed (Some r)) eqn:E; [reflexivity|].
      apply Hspec in E. destruct E as [E|[E|E]]; congruence. }
    split; [exact Hex|].
    intros objective allow wl cl sess evs hres hcmd git tak Hin.
    apply public_tests_not_executed_iff in Hin. congruence.
Qed.

Lemma test_command_executed_spec_witness :
  test_command_executed (Some (Sample.exited "pytest -q" 1)) = true
  /\ ~ In "public_tests_not_executed"
         (invalid_reasons Sample.objective false true true None []
            (Sample.exited "pytest -q" 1) None "pytest -q hidden"
            (Git.collect_git_metrics [] None) (Sample.tak_with [])).
Proof.
  destruct (proj2 test_command_executed_spec (Sample.exited "pytest -q" 1))
    as [H1 H2].
  - reflexivity.
  - simpl. lia.
  - reflexivity.
  - split; [exact H1 | apply H2].
Defined.

(** ** Scoring *)

Section ScoringFacts.

Variable objective : ObjectiveConfig.
Variable public_result : ExecResult.
Variable change_probe_result : option ExecResult.
Variable tak : TakMetrics.
Variable git : GitMetrics.
Variable transcript : TranscriptMetrics.
Variable change_injected_epoch : option Q.

(** C4: with first_penalty=20, add_penalty=10 and cap=40 the tampering
    penalty of the report is 0, 20, 30, 40 for 0, 1, 2, 3 incidents and stays
    at 40 from 3 incidents on; the incidents are the evidence lines plus the
    normalization issues. *)
Theorem manual_tak_penalty_saturates
  (hidden_result : option ExecResult) (change_injected : bool) :
  dict_get (scoring objective) "penalty_manual_tak_first" 20 = 20 ->
  dict_get (scoring objective) "penalty_manual_tak_additional" 10 = 10 ->
  dict_get (scoring objective) "penalty_manual_tak_cap" 40 = 40 ->
  let report :=
    run_scoring objective public_result hidden_result change_probe_result
      tak git transcript change_injected change_injected_epoch in
  let incidents :=
    (length (manual_tak_edit_evidence transcript)
     + length (normalization_issues tak))%nat in
  let penalty := manual_tak_edits (pn_components (penalties report)) in
  manual_tak_edit_incidents (penalties report) = Z.of_nat incidents
  /\ (incidents = 0%nat -> penalty = 0)
  /\ (incidents = 1%nat -> penalty = 20)
  /\ (incidents = 2%nat -> penalty = 30)
  /\ (incidents = 3%nat -> penalty = 40)
  /\ ((3 <= incidents)%nat -> penalty = 40).
Proof.
  intros Hfirst Hadd Hcap report incidents penalty.
  assert (Hn : incident_count tak transcript = Z.of_nat incidents).
  { unfold incident_count, incidents. lia. }
  assert (Hp : penalty =
               if Z.of_nat incidents >? 0
               then Z.min 40 (20 + Z.max 0 (Z.of_nat incidents - 1) * 10)
               else 0).
  { unfold penalty, report. simpl. unfold manual_tak_penalty.
    rewrite Hfirst, Hadd, Hcap, Hn. reflexivity. }
  split; [exact Hn|].
  repeat split; intros H; rewrite Hp;
    destruct (Z.gtb_spec (Z.of_nat incidents) 0); lia.
Qed.

(** C6: the clamped total is [max 0] of the category scores plus bonus minus
    penalties, so it is never negative. *)
Theorem total_clamped_nonneg
  (hidden_result : option ExecResult) (change_injected : bool) :
  let report :=
    run_scoring objective public_result hidden_result change_probe_result
      tak git transcript change_injected change_injected_epoch in
  tot_clamped (totals report) =
    Z.max 0 (fn_score (functional report) + tw_score (tak_workflow report)
             + gd_score (git_discipline report)
             + ca_score (change_adaptation report)
             + bn_score (bonus report) - pn_score (penalties report))
  /\ 0 <= tot_clamped (totals report).
Proof.
  simpl. split; [reflexivity | apply Z.le_max_l].
Qed.

(** C5, amended: when the functional_hidden weight is not negative, turning
    a failing (or absent) hidden result into a passing one, all else equal,
    does not decrease the functional score. *)
Theorem hidden_pass_monotone
  (hidden_fail hidden_ok : option ExecResult) (change_injected : bool) :
  0 <= dict_get (scoring objective) "functional_hidden" 30 ->
  (forall r, hidden_fail = Some r -> exit_code r <> 0) ->
  (exists r, hidden_ok = Some r /\ exit_code r = 0) ->
  fn_score (functional
    (run_scoring objective public_result hidden_fail change_probe_result
       tak git transcript change_injected change_injected_epoch))
  <= fn_score (functional
    (run_scoring objective public_result hidden_ok change_probe_result
       tak git transcript change_injected change_injected_epoch)).
Proof.
  intros Hw Hfail [r [-> Hr]]. simpl. unfold functional_score.
  assert (Hf : score_hidden_pass hidden_fail = false).
  { unfold score_hidden_pass. destruct hidden_fail as [r'|]; [|reflexivity].
    apply Z.eqb_neq. now apply Hfail. }
  rewrite Hf. unfold score_hidden_pass. rewrite Hr. simpl.
  destruct (score_public_pass public_result); lia.
Qed.

(** C7, amended: without an injected change the three change_adaptation
    components are zero and the score is [min(w_change, 0)], which is zero
    when the change_adaptation weight is not negative. *)
Theorem change_adaptation_zero_without_injection
  (hidden_result : option ExecResult) :
  let report :=
    run_scoring objective public_result hidden_result change_probe_result
      tak git transcript false change_injected_epoch in
  let c := ca_components (change_adaptation report) in
  replan_after_change c = 0
  /\ implement_and_validate_change c = 0
  /\ close_loop c = 0
  /\ ca_score (change_adaptation report)
     = Z.min (dict_get (scoring objective) "change_adaptation" 10) 0
  /\ (0 <= dict_get (scoring objective) "change_adaptation" 10 ->
      ca_score (change_adaptation report) = 0).
Proof.
  simpl. unfold change_score. simpl. repeat split. lia.
Qed.

End ScoringFacts.

Lemma manual_tak_penalty_saturates_witness :
  let report :=
    run_scoring Sample.objective (Sample.exited "pytest -q" 0) None None
      (Sample.tak_with [{| issue_file := ".tak/tasks/3.json";
                           issue_kind := "title_not_trimmed" |}])
      (Git.collect_git_metrics [] None)
      (Sample.transcript_with ["vim .tak/tasks/1.json"; "cp x .tak/tasks/2.json";
                               "sed -i s/a/b/ .tak/tasks/1.json"])
      false None in
  manual_tak_edit_incidents (penalties report) = 4
  /\ manual_tak_edits (pn_components (penalties report)) = 40.
Proof.
  pose proof (manual_tak_penalty_saturates Sample.objective
    (Sample.exited "pytest -q" 0) None
    (Sample.tak_with [{| issue_file := ".tak/tasks/3.json";
                         issue_kind := "title_not_trimmed" |}])
    (Git.collect_git_metrics [] None)
    (Sample.transcript_with ["vim .tak/tasks/1.json"; "cp x .tak/tasks/2.json";
                             "sed -i s/a/b/ .tak/tasks/1.json"])
    None None false eq_refl eq_refl eq_refl) as H.
  simpl in H. destruct H as (Hn & _ & _ & _ & _ & H3).
  split; [exact Hn | apply H3; lia].
Defined.

(** C5 as stated fails: a manifest may give functional_hidden a negative
    weight, and then the passing hidden test lowers the functional score. *)
Lemma hidden_pass_not_monotone :
  let objective := Sample.objective_with {[ "functional_hidden" := -5 ]} in
  let score hidden :=
    fn_score (functional
      (run_scoring objective (Sample.exited "pytest -q" 0) hidden None
         (Sample.tak_with []) (Git.collect_git_metrics [] None)
         (Sample.transcript_with []) false None)) in
  score (Some (Sample.exited "pytest -q hidden" 1)) = 15
  /\ score (Some (Sample.exited "pytest -q hidden" 0)) = 10
  /\ ~ (score (Some (Sample.exited "pytest -q hidden" 1))
        <= score (Some (Sample.exited "pytest -q hidden" 0))).
Proof.
  vm_compute. repeat split; intros H; apply H; reflexivity.
Qed.

Lemma hidden_pass_monotone_witness :
  let score hidden :=
    fn_score (functional
      (run_scoring Sample.objective (Sample.exited "pytest -q" 0) hidden None
         (Sample.tak_with []) (Git.collect_git_metrics [] None)
         (Sample.transcript_with []) false None)) in
  score (Some (Sample.exited "pytest -q hidden" 1))
  <= score (Some (Sample.exited "pytest -q hidden" 0)).
Proof.
  apply (hidden_pass_monotone Sample.objective (Sample.exited "pytest -q" 0)
           None (Sample.tak_with []) (Git.collect_git_metrics [] None)
           (Sample.transcript_with []) None
           (Some (Sample.exited "pytest -q hidden" 1))
           (Some (Sample.exited "pytest -q hidden" 0)) false).
  - vm_compute. discriminate.
  - intros r [= <-]. simpl. lia.
  - eexists. split; reflexivity.
Defined.

(** C7 as stated fails for the score: with a negative change_adaptation
    weight the score is that weight, though no change was injected. *)
Lemma change_score_nonzero_without_injection :
  let report :=
    run_scoring (Sample.objective_with {[ "change_adaptation" := -3 ]})
      (Sample.exited "pytest -q" 0) None None
      (Sample.tak_with []) (Git.collect_git_metrics [] None)
      (Sample.transcript_with []) false None in
  ca_score (change_adaptation report) = -3
  /\ ca_score (change_adaptation report) <> 0.
Proof. vm_compute. split; [reflexivity | discriminate]. Qed.

Lemma change_adaptation_zero_without_injection_witness :
  ca_score (change_adaptation
    (run_scoring Sample.objective (Sample.exited "pytest -q" 0) None None
       (Sample.tak_with []) (Git.collect_git_metrics [] None)
       (Sample.transcript_with []) false None)) = 0.
Proof.
  apply (change_adaptation_zero_without_injection Sample.objective
           (Sample.exited "pytest -q" 0) None (Sample.tak_with [])
           (Git.collect_git_metrics [] None) (Sample.transcript_with [])
           None None).
  vm_compute. discriminate.
Defined.

(** The spec's scenario: public tests pass, hidden tests fail, default
    weights 15 and 30. *)
Example functional_public_only :
  let report :=
    run_scoring Sample.objective (Sample.exited "pytest -q" 0)
      (Some (Sample.exited "pytest -q hidden" 1)) None
      (Sample.tak_with []) (Git.collect_git_metrics [] None)
      (Sample.transcript_with []) false None in
  fn_score (functional report) = 15 /\ fn_max (functional report) = 45.
Proof. vm_compute. split; reflexivity. Qed.

(** The spec's scenario: no commit at all zeroes git_discipline and costs
    30 points, and a run without tokens, commits, tasks or history events
    is flagged with "no_worker_progress_evidence". *)
Example no_progress_run :
  let git := Git.collect_git_metrics [] None in
  let report :=
    run_scoring Sample.objective (Sample.exited "pytest -q" 1) None None
      (Sample.tak_with []) git (Sample.transcript_with []) false None in
  gd_score (git_discipline report) = 0
  /\ no_commits (pn_components (penalties report)) = 30
  /\ tot_clamped (totals report) = 0
  /\ In "no_worker_progress_evidence"
       (invalid_reasons Sample.objective false true true None []
          (Sample.exited "pytest -q" 1) None "pytest -q hidden" git
          (Sample.tak_with [])).
Proof. vm_compute. repeat split; auto 20. Qed.

(** ** Git metrics *)

Lemma count_if_bounds {A} (p : A -> bool) (l : list A) :
  0 <= Git.count_if p l <= Z.of_nat (length l).
Proof.
  induction l as [|x l IH]; simpl length; simpl Git.count_if; [lia|].
  destruct (p x); lia.
Qed.

Lemma count_if_all {A} (p : A -> bool) (l : list A) :
  (forall x, In x l -> p x = true) ->
  Git.count_if p l = Z.of_nat (length l).
Proof.
  induction l as [|x l IH]; intros H; simpl length; simpl Git.count_if; [lia|].
  rewrite (H x) by (left; reflexivity).
  rewrite IH by (intros y Hy; apply H; right; exact Hy). lia.
Qed.

Lemma ratio_unit_interval (a b : Z) :
  0 <= a <= b -> 0 < b -> (0 <= Git.ratio a b <= 1)%Q.
Proof.
  intros Ha Hb. unfold Git.ratio.
  assert (Hb' : (0 < inject_Z b)%Q).
  { change (inject_Z 0 < inject_Z b)%Q. rewrite <- Zlt_Qlt. exact Hb. }
  split.
  - apply Qle_shift_div_l; [exact Hb'|]. rewrite Qmult_0_l.
    change (inject_Z 0 <= inject_Z a)%Q. rewrite <- Zle_Qle. lia.
  - apply Qle_shift_div_r; [exact Hb'|]. rewrite Qmult_1_l.
    rewrite <- Zle_Qle. lia.
Qed.

Lemma ratio_self (b : Z) : 0 < b -> (Git.ratio b b == 1)%Q.
Proof.
  intros Hb. unfold Git.ratio. apply Qmult_inv_r.
  intros H. apply (inject_Z_injective b 0) in H. lia.
Qed.

(** C3, amended: small_commit_ratio lies in [0,1] for every commit list, and
    it is 1 on a non-empty list whose commits all touch between 1 and 3
    files. *)
Theorem small_commit_ratio_range :
  (forall (commits : list Commit) (change_epoch : option Q),
      (0 <= small_commit_ratio (Git.collect_git_metrics commits change_epoch) <= 1)%Q)
  /\ (forall (commits : list Commit) (change_epoch : option Q),
        commits <> [] ->
        (forall c, In c commits -> 1 <= file_count c <= 3) ->
        (small_commit_ratio (Git.collect_git_metrics commits change_epoch) == 1)%Q).
Proof.
  split; intros commits change_epoch.
  - simpl. destruct (Z.gtb_spec (Z.of_nat (length commits)) 0) as [H|H].
    + apply ratio_unit_interval; [apply count_if_bounds | lia].
    + split; [apply Qle_refl | discriminate].
  - intros Hne Hall. simpl.
    destruct (Z.gtb_spec (Z.of_nat (length commits)) 0) as [H|H].
    + rewrite count_if_all; [apply ratio_self; lia|].
      intros c Hc. specialize (Hall c Hc). unfold Git.is_small.
      apply andb_true_iff. split; [apply Z.ltb_lt | apply Z.leb_le]; lia.
    + destruct commits; [congruence | simpl in H; lia].
Qed.

(** C3 as stated fails: a commit that touches no file (an empty commit, or a
    merge, for which [git show --name-only] lists nothing) touches at most 3
    files and is not counted as small. *)
Lemma small_commit_ratio_empty_commit :
  let commits := [Sample.commit_touching []] in
  commits <> []
  /\ (forall c, In c commits -> file_count c <= 3)
  /\ ~ (small_commit_ratio (Git.collect_git_metrics commits None) == 1)%Q.
Proof.
  split; [discriminate|]. split.
  - intros c [<-|[]]. vm_compute. discriminate.
  - vm_compute. discriminate.
Qed.

Lemma small_commit_ratio_range_witness :
  let commits :=
    [Sample.commit_touching ["src/markdown.py"];
     Sample.commit_touching [".tak/tasks/1.json"; "src/markdown.py"; "README.md"]] in
  (small_commit_ratio (Git.collect_git_metrics commits None) == 1)%Q.
Proof.
  apply (proj2 small_commit_ratio_range).
  - discriminate.
  - intros c [<-|[<-|[]]]; vm_compute; split; discriminate.
Defined.

(** ** Task store *)

(** A file that is not JSON adds one "invalid_json" issue, no task, and the
    scan goes on with the remaining files. *)
Lemma scan_invalid_json (f : TaskFile) rest tasks issues :
  tf_loaded f = NotJson ->
  Store.scan (f :: rest) tasks issues
  = Store.scan rest tasks (issues ++ [Store.issue f "invalid_json"]).
Proof. intros H. simpl. rewrite H. reflexivity. Qed.

(** A file whose JSON is not an object stops the scan: the value is
    appended to [tasks], then [task.get] raises. *)
Lemma scan_non_object (f : TaskFile) (v : JValue) rest tasks issues :
  tf_loaded f = Json v ->
  (forall fields, v <> JObj fields) ->
  Store.scan (f :: rest) tasks issues = Raise AttributeError.
Proof.
  intros H Hv. simpl. rewrite H. unfold Store.check_task.
  destruct v; try reflexivity. now elim (Hv fields).
Qed.

(** C2, at the failing input: a task store holding [1.json] with content
    [[]] and [2.json] with content that is not JSON.  [load_tasks] raises
    [AttributeError] on [1.json] instead of returning with "invalid_json"
    issues; the same store without [1.json] is scanned to the end. *)
Theorem load_tasks_aborts_on_non_object :
  let bad_array := {| tf_name := "1.json"; tf_loaded := Json (JArr []) |} in
  let bad_text := {| tf_name := "2.json"; tf_loaded := NotJson |} in
  Store.load_tasks (Some [bad_text; bad_array]) = Raise AttributeError
  /\ Store.load_tasks (Some [bad_text])
     = Ok ([], [{| issue_file := ".tak/tasks/2.json";
                   issue_kind := "invalid_json" |}]).
Proof. split; reflexivity. Qed.

(** ** Session driver *)

(** Unfolds the primitives of the driver monad. *)
Ltac run_step :=
  unfold bind, ret, raise, time_time, utc_now, read_text_safe, sleep,
    tmux_cmd, exec_shell, append_jsonl, ensure_success, tick; simpl.

Section DriverFacts.

Variable objective : ObjectiveConfig.
Variables pane_target change_prompt : string.

Lemma change_prompts_app l l' :
  change_prompts (l ++ l') = (change_prompts l + change_prompts l')%nat.
Proof. unfold change_prompts. rewrite List.filter_app. apply length_app. Qed.

(** The top of a pass never fails, leaves the latch and the end reason
    alone and logs probes only. *)
Lemma observe_spec start v w m :
  exists v1 m1,
    observe objective start v w m
    = Returns ((clock w (calls m) - start)%Q, v1) m1
    /\ change_injected v1 = change_injected v
    /\ change_injected_epoch v1 = change_injected_epoch v
    /\ end_reason v1 = end_reason v
    /\ change_prompts (log m1) = change_prompts (log m)
    /\ (calls m <= calls m1)%nat.
Proof.
  unfold observe. run_step.
  destruct (Py.Qgeb _ _); run_step.
  - do 2 eexists. split; [reflexivity|]. simpl. repeat split; [|lia].
    rewrite change_prompts_app. unfold change_prompts. simpl. lia.
  - do 2 eexists. split; [reflexivity|]. simpl. repeat split. lia.
Qed.

(** [tmux_send_prompt] either raises on one of its three commands, leaving
    the log as it was, or appends one entry of the given type. *)
Lemma tmux_send_prompt_spec pane text kind w m :
  (exists e m', tmux_send_prompt pane text kind w m = Raises e m'
                /\ log m' = log m)
  \/ (exists m', tmux_send_prompt pane text kind w m = Returns tt m'
                 /\ calls m' = (4 + calls m)%nat
                 /\ log m' = log m ++ [{| ev_timestamp := utc w (3 + calls m);
                                          ev_type := kind;
                                          ev_target := Some pane;
                                          ev_payload := PPrompt text |}]).
Proof.
  unfold tmux_send_prompt. run_step.
  destruct (exit_code (tmux w (calls m) _ _) =? 0); run_step;
    [|left; do 2 eexists; split; reflexivity].
  destruct (exit_code (tmux w (S (calls m)) _ _) =? 0); run_step;
    [|left; do 2 eexists; split; reflexivity].
  destruct (exit_code (tmux w (S (S (calls m))) _ _) =? 0); run_step;
    [|left; do 2 eexists; split; reflexivity].
  right. eexists. split; [reflexivity|]. simpl. split; reflexivity.
Qed.

(** With tmux answering every command with exit code 0, the prompt is sent
    and logged. *)
Lemma tmux_send_prompt_ok pane text kind w m :
  (forall i args input, exit_code (tmux w i args input) = 0) ->
  tmux_send_prompt pane text kind w m
  = Returns tt
      {| calls := 4 + calls m;
         log := log m ++ [{| ev_timestamp := utc w (3 + calls m);
                             ev_type := kind;
                             ev_target := Some pane;
                             ev_payload := PPrompt text |}] |}.
Proof.
  intros Htmux. unfold tmux_send_prompt. run_step.
  repeat (rewrite Htmux; run_step). reflexivity.
Qed.

(** The injection step: nothing happens unless the trigger holds with the
    latch open; then the prompt is sent, which either aborts the run or sets
    the latch, records the clock and logs one "change_prompt" entry. *)
Lemma inject_change_spec elapsed v w m :
  (change_trigger objective elapsed v && negb (change_injected v) = false
   /\ inject_change objective pane_target change_prompt elapsed v w m
      = Returns v m)
  \/ (change_trigger objective elapsed v = true
      /\ change_injected v = false
      /\ ((exists e m',
             inject_change objective pane_target change_prompt elapsed v w m
             = Raises e m' /\ log m' = log m)
          \/ (exists v' m',
                inject_change objective pane_target change_prompt elapsed v w m
                = Returns v' m'
                /\ change_injected v' = true
                /\ change_injected_epoch v' = Some (clock w (4 + calls m))
                /\ calls m' = (5 + calls m)%nat
                /\ final_done_seen v' = final_done_seen v
                /\ end_reason v' = end_reason v
                /\ change_prompts (log m') = S (change_prompts (log m))))).
Proof.
  unfold inject_change.
  destruct (change_trigger objective elapsed v && negb (change_injected v)) eqn:E.
  - right. apply andb_true_iff in E as [Ht Hi]. apply negb_true_iff in Hi.
    split; [exact Ht|]. split; [exact Hi|].
    unfold bind.
    destruct (tmux_send_prompt_spec pane_target change_prompt "change_prompt" w m)
      as [(e & m' & He & Hl) | (m' & He & Hc & Hl)]; rewrite He.
    + left. eauto.
    + right. run_step. do 2 eexists. split; [reflexivity|]. simpl.
      rewrite Hc, Hl, change_prompts_app. unfold change_prompts. simpl.
      repeat split. lia.
  - left. split; reflexivity.
Qed.

(** The end of a pass never fails and writes nothing to the log; a [break]
    sets one of the three end reasons, otherwise the variables are kept. *)
Lemma end_checks_spec elapsed v w m :
  exists v' stop m',
    end_checks objective pane_target elapsed v w m = Returns (v', stop) m'
    /\ log m' = log m
    /\ change_injected v' = change_injected v
    /\ change_injected_epoch v' = change_injected_epoch v
    /\ (if stop then In (end_reason v') loop_end_reasons else v' = v)
    /\ (calls m <= calls m')%nat.
Proof.
  unfold end_checks, pane_dead. run_step.
  destruct (negb _); run_step.
  { do 3 eexists. split; [reflexivity|]. simpl. intuition lia. }
  destruct (String.eqb _ "1"); run_step.
  { do 3 eexists. split; [reflexivity|]. simpl. intuition lia. }
  destruct (change_injected v && final_done_seen v); run_step.
  { do 3 eexists. split; [reflexivity|]. simpl. intuition lia. }
  destruct (Py.Qgeb _ _); run_step.
  { do 3 eexists. split; [reflexivity|]. simpl. intuition lia. }
  do 3 eexists. split; [reflexivity|]. simpl. intuition lia.
Qed.

Lemma loop_body_break_reason start v w m v' m' :
  loop_body objective pane_target change_prompt start v w m
  = Returns (v', true) m' ->
  In (end_reason v') loop_end_reasons.
Proof.
  unfold loop_body, bind.
  destruct (observe_spec start v w m) as (v1 & m1 & -> & _). simpl.
  destruct (inject_change objective pane_target change_prompt _ v1 w m1)
    as [v2 m2| |]; try discriminate.
  destruct (end_checks_spec (clock w (calls m) - start) v2 w m2)
    as (v3 & stop & m3 & -> & _ & _ & _ & H & _).
  intros [= <- -> <-]. exact H.
Qed.

Lemma main_loop_break_reason fuel start v w m v' m' :
  main_loop objective pane_target change_prompt fuel start v w m
  = Returns (v', true) m' ->
  In (end_reason v') loop_end_reasons.
Proof.
  revert v m. induction fuel as [|fuel IH]; intros v m; simpl.
  - unfold ret. discriminate.
  - unfold bind.
    destruct (loop_body objective pane_target change_prompt start v w m)
      as [[v1 stop] m1| |] eqn:E; try discriminate.
    simpl. destruct stop.
    + unfold ret. intros [= <- <-]. eapply loop_body_break_reason, E.
    + apply IH.
Qed.

(** C1, amended: a pass in which the pane is alive, the final-token exit is
    not taken and elapsed has reached the budget ends the loop with the end
    reason "time_budget_reached"; every run that returns carries one of
    "time_budget_reached", "worker_pane_dead", "final_done_token_seen", and
    so never "timeout". *)
Theorem budget_end_reason :
  (forall start v w m elapsed v1 m1 v2 m2 m3,
      observe objective start v w m = Returns (elapsed, v1) m1 ->
      inject_change objective pane_target change_prompt elapsed v1 w m1
      = Returns v2 m2 ->
      pane_dead pane_target w m2 = Returns false m3 ->
      change_injected v2 && final_done_seen v2 = false ->
      (inject_Z (budget_seconds objective) <= elapsed)%Q ->
      forall fuel,
        main_loop objective pane_target change_prompt (S fuel) start v w m
        = Returns (set_end_reason v2 "time_budget_reached", true) m3)
  /\ (forall repo_dir initial_prompt worker_cmd fuel w m r m',
        drive_worker_session objective repo_dir pane_target initial_prompt
          change_prompt worker_cmd fuel w m = Returns r m' ->
        In (sr_end_reason r) loop_end_reasons
        /\ sr_end_reason r <> "timeout").
Proof.
  split.
  - intros start v w m elapsed v1 m1 v2 m2 m3 Hobs Hinj Hdead Hfin Hbudget fuel.
    simpl. unfold bind at 1. unfold loop_body, bind at 1. rewrite Hobs. simpl.
    unfold bind at 1. rewrite Hinj. unfold end_checks, bind at 1.
    rewrite Hdead. rewrite Hfin.
    apply Qle_bool_iff in Hbudget. unfold Py.Qgeb. rewrite Hbudget.
    reflexivity.
  - intros repo_dir initial_prompt worker_cmd fuel w m r m'.
    unfold drive_worker_session, bind at 1.
    destruct (start_worker _ _ _ _ _ _ w m) as [rs m1| |]; try discriminate.
    unfold run_session. run_step.
    destruct (main_loop _ _ _ _ _ _ w _) as [[v stop] m2| |] eqn:E;
      try discriminate.
    simpl. destruct stop; [|discriminate].
    intros [= <- _]. simpl.
    apply main_loop_break_reason in E.
    split; [exact E|].
    intros Heq. rewrite Heq in E. simpl in E.
    destruct E as [E|[E|[E|[]]]]; discriminate E.
Qed.

(** *** The change prompt *)

Section ChangeInjection.

Variable start : Q.
Variable w : World.
Variable m0 : Machine.

(** One more pass at the end of [k] passes. *)
Lemma main_loop_snoc k v0 :
  main_loop objective pane_target change_prompt (S k) start v0 w m0
  = match main_loop objective pane_target change_prompt k start v0 w m0 with
    | Returns (v, false) m =>
        match loop_body objective pane_target change_prompt start v w m with
        | Returns r m' => Returns r m'
        | Raises e m' => Raises e m'
        | Diverges => Diverges
        end
    | r => r
    end.
Proof.
  revert v0 m0. induction k as [|k IH]; intros v0 m.
  - simpl. unfold bind, ret.
    destruct (loop_body _ _ _ _ _ _ _) as [[v1 stop] m1| |]; [|reflexivity..].
    simpl. destruct stop; reflexivity.
  - change (main_loop objective pane_target change_prompt (S (S k)) start v0 w m)
      with (bind (loop_body objective pane_target change_prompt start v0)
              (fun r => if snd r then ret r
                        else main_loop objective pane_target change_prompt
                               (S k) start (fst r)) w m).
    change (main_loop objective pane_target change_prompt (S k) start v0 w m)
      with (bind (loop_body objective pane_target change_prompt start v0)
              (fun r => if snd r then ret r
                        else main_loop objective pane_target change_prompt
                               k start (fst r)) w m).
    unfold bind.
    destruct (loop_body _ _ _ _ v0 w m) as [[v1 stop] m1| |]; [|reflexivity..].
    simpl. destruct stop; [reflexivity|]. apply IH.
Qed.

Lemma at_iteration_0 v0 v m :
  at_iteration objective pane_target change_prompt start v0 w m0 0 v m
  <-> v = v0 /\ m = m0.
Proof.
  unfold at_iteration. simpl. unfold ret. split.
  - intros [= -> ->]. tauto.
  - intros [-> ->]. reflexivity.
Qed.

Lemma at_iteration_S v0 k v' m' :
  at_iteration objective pane_target change_prompt start v0 w m0 (S k) v' m'
  <-> exists v m,
        at_iteration objective pane_target change_prompt start v0 w m0 k v m
        /\ loop_body objective pane_target change_prompt start v w m
           = Returns (v', false) m'.
Proof.
  unfold at_iteration. rewrite main_loop_snoc. split.
  - destruct (main_loop _ _ _ k _ _ _ _) as [[v stop] m| |]; try discriminate.
    destruct stop; [discriminate|].
    destruct (loop_body _ _ _ _ v w m) as [r m1| |] eqn:E; try discriminate.
    intros [= -> ->]. eauto.
  - intros (v & m & -> & ->). reflexivity.
Qed.

Lemma at_iteration_fun v0 k v m v' m' :
  at_iteration objective pane_target change_prompt start v0 w m0 k v m ->
  at_iteration objective pane_target change_prompt start v0 w m0 k v' m' ->
  v = v' /\ m = m'.
Proof. unfold at_iteration. intros -> [= -> ->]. tauto. Qed.

(** What one pass does to the latch, the epoch and the log. *)
Lemma loop_body_cases v m :
  exists v1 m1,
    observe objective start v w m
    = Returns ((clock w (calls m) - start)%Q, v1) m1
    /\ ((change_trigger objective (clock w (calls m) - start) v1
          && negb (change_injected v) = false
         /\ exists v' stop m',
              loop_body objective pane_target change_prompt start v w m
              = Returns (v', stop) m'
              /\ change_injected v' = change_injected v
              /\ change_injected_epoch v' = change_injected_epoch v
              /\ change_prompts (log m') = change_prompts (log m))
        \/ (change_trigger objective (clock w (calls m) - start) v1 = true
            /\ change_injected v = false
            /\ ((exists e m',
                   loop_body objective pane_target change_prompt start v w m
                   = Raises e m'
                   /\ change_prompts (log m') = change_prompts (log m))
                \/ (exists v' stop m' n,
                      loop_body objective pane_target change_prompt start v w m
                      = Returns (v', stop) m'
                      /\ change_injected v' = true
                      /\ (calls m <= n < calls m')%nat
                      /\ change_injected_epoch v' = Some (clock w n)
                      /\ change_prompts (log m')
                         = S (change_prompts (log m)))))).
Proof.
  destruct (observe_spec start v w m)
    as (v1 & m1 & Hobs & Hci & Hce & _ & Hlog & Hcalls).
  exists v1, m1. split; [exact Hobs|].
  unfold loop_body, bind. rewrite Hobs. simpl. rewrite <- Hci.
  destruct (inject_change_spec (clock w (calls m) - start) v1 w m1)
    as [[Hno ->] | (Ht & Hi & [(e & m2 & -> & Hl2)
                             | (v2 & m2 & -> & Hi2 & He2 & Hc2 & _ & _ & Hl2)])].
  - left. split; [exact Hno|].
    destruct (end_checks_spec (clock w (calls m) - start) v1 w m1)
      as (v3 & stop & m3 & -> & Hl3 & Hi3 & He3 & _).
    exists v3, stop, m3. rewrite Hl3, Hi3, He3, Hce, Hlog. tauto.
  - right. split; [exact Ht|]. split; [exact Hi|]. left.
    exists e, m2. rewrite Hl2, Hlog. tauto.
  - right. split; [exact Ht|]. split; [exact Hi|]. right.
    destruct (end_checks_spec (clock w (calls m) - start) v2 w m2)
      as (v3 & stop & m3 & -> & Hl3 & Hi3 & He3 & _ & Hc3).
    exists v3, stop, m3, (4 + calls m1)%nat.
    rewrite Hl3, Hi3, He3, Hl2, Hlog, He2.
    repeat split; try reflexivity; try assumption; lia.
Qed.

Lemma observe_fun v m elapsed v1 m1 :
  observe objective start v w m = Returns (elapsed, v1) m1 ->
  forall v2 m2,
    observe objective start v w m
    = Returns ((clock w (calls m) - start)%Q, v2) m2 ->
    elapsed = (clock w (calls m) - start)%Q /\ v1 = v2.
Proof. intros -> v2 m2 [= -> -> _]. tauto. Qed.

(** What holds at the top of every pass of a run started on the initial
    variables: the latch is closed exactly when the trigger held in an
    earlier pass, the log holds one "change_prompt" entry more than at the
    start exactly when the latch is closed, and the epoch is set exactly
    then. *)
Lemma latch_invariant k v m :
  at_iteration objective pane_target change_prompt start
    (initial_vars objective start) w m0 k v m ->
  (change_injected v = true ->
   exists j, (j < k)%nat
     /\ trigger_at objective pane_target change_prompt start
          (initial_vars objective start) w m0 j)
  /\ (change_injected v = false ->
      forall j, (j < k)%nat ->
        ~ trigger_at objective pane_target change_prompt start
            (initial_vars objective start) w m0 j).
Proof.
  revert v m. induction k as [|k IH]; intros v' m'.
  - rewrite at_iteration_0. intros [-> ->]. simpl. split; [discriminate|].
    intros _ j Hj. lia.
  - rewrite at_iteration_S. intros (v & m & Hat & Hbody).
    destruct (IH v m Hat) as [IHt IHf].
    destruct (loop_body_cases v m) as (v1 & m1 & Hobs & Hcase).
    assert (Hnot : change_trigger objective (clock w (calls m) - start) v1 = false ->
              ~ trigger_at objective pane_target change_prompt start
                  (initial_vars objective start) w m0 k).
    { intros Hf (v2 & m2 & el & v3 & m3 & Hat2 & Hobs2 & Htrig).
      destruct (at_iteration_fun _ _ _ _ _ _ Hat Hat2) as [<- <-].
      destruct (observe_fun _ _ _ _ _ Hobs2 _ _ Hobs) as [-> ->].
      congruence. }
    destruct Hcase as [(Hno & v2 & stop & m2 & Hb & Hi & _)
                      | (Ht & Hi & [(e & m2 & Hb & _)
                                   | (v2 & stop & m2 & n & Hb & Hi2 & _)])].
    + rewrite Hb in Hbody. injection Hbody as -> _ _. rewrite Hi.
      destruct (change_injected v) eqn:Hv.
      * split; [|discriminate]. intros _.
        destruct (IHt eq_refl) as (j & Hj & Htr). exists j. split; [lia|exact Htr].
      * split; [discriminate|]. intros _ j Hj.
        rewrite andb_true_r in Hno.
        destruct (Nat.eq_dec j k) as [->|Hne]; [now apply Hnot|].
        apply IHf; [reflexivity | lia].
    + rewrite Hb in Hbody. discriminate.
    + rewrite Hb in Hbody. injection Hbody as -> _ _. rewrite Hi2.
      split; [|discriminate]. intros _. exists k. split; [lia|].
      exists v, m, (clock w (calls m) - start)%Q, v1, m1. tauto.
Qed.

Lemma latch_ok_pass v m v' stop m' :
  latch_ok m0 v m ->
  loop_body objective pane_target change_prompt start v w m
  = Returns (v', stop) m' ->
  latch_ok m0 v' m'.
Proof.
  intros [Hlog Hep] Hbody.
  destruct (loop_body_cases v m) as (v1 & m1 & _ & Hcase).
  destruct Hcase as [(_ & v2 & stop2 & m2 & Hb & Hi & He & Hl)
                    | (_ & Hi & [(e & m2 & Hb & _)
                                | (v2 & stop2 & m2 & n & Hb & Hi2 & _ & He2 & Hl)])];
    rewrite Hb in Hbody; try discriminate;
    injection Hbody as -> _ ->; unfold latch_ok.
  - rewrite Hi, He, Hl. tauto.
  - rewrite Hi2, He2, Hl, Hlog, Hi. split; [lia|]. split; eauto.
Qed.

Lemma latch_ok_raise v m e m' :
  latch_ok m0 v m ->
  loop_body objective pane_target change_prompt start v w m = Raises e m' ->
  change_prompts (log m') = change_prompts (log m0).
Proof.
  intros [Hlog _] Hbody.
  destruct (loop_body_cases v m) as (v1 & m1 & _ & Hcase).
  destruct Hcase as [(_ & v2 & stop2 & m2 & Hb & _)
                    | (_ & Hi & [(e2 & m2 & Hb & Hl)
                                | (v2 & stop2 & m2 & n & Hb & _)])];
    rewrite Hb in Hbody; try discriminate.
  injection Hbody as _ ->. rewrite Hl, Hlog, Hi. lia.
Qed.

Lemma main_loop_latch_ok fuel :
  match main_loop objective pane_target change_prompt fuel start
          (initial_vars objective start) w m0 with
  | Returns (v, _) m => latch_ok m0 v m
  | Raises _ m => change_prompts (log m) = change_prompts (log m0)
  | Diverges => True
  end.
Proof.
  induction fuel as [|fuel IH].
  - simpl. unfold ret, latch_ok. simpl. split; [lia|].
    split; [discriminate | intros [? [=]]].
  - rewrite main_loop_snoc.
    destruct (main_loop _ _ _ fuel _ _ _ _) as [[v stop] m|e m|];
      [|exact IH|exact I].
    destruct stop; [exact IH|].
    destruct (loop_body _ _ _ _ v w m) as [[v' stop'] m'|e m'|] eqn:E.
    + eapply latch_ok_pass; eauto.
    + eapply latch_ok_raise; eauto.
    + exact I.
Qed.

(** Once closed, the latch stays closed and the epoch stays as recorded. *)
Lemma latch_sticky j vj mj d vk mk :
  at_iteration objective pane_target change_prompt start
    (initial_vars objective start) w m0 j vj mj ->
  change_injected vj = true ->
  at_iteration objective pane_target change_prompt start
    (initial_vars objective start) w m0 (j + d) vk mk ->
  change_injected vk = true
  /\ change_injected_epoch vk = change_injected_epoch vj.
Proof.
  intros Hj Hvj. revert vk mk. induction d as [|d IH]; intros vk mk.
  - rewrite Nat.add_0_r. intros Hk.
    destruct (at_iteration_fun _ _ _ _ _ _ Hj Hk) as [<- _]. tauto.
  - rewrite Nat.add_succ_r, at_iteration_S. intros (v & m & Hat & Hbody).
    destruct (IH v m Hat) as [Hv He].
    destruct (loop_body_cases v m) as (v1 & m1 & _ & Hcase).
    destruct Hcase as [(_ & v2 & stop2 & m2 & Hb & Hi & He2 & _)
                      | (_ & Hi & _)]; [|congruence].
    rewrite Hb in Hbody. injection Hbody as -> _ _.
    rewrite Hi, He2. tauto.
Qed.

(** With tmux answering every command with exit code 0, no pass raises. *)
Lemma loop_body_no_raise v m e m' :
  (forall i args input, exit_code (tmux w i args input) = 0) ->
  loop_body objective pane_target change_prompt start v w m <> Raises e m'.
Proof.
  intros Htmux. unfold loop_body, bind.
  destruct (observe_spec start v w m) as (v1 & m1 & -> & _). simpl.
  unfold inject_change.
  destruct (change_trigger objective _ v1 && negb (change_injected v1)).
  - unfold bind. rewrite (tmux_send_prompt_ok _ _ _ _ _ Htmux). run_step.
    match goal with
    | |- end_checks _ _ ?el ?v2 _ ?m2 <> _ =>
        destruct (end_checks_spec el v2 w m2) as (v3 & stop & m3 & -> & _)
    end.
    discriminate.
  - unfold ret.
    destruct (end_checks_spec (clock w (calls m) - start) v1 w m1)
      as (v3 & stop & m3 & -> & _).
    discriminate.
Qed.

(** C9: in a run of the main loop from the initial variables, the change
    prompt is delivered in the first pass whose trigger holds (unless a
    tmux command fails there, which ends the run; none does when tmux
    succeeds throughout), in no other pass and in none with elapsed below
    [min_change_seconds]; over the whole run the log gains at most one
    "change_prompt" entry, present exactly when the latch is closed, the
    epoch is recorded exactly then, and a closed latch is never reopened. *)
Theorem change_prompt_injected_once :
  (forall k,
      trigger_at objective pane_target change_prompt start
        (initial_vars objective start) w m0 k ->
      (forall j, (j < k)%nat ->
         ~ trigger_at objective pane_target change_prompt start
             (initial_vars objective start) w m0 j) ->
      injects_at objective pane_target change_prompt start
        (initial_vars objective start) w m0 k
      \/ aborts_at objective pane_target change_prompt start
           (initial_vars objective start) w m0 k)
  /\ (forall k,
        injects_at objective pane_target change_prompt start
          (initial_vars objective start) w m0 k ->
        trigger_at objective pane_target change_prompt start
          (initial_vars objective start) w m0 k
        /\ (forall j, (j < k)%nat ->
              ~ trigger_at objective pane_target change_prompt start
                  (initial_vars objective start) w m0 j)
        /\ (forall elapsed,
              elapsed_at objective pane_target change_prompt start
                (initial_vars objective start) w m0 k elapsed ->
              (inject_Z (min_change_seconds objective) <= elapsed)%Q))
  /\ (forall fuel v stop m,
        main_loop objective pane_target change_prompt fuel start
          (initial_vars objective start) w m0 = Returns (v, stop) m ->
        change_prompts (log m)
        = (change_prompts (log m0) + (if change_injected v then 1 else 0))%nat
        /\ (change_injected v = true
            <-> exists stamp, change_injected_epoch v = Some stamp))
  /\ (forall fuel e m,
        main_loop objective pane_target change_prompt fuel start
          (initial_vars objective start) w m0 = Raises e m ->
        change_prompts (log m) = change_prompts (log m0))
  /\ (forall j k vj mj vk mk,
        (j <= k)%nat ->
        at_iteration objective pane_target change_prompt start
          (initial_vars objective start) w m0 j vj mj ->
        at_iteration objective pane_target change_prompt start
          (initial_vars objective start) w m0 k vk mk ->
        change_injected vj = true ->
        change_injected vk = true
        /\ change_injected_epoch vk = change_injected_epoch vj)
  /\ ((forall i args input, exit_code (tmux w i args input) = 0) ->
      forall k,
        ~ aborts_at objective pane_target change_prompt start
            (initial_vars objective start) w m0 k).
Proof.
  split; [|split; [|split; [|split; [|split]]]].
  - intros k (v & m & el & v1 & m1 & Hat & Hobs & Htrig) Hfirst.
    destruct (latch_invariant k v m Hat) as [Ht _].
    assert (Hv : change_injected v = false).
    { destruct (change_injected v); [|reflexivity].
      destruct (Ht eq_refl) as (j & Hj & Hjt). now elim (Hfirst j Hj). }
    destruct (loop_body_cases v m) as (v2 & m2 & Hobs2 & Hcase).
    destruct (observe_fun _ _ _ _ _ Hobs _ _ Hobs2) as [-> ->].
    destruct Hcase as [(Hno & _)
                      | (_ & _ & [(e & m3 & Hb & _)
                                 | (v3 & stop & m3 & n & Hb & Hi & Hn & He & Hl)])].
    + rewrite Htrig, Hv in Hno. discriminate.
    + right. exists v, m, e, m3. tauto.
    + left. exists v, m, v3, stop, m3, n. tauto.
  - intros k (v & m & v' & stop & m' & n & Hat & Hbody & Hv & Hv' & _).
    destruct (latch_invariant k v m Hat) as [_ Hf].
    destruct (loop_body_cases v m) as (v1 & m1 & Hobs & Hcase).
    assert (Htrig : change_trigger objective (clock w (calls m) - start) v1 = true).
    { destruct Hcase as [(_ & v2 & stop2 & m2 & Hb & Hi & _) | (Ht & _)];
        [|exact Ht].
      rewrite Hb in Hbody. injection Hbody as -> _ _. congruence. }
    split; [exists v, m, (clock w (calls m) - start)%Q, v1, m1; tauto|].
    split; [exact (Hf Hv)|].
    intros elapsed (v2 & m2 & v3 & m3 & Hat2 & Hobs2).
    destruct (at_iteration_fun _ _ _ _ _ _ Hat Hat2) as [<- <-].
    destruct (observe_fun _ _ _ _ _ Hobs2 _ _ Hobs) as [-> _].
    unfold change_trigger in Htrig. apply andb_true_iff in Htrig as [Hmin _].
    apply Qle_bool_iff. exact Hmin.
  - intros fuel v stop m Hrun. pose proof (main_loop_latch_ok fuel) as H.
    rewrite Hrun in H. exact H.
  - intros fuel e m Hrun. pose proof (main_loop_latch_ok fuel) as H.
    rewrite Hrun in H. exact H.
  - intros j k vj mj vk mk Hjk Hj Hk Hvj.
    apply (latch_sticky j vj mj (k - j) vk mk Hj Hvj).
    replace (j + (k - j))%nat with k by lia. exact Hk.
  - intros Htmux k (v & m & e & m' & _ & Hbody).
    exact (loop_body_no_raise v m e m' Htmux Hbody).
Qed.

End ChangeInjection.

End DriverFacts.

(** C1 as stated fails: a run that ends because the budget is reached
    returns the end reason "time_budget_reached"; the initial value
    "timeout" of [end_reason] is overwritten before every [break]. *)
Lemma budget_reached_is_not_timeout :
  match drive_worker_session Sample.objective "/runs/r1/repo" "%0"
          "initial prompt" "change prompt" "agent" 20
          Sample.slow_world Sample.machine with
  | Returns r _ =>
      sr_end_reason r = "time_budget_reached" /\ sr_end_reason r <> "timeout"
  | _ => False
  end.
Proof. vm_compute. split; [reflexivity | discriminate]. Qed.

Lemma budget_end_reason_witness :
  match main_loop Sample.objective "%0" "change prompt" 1 0
          (initial_vars Sample.objective 0) Sample.slow_world
          {| calls := 7; log := [] |} with
  | Returns (v, stop) _ => end_reason v = "time_budget_reached" /\ stop = true
  | _ => False
  end.
Proof.
  erewrite (proj1 (budget_end_reason Sample.objective "%0" "change prompt")).
  - simpl. split; reflexivity.
  - vm_compute. reflexivity.
  - vm_compute. reflexivity.
  - vm_compute. reflexivity.
  - vm_compute. reflexivity.
  - vm_compute. discriminate.
Defined.

Lemma change_prompt_injected_once_witness :
  injects_at Sample.objective "%0" "change prompt" 0
    (initial_vars Sample.objective 0) Sample.slow_world Sample.machine 1
  \/ aborts_at Sample.objective "%0" "change prompt" 0
       (initial_vars Sample.objective 0) Sample.slow_world Sample.machine 1.
Proof.
  apply (proj1 (change_prompt_injected_once Sample.objective "%0"
                  "change prompt" 0 Sample.slow_world Sample.machine)).
  - unfold trigger_at, at_iteration. do 5 eexists.
    split; [vm_compute; reflexivity|].
    split; vm_compute; reflexivity.
  - intros j Hj (v & m & el & v1 & m1 & Hat & Hobs & Htrig).
    assert (j = 0%nat) as -> by lia.
    apply at_iteration_0 in Hat as [-> ->].
    vm_compute in Hobs. injection Hobs as <- <- _.
    vm_compute in Htrig. discriminate.
Defined.

(** *** Readiness *)

(** The first index at which a boolean sequence is true. *)
Lemma first_true (p : nat -> bool) (N : nat) :
  p N = true ->
  exists n, (n <= N)%nat /\ p n = true /\ forall j, (j < n)%nat -> p j = false.
Proof.
  revert p. induction N as [|N IH]; intros p HN.
  - exists 0%nat. split; [lia|]. split; [exact HN|]. intros j Hj. lia.
  - destruct (p 0%nat) eqn:E0.
    + exists 0%nat. split; [lia|]. split; [exact E0|]. intros j Hj. lia.
    + destruct (IH (fun i => p (S i)) HN) as (n & Hn & Hpn & Hlt).
      exists (S n). split; [lia|]. split; [exact Hpn|].
      intros [|j] Hj; [exact E0 | apply Hlt; lia].
Qed.

(** The polling loop when the deadline passes at its [n]-th clock check and
    no earlier read of the transcript shows the token: [n] rounds of check,
    read and sleep, then the timeout result. *)
Lemma poll_ready_token_timeout n :
  forall fuel token started deadline w m,
    (forall j, (j < n)%nat ->
       Py.Qltb (clock w (calls m + 3 * j)) deadline = true
       /\ Py.contains token (transcript w (calls m + 3 * j + 1)) = false) ->
    Py.Qltb (clock w (calls m + 3 * n)) deadline = false ->
    (n < fuel)%nat ->
    poll_ready_token fuel token started deadline w m
    = Returns {| ready := false; strategy := "token";
                 wait_seconds := (clock w (calls m + 3 * n + 1) - started)%Q;
                 reason := "ready_token_timeout" |}
              {| calls := calls m + 3 * n + 2; log := log m |}.
Proof.
  induction n as [|n IH]; intros fuel token started deadline w m Hbefore Hat Hfuel;
    (destruct fuel as [|fuel]; [lia|]); simpl poll_ready_token; run_step.
  - replace (calls m + 3 * 0)%nat with (calls m) in Hat by lia. rewrite Hat.
    run_step. repeat f_equal; lia.
  - destruct (Hbefore 0%nat ltac:(lia)) as [Hc Hr].
    replace (calls m + 3 * 0)%nat with (calls m) in Hc by lia.
    replace (calls m + 3 * 0 + 1)%nat with (S (calls m)) in Hr by lia.
    rewrite Hc. run_step. rewrite Hr. run_step.
    rewrite (IH fuel token started deadline w
               {| calls := S (S (S (calls m))); log := log m |}).
    + simpl. repeat f_equal; lia.
    + intros j Hj. cbn [calls log].
      destruct (Hbefore (S j) ltac:(lia)) as [Hc' Hr'].
      replace (S (S (S (calls m))) + 3 * j)%nat
        with (calls m + 3 * S j)%nat by lia.
      split; [exact Hc' | exact Hr'].
    + cbn [calls log]. replace (S (S (S (calls m))) + 3 * n)%nat
        with (calls m + 3 * S n)%nat by lia. exact Hat.
    + lia.
Qed.

Lemma Qltb_true_iff x y : Py.Qltb x y = true <-> (x < y)%Q.
Proof.
  unfold Py.Qltb. rewrite negb_true_iff. split.
  - intros H. apply Qnot_le_lt. intros Hle.
    apply Qle_bool_iff in Hle. congruence.
  - intros H. destruct (Qle_bool y x) eqn:E; [|reflexivity].
    apply Qle_bool_iff in E. exfalso. apply (Qlt_not_le _ _ H E).
Qed.

Lemma Qltb_false_iff x y : Py.Qltb x y = false <-> (y <= x)%Q.
Proof.
  unfold Py.Qltb. rewrite negb_false_iff. apply Qle_bool_iff.
Qed.

Section Readiness.

Variable objective : ObjectiveConfig.
Variables repo_dir pane_target initial_prompt change_prompt worker_cmd : string.

(** Under the token strategy, with a clock that never runs backwards and
    reaches the deadline, and a transcript without the token at every read
    that follows a clock check before the deadline, the wait returns
    ready=false, "ready_token_timeout", no sooner than the timeout, and
    leaves the command log alone.  When no call takes longer than [d], the
    wait exceeds the timeout by less than [4 * d]: three calls between two
    checks of the deadline and one for the final reading. *)
Lemma wait_for_worker_ready_timeout w m :
  worker_ready_strategy objective = "token" ->
  let timeout := inject_Z (Z.max 1 (worker_ready_timeout_seconds objective)) in
  let deadline := (clock w (calls m) + timeout)%Q in
  (forall i j, (i <= j)%nat -> (clock w i <= clock w j)%Q) ->
  (exists N, (deadline <= clock w N)%Q) ->
  (forall i, (clock w i < deadline)%Q ->
     Py.contains (worker_ready_token objective) (transcript w (S i)) = false) ->
  exists n, forall fuel, (n < fuel)%nat ->
    exists rs m',
      wait_for_worker_ready fuel objective w m = Returns rs m'
      /\ ready rs = false
      /\ strategy rs = "token"
      /\ reason rs = "ready_token_timeout"
      /\ (timeout <= wait_seconds rs)%Q
      /\ (forall d, (forall i, clock w (S i) <= clock w i + d)%Q ->
            (wait_seconds rs < timeout + 4 * d)%Q)
      /\ log m' = log m.
Proof.
  intros Hstrat timeout deadline Hmono [N HN] Habsent.
  set (p := fun j => negb (Py.Qltb (clock w (S (calls m) + 3 * j)) deadline)).
  assert (HpN : p N = true).
  { unfold p. apply negb_true_iff, Qltb_false_iff.
    eapply Qle_trans; [exact HN|]. apply Hmono. lia. }
  destruct (first_true p N HpN) as (n & _ & Hn & Hlt).
  exists n. intros fuel Hfuel.
  unfold wait_for_worker_ready. rewrite Hstrat. run_step.
  fold timeout. fold deadline.
  rewrite (poll_ready_token_timeout n fuel _ _ deadline w
             {| calls := S (calls m); log := log m |}).
  - do 2 eexists. split; [reflexivity|].
    cbn [ready strategy reason wait_seconds log calls].
    split; [reflexivity|]. split; [reflexivity|]. split; [reflexivity|].
    apply negb_true_iff, Qltb_false_iff in Hn.
    split; [|split; [|reflexivity]].
    + assert (H1 : (clock w (S (calls m) + 3 * n)
                    <= clock w (S (calls m) + 3 * n + 1))%Q)
        by (apply Hmono; lia).
      unfold deadline in Hn. lra.
    + intros d Hd.
      assert (Ht : (1 <= timeout)%Q).
      { unfold timeout. change 1%Q with (inject_Z 1).
        rewrite <- Zle_Qle. lia. }
      destruct n as [|n].
      * replace (S (calls m) + 3 * 0 + 1)%nat with (S (S (calls m))) by lia.
        pose proof (Hd (calls m)) as H0. pose proof (Hd (S (calls m))) as H1.
        pose proof (Hmono (calls m) (S (calls m)) ltac:(lia)) as H2.
        lra.
      * specialize (Hlt n ltac:(lia)). unfold p in Hlt.
        apply negb_false_iff, Qltb_true_iff in Hlt.
        set (a := (S (calls m) + 3 * n)%nat) in *.
        replace (S (calls m) + 3 * S n + 1)%nat with (S (S (S (S a))))
          by (unfold a; lia).
        pose proof (Hd a) as H0. pose proof (Hd (S a)) as H1.
        pose proof (Hd (S (S a))) as H2. pose proof (Hd (S (S (S a)))) as H3.
        unfold deadline in Hlt. lra.
  - intros j Hj. cbn [log calls]. specialize (Hlt j Hj). unfold p in Hlt.
    apply negb_false_iff in Hlt. split; [exact Hlt|].
    replace (S (calls m) + 3 * j + 1)%nat with (S (S (calls m) + 3 * j)) by lia.
    apply Habsent. apply Qltb_true_iff. exact Hlt.
  - cbn [log calls]. unfold p in Hn. apply negb_true_iff in Hn. exact Hn.
  - exact Hfuel.
Qed.

(** Whatever the readiness wait returns, the driver logs it and pastes the
    initial prompt; a failure can only come from tmux. *)
Lemma start_worker_continues fuel w m0 m1 rs m2 :
  launch_worker objective repo_dir pane_target worker_cmd w m0
  = Returns tt m1 ->
  wait_for_worker_ready fuel objective w m1 = Returns rs m2 ->
  (forall i args input, exit_code (tmux w i args input) = 0) ->
  exists m3,
    start_worker objective repo_dir pane_target initial_prompt worker_cmd
      fuel w m0 = Returns rs m3
    /\ log m3
       = log m2
         ++ [{| ev_timestamp := utc w (calls m2);
                ev_type := "worker_ready";
                ev_target := Some pane_target;
                ev_payload := PReady (worker_prompt_transport objective) rs |};
             {| ev_timestamp := utc w (4 + calls m2);
                ev_type := "initial_prompt";
                ev_target := Some pane_target;
                ev_payload := PPrompt initial_prompt |}]
    /\ drive_worker_session objective repo_dir pane_target initial_prompt
         change_prompt worker_cmd fuel w m0
       = run_session objective pane_target change_prompt fuel rs w m3.
Proof.
  intros Hlaunch Hwait Htmux.
  assert (Hstart : exists m3,
    start_worker objective repo_dir pane_target initial_prompt worker_cmd
      fuel w m0 = Returns rs m3
    /\ log m3
       = log m2
         ++ [{| ev_timestamp := utc w (calls m2);
                ev_type := "worker_ready";
                ev_target := Some pane_target;
                ev_payload := PReady (worker_prompt_transport objective) rs |};
             {| ev_timestamp := utc w (4 + calls m2);
                ev_type := "initial_prompt";
                ev_target := Some pane_target;
                ev_payload := PPrompt initial_prompt |}]).
  { unfold start_worker, bind. rewrite Hlaunch, Hwait. run_step.
    rewrite (tmux_send_prompt_ok _ _ _ _ _ Htmux).
    eexists. split; [reflexivity|]. simpl.
    rewrite <- app_assoc. reflexivity. }
  destruct Hstart as (m3 & Hstart & Hlog).
  exists m3. split; [exact Hstart|]. split; [exact Hlog|].
  unfold drive_worker_session, bind. rewrite Hstart. reflexivity.
Qed.

(** C8: under the token strategy, when the token is not seen before the
    deadline, [wait_for_worker_ready] returns ready=false with the reason
    "ready_token_timeout" after at least the timeout, and less than the
    timeout plus four times the longest gap between two successive clock
    readings; and whatever the wait returns, [drive_worker_session] logs it,
    pastes the initial prompt and goes on with the main loop, as long as
    tmux succeeds. *)
Theorem ready_token_timeout_does_not_abort :
  (forall w m,
      worker_ready_strategy objective = "token" ->
      let timeout := inject_Z (Z.max 1 (worker_ready_timeout_seconds objective)) in
      let deadline := (clock w (calls m) + timeout)%Q in
      (forall i j, (i <= j)%nat -> (clock w i <= clock w j)%Q) ->
      (exists N, (deadline <= clock w N)%Q) ->
      (forall i, (clock w i < deadline)%Q ->
         Py.contains (worker_ready_token objective) (transcript w (S i)) = false) ->
      exists n, forall fuel, (n < fuel)%nat ->
        exists rs m',
          wait_for_worker_ready fuel objective w m = Returns rs m'
          /\ ready rs = false
          /\ strategy rs = "token"
          /\ reason rs = "ready_token_timeout"
          /\ (timeout <= wait_seconds rs)%Q
          /\ (forall d, (forall i, clock w (S i) <= clock w i + d)%Q ->
                (wait_seconds rs < timeout + 4 * d)%Q)
          /\ log m' = log m)
  /\ (forall fuel w m0 m1 rs m2,
        launch_worker objective repo_dir pane_target worker_cmd w m0
        = Returns tt m1 ->
        wait_for_worker_ready fuel objective w m1 = Returns rs m2 ->
        ready rs = false ->
        (forall i args input, exit_code (tmux w i args input) = 0) ->
        exists m3,
          start_worker objective repo_dir pane_target initial_prompt worker_cmd
            fuel w m0 = Returns rs m3
          /\ map ev_type (log m3)
             = map ev_type (log m2) ++ ["worker_ready"; "initial_prompt"]
          /\ drive_worker_session objective repo_dir pane_target initial_prompt
               change_prompt worker_cmd fuel w m0
             = run_session objective pane_target change_prompt fuel rs w m3).
Proof.
  split.
  - intros w m. apply wait_for_worker_ready_timeout.
  - intros fuel w m0 m1 rs m2 Hlaunch Hwait _ Htmux.
    destruct (start_worker_continues fuel w m0 m1 rs m2 Hlaunch Hwait Htmux)
      as (m3 & Hstart & Hlog & Hdrive).
    exists m3. split; [exact Hstart|]. split; [|exact Hdrive].
    rewrite Hlog, map_app. reflexivity.
Qed.

End Readiness.

Lemma ready_token_timeout_does_not_abort_witness :
  (exists n, forall fuel, (n < fuel)%nat ->
     exists rs m',
       wait_for_worker_ready fuel Sample.objective Sample.world Sample.machine
       = Returns rs m'
       /\ ready rs = false
       /\ strategy rs = "token"
       /\ reason rs = "ready_token_timeout"
       /\ (5 <= wait_seconds rs)%Q
       /\ (wait_seconds rs < 5 + 4 * 1)%Q
       /\ log m' = [])
  /\ (exists rs m3,
        start_worker Sample.objective "/runs/r1/repo" "%0" "initial prompt"
          "agent" 10 Sample.world Sample.machine = Returns rs m3
        /\ ready rs = false
        /\ map ev_type (log m3)
           = ["setup"; "setup"; "setup"; "worker_start"; "worker_ready";
              "initial_prompt"]
        /\ drive_worker_session Sample.objective "/runs/r1/repo" "%0"
             "initial prompt" "change prompt" "agent" 10
             Sample.world Sample.machine
           = run_session Sample.objective "%0" "change prompt" 10 rs
               Sample.world m3).
Proof.
  pose proof (ready_token_timeout_does_not_abort Sample.objective
                "/runs/r1/repo" "%0" "initial prompt" "change prompt" "agent")
    as [Hwait Hdrive].
  split.
  - destruct (Hwait Sample.world Sample.machine) as [n Hn].
    + reflexivity.
    + intros i j Hij. simpl. rewrite <- Zle_Qle. lia.
    + exists 5%nat. vm_compute. discriminate.
    + intros i _. reflexivity.
    + exists n. intros fuel Hfuel.
      destruct (Hn fuel Hfuel) as (rs & m' & Hrun & Hr & Hs & Hre & Hlo & Hup & Hlog).
      exists rs, m'. repeat split; try assumption.
      apply Hup. intros i. unfold Sample.world. cbn [clock].
      change 1%Q with (inject_Z 1).
      rewrite <- inject_Z_plus, <- Zle_Qle. lia.
  - edestruct (Hdrive 10%nat Sample.world Sample.machine)
      as (m3 & Hs & Hl & Hd).
    + vm_compute. reflexivity.
    + vm_compute. reflexivity.
    + reflexivity.
    + intros i args input. reflexivity.
    + do 2 eexists. split; [exact Hs|]. split; [reflexivity|].
      split; [exact Hl | exact Hd].
Defined.

(** * Further properties of the code *)

(** ** Session names *)

Lemma session_char_underscore : session_char "_" = true.
Proof. reflexivity. Qed.

(** X1: [sanitize_session_name] keeps the length of the name, yields only
    letters, digits and underscores, leaves such names unchanged, and is
    idempotent. *)
Theorem sanitize_session_name_safe (name : string) :
  String.length (sanitize_session_name name) = String.length name
  /\ (forall c, In c (list_ascii_of_string (sanitize_session_name name)) ->
        session_char c = true)
  /\ ((forall c, In c (list_ascii_of_string name) -> session_char c = true) ->
      sanitize_session_name name = name)
  /\ sanitize_session_name (sanitize_session_name name)
     = sanitize_session_name name.
Proof.
  induction name as [|a name (IHlen & IHsafe & IHid & IHidem)]; simpl.
  - repeat split; intros; tauto.
  - split; [now rewrite IHlen|]. split; [|split].
    + intros c [<-|Hc]; [|now apply IHsafe].
      destruct (session_char a) eqn:E; [exact E | reflexivity].
    + intros H. rewrite (H a) by (left; reflexivity).
      rewrite IHid; [reflexivity|]. intros c Hc. apply H. right. exact Hc.
    + rewrite IHidem. destruct (session_char a) eqn:E.
      * rewrite E. reflexivity.
      * reflexivity.
Qed.

Lemma sanitize_session_name_safe_witness :
  sanitize_session_name "takbench_run_01" = "takbench_run_01".
Proof.
  apply (proj1 (proj2 (proj2 (sanitize_session_name_safe "takbench_run_01")))).
  intros c Hc. simpl in Hc.
  repeat (destruct Hc as [<-|Hc]; [reflexivity|]). destruct Hc.
Defined.

(** ** Transcript tallies *)



Lemma event_type_counts_acc (events : list CommandEvent) :
  forall (counts : gmap string Z) (kind : string),
    dict_get (event_type_counts events counts) kind 0
    = dict_get counts kind 0
      + (if Py.truthy kind
         then Z.of_nat (length (events_of_type kind events)) else 0).
Proof.
  induction events as [|ev events IH]; intros counts kind.
  - simpl. destruct (Py.truthy kind); lia.
  - cbn [event_type_counts]. unfold events_of_type in *. cbn [List.filter].
    destruct (String.eqb_spec (ev_type ev) kind) as [Heq|Hne].
    + rewrite Heq. destruct (Py.truthy kind) eqn:Et; cbn [negb].
      * rewrite IH, Et. unfold dict_get at 1. rewrite lookup_insert_eq.
        cbn [from_option id length]. rewrite Nat2Z.inj_succ. lia.
      * rewrite IH, Et. reflexivity.
    + destruct (Py.truthy (ev_type ev)); cbn [negb]; rewrite IH; [|reflexivity].
      unfold dict_get at 1. rewrite lookup_insert_ne by exact Hne. reflexivity.
Qed.

(** X3: the per-type tally of the command log counts, for every non-empty
    type, the entries of that type, and has no entry for the empty type. *)
Theorem event_type_counts_spec (events : list CommandEvent) (kind : string) :
  let counts := event_type_counts events ∅ in
  (kind <> "" ->
   dict_get counts kind 0 = Z.of_nat (length (events_of_type kind events)))
  /\ counts !! "" = None
  /\ (counts !! kind = None <-> kind = "" \/ events_of_type kind events = []).
Proof.
  cbv zeta.
  assert (Hpos : forall (evs : list CommandEvent) (c : gmap string Z) k,
            (forall k' v, c !! k' = Some v -> 0 < v /\ k' <> "") ->
            forall v, event_type_counts evs c !! k = Some v -> 0 < v /\ k <> "").
  { induction evs as [|ev evs IH]; intros c k Hc v; simpl; [apply Hc|].
    destruct (Py.truthy (ev_type ev)) eqn:Et; simpl; [|now apply IH].
    apply IH. intros k' v'. rewrite lookup_insert.
    destruct (decide (ev_type ev = k')) as [<-|Hne]; [|apply Hc].
    intros [= <-]. split.
    - unfold dict_get. destruct (c !! ev_type ev) as [v0|] eqn:E; simpl; [|lia].
      apply Hc in E. lia.
    - intros H0. rewrite H0 in Et. discriminate. }
  assert (Hempty : forall k' v, (∅ : gmap string Z) !! k' = Some v -> 0 < v /\ k' <> "")
    by (intros k' v; rewrite lookup_empty; discriminate).
  assert (Hget := event_type_counts_acc events ∅ kind).
  unfold dict_get at 2 in Hget. rewrite lookup_empty in Hget. simpl in Hget.
  split; [|split].
  - intros Hk. rewrite Hget. destruct kind; [congruence|reflexivity].
  - destruct (event_type_counts events ∅ !! "") as [v|] eqn:E; [|reflexivity].
    apply (Hpos events ∅ "" Hempty) in E. tauto.
  - split.
    + intros Hnone. destruct kind as [|a k]; [left; reflexivity|]. right.
      unfold dict_get in Hget. rewrite Hnone in Hget. simpl in Hget.
      destruct (events_of_type (String a k) events); [reflexivity|].
      simpl in Hget. lia.
    + intros Hk.
      destruct (event_type_counts events ∅ !! kind) as [v|] eqn:E; [|reflexivity].
      pose proof (Hpos events ∅ kind Hempty v E) as [Hv Hne].
      destruct Hk as [->|Hk]; [congruence|].
      unfold dict_get in Hget. rewrite E, Hk in Hget. simpl in Hget.
      destruct (Py.truthy kind); lia.
Qed.

Lemma event_type_counts_spec_witness :
  dict_get
    (event_type_counts
       [{| ev_timestamp := "t0"; ev_type := "setup"; ev_target := None;
           ev_payload := PLine "cd /repo" |};
        {| ev_timestamp := "t1"; ev_type := ""; ev_target := None;
           ev_payload := PLine "" |};
        {| ev_timestamp := "t2"; ev_type := "setup"; ev_target := None;
           ev_payload := PLine "export X=1" |}] ∅) "setup" 0 = 2.
Proof.
  refine (proj1 (event_type_counts_spec _ "setup") _). discriminate.
Defined.

(** ** Tests after the session *)

(** X4: [run_tests_and_probes] never raises and writes nothing to the
    command log; the hidden tests run exactly when a hidden command is
    configured, the override taking precedence over the manifest, and the
    change probe exactly when the manifest names one. *)
Theorem run_tests_and_probes_total
  (objective : ObjectiveConfig) (override : option string)
  (w : World) (m : Machine) :
  exists outs m',
    run_tests_and_probes objective override w m = Returns outs m'
    /\ log m' = log m
    /\ to_public_result outs
       = shell w (calls m) (public_test_command objective) 300
    /\ to_hidden_command outs
       = str_or override (hidden_test_command objective)
    /\ (to_hidden_result outs = None <-> to_hidden_command outs = "")
    /\ (to_change_probe_result outs = None
        <-> change_probe_command objective = "").
Proof.
  unfold run_tests_and_probes. run_step.
  destruct (str_or override (hidden_test_command objective)) as [|a s] eqn:Eh;
    destruct (change_probe_command objective) as [|b t] eqn:Ec; run_step;
    do 2 eexists; (split; [reflexivity|]); simpl;
    rewrite ?Eh; repeat split; congruence.
Qed.

(** X5: when [main] gets past its check of the hidden-test configuration,
    its validity checks never list "missing_hidden_test_command": the
    command they look at is the one the earlier check already found. *)
Theorem missing_hidden_test_command_unreachable
  (objective : ObjectiveConfig) (hidden_test_cmd : string)
  (allow_missing_hidden_tests : bool) (w : World) (m : Machine)
  (outs : TestOutputs) (m' : Machine) :
  hidden_tests_unconfigured objective hidden_test_cmd
    allow_missing_hidden_tests = false ->
  run_tests_and_probes objective (hidden_cmd_override hidden_test_cmd) w m
  = Returns outs m' ->
  forall wl cl sess evs git tak,
    ~ In "missing_hidden_test_command"
        (invalid_reasons objective allow_missing_hidden_tests wl cl sess evs
           (to_public_result outs) (to_hidden_result outs)
           (to_hidden_command outs) git tak).
Proof.
  intros Hgate Hrun wl cl sess evs git tak.
  destruct (run_tests_and_probes_total objective
              (hidden_cmd_override hidden_test_cmd) w m)
    as (outs' & m'' & Hrun' & _ & _ & Hcmd & _).
  rewrite Hrun in Hrun'. injection Hrun' as <- <-.
  unfold invalid_reasons. rewrite !in_app_iff, !in_flag.
  intros H. decompose [and or] H; try discriminate.
  unfold hidden_tests_unconfigured in Hgate. rewrite <- Hcmd in Hgate.
  congruence.
Qed.

Lemma missing_hidden_test_command_unreachable_witness :
  match run_tests_and_probes Sample.objective (hidden_cmd_override "  ")
          Sample.world Sample.machine with
  | Returns outs _ =>
      ~ In "missing_hidden_test_command"
          (invalid_reasons Sample.objective false true true None []
             (to_public_result outs) (to_hidden_result outs)
             (to_hidden_command outs) (Git.collect_git_metrics [] None)
             (Sample.tak_with []))
  | _ => False
  end.
Proof.
  destruct (run_tests_and_probes Sample.objective (hidden_cmd_override "  ")
              Sample.world Sample.machine) as [outs m'| |] eqn:E.
  - apply (missing_hidden_test_command_unreachable Sample.objective "  " false
             Sample.world Sample.machine outs m'); [reflexivity | exact E].
  - vm_compute in E. discriminate.
  - vm_compute in E. discriminate.
Defined.

(** ** Contracts *)

Lemma contract_flags_imply (task : JValue) (c v : bool) :
  contract_flags task = Ok (c, v) -> v = true -> c = true.
Proof.
  unfold contract_flags, Json.get. destruct task; try discriminate. simpl.
  destruct (default (JObj []) (Json.lookup "contract" fields)) as
    [| | | | |items|cf]; try (intros [= <- <-]; discriminate).
  intros [= <- <-].
  destruct (default JNull (Json.lookup "verification" cf)) as [| | | | |items|];
    try discriminate.
  destruct items; [discriminate|]. simpl. intros _.
  rewrite orb_true_r. apply orb_true_l.
Qed.

Lemma contract_counts_acc (tasks : list JValue) :
  forall c v c' v',
    contract_counts tasks c v = Ok (c', v') ->
    0 <= v' - v <= c' - c /\ c' - c <= Z.of_nat (length tasks).
Proof.
  induction tasks as [|task tasks IH]; intros c v c' v'; simpl.
  - intros [= <- <-]. lia.
  - destruct (contract_flags task) as [[fc fv]|e] eqn:E; simpl; [|discriminate].
    intros H. apply IH in H.
    pose proof (contract_flags_imply task fc fv E) as Himp.
    destruct fc, fv; try (specialize (Himp eq_refl); discriminate); lia.
Qed.

(** X6: in [collect_tak_metrics] a task with a non-empty verification list
    counts as a task with a contract, so
    [contract_verification_task_count <= contract_task_count <= task_count]. *)
Theorem contract_counts_ordered (tasks : list JValue) (c v : Z) :
  contract_counts tasks 0 0 = Ok (c, v) ->
  0 <= v <= c /\ c <= Z.of_nat (length tasks).
Proof. intros H. apply contract_counts_acc in H. lia. Qed.

Lemma contract_counts_ordered_witness :
  0 <= 1 <= 2 /\ 2 <= 3.
Proof.
  apply (contract_counts_ordered
           [JObj [("contract", JObj [("objective", JStr "parse headings")])];
            JObj [("title", JStr "no contract")];
            JObj [("contract", JObj [("verification", JArr [JStr "pytest -q"])])]]
           2 1).
  reflexivity.
Defined.

(** ** Score ranges *)

(** Splits on the integer comparisons and the remaining tests of a goal. *)
Ltac case_cmp :=
  repeat match goal with
         | |- context [?a >? ?b] => destruct (Z.gtb_spec a b)
         | |- context [?a >=? ?b] => destruct (Z.geb_spec a b)
         | |- context [?a <=? ?b] => destruct (Z.leb_spec a b)
         | |- context [?a <? ?b] => destruct (Z.ltb_spec a b)
         | |- context [?a =? ?b] => destruct (Z.eqb_spec a b)
         | |- context [match ?x with _ => _ end] => destruct x
         end;
  cbn [andb orb negb].

Section ScoreRanges.

Variable objective : ObjectiveConfig.
Variable public_result : ExecResult.
Variables hidden_result change_probe_result : option ExecResult.
Variable tak : TakMetrics.
Variable git : GitMetrics.
Variable transcript : TranscriptMetrics.
Variable change_injected : bool.
Variable change_injected_epoch : option Q.






(** X8: whatever the weights, the tak_workflow, change_adaptation and bonus
    scores never exceed the maximum shown beside them in the report, and no
    commit count earns both commit penalties. *)
Theorem category_scores_capped :
  let report :=
    run_scoring objective public_result hidden_result change_probe_result
      tak git transcript change_injected change_injected_epoch in
  tw_score (tak_workflow report) <= tw_max (tak_workflow report)
  /\ ca_score (change_adaptation report) <= ca_max (change_adaptation report)
  /\ bn_score (bonus report) <= bn_max (bonus report)
  /\ (commit_count git <> 0 ->
      gd_score (git_discipline report) <= gd_max (git_discipline report))
  /\ (no_commits (pn_components (penalties report)) = 0
      \/ few_commits (pn_components (penalties report)) = 0).
Proof.
  cbv zeta. unfold run_scoring.
  cbn [tak_workflow change_adaptation bonus git_discipline penalties
       tw_score tw_max ca_score ca_max bn_score bn_max gd_score gd_max
       pn_components].
  unfold tak_workflow_score, change_score, bonus_score, git_score,
    git_score_initial, score_penalties.
  cbn [no_commits few_commits].
  repeat split; try apply Z.le_min_l.
  - intros Hn. apply Z.eqb_neq in Hn. rewrite Hn. apply Z.le_min_l.
  - destruct (commit_count git =? 0); [right|left]; reflexivity.
Qed.

End ScoreRanges.


Lemma category_scores_capped_witness :
  let report :=
    run_scoring Sample.objective (Sample.exited "pytest -q" 0) None None
      (Sample.tak_with [])
      (Git.collect_git_metrics [Sample.commit_touching ["src/markdown.py"]] None)
      (Sample.transcript_with []) false None in
  gd_score (git_discipline report) <= gd_max (git_discipline report).
Proof.
  apply (category_scores_capped Sample.objective (Sample.exited "pytest -q" 0)
           None None (Sample.tak_with [])
           (Git.collect_git_metrics [Sample.commit_touching ["src/markdown.py"]] None)
           (Sample.transcript_with []) false None).
  vm_compute. discriminate.
Defined.

(** ** Penalties *)

(** X9: with non-negative penalty parameters the tampering penalty lies
    between 0 and the cap and never decreases when incidents are added. *)
Theorem manual_tak_penalty_monotone (objective : ObjectiveConfig) (n n' : Z) :
  0 <= dict_get (scoring objective) "penalty_manual_tak_first" 20 ->
  0 <= dict_get (scoring objective) "penalty_manual_tak_additional" 10 ->
  0 <= dict_get (scoring objective) "penalty_manual_tak_cap" 40 ->
  0 <= manual_tak_penalty objective n
       <= dict_get (scoring objective) "penalty_manual_tak_cap" 40
  /\ (n <= n' ->
      manual_tak_penalty objective n <= manual_tak_penalty objective n').
Proof.
  intros Hfirst Hadd Hcap. unfold manual_tak_penalty.
  set (first := dict_get (scoring objective) "penalty_manual_tak_first" 20) in *.
  set (add := dict_get (scoring objective) "penalty_manual_tak_additional" 10) in *.
  set (cap := dict_get (scoring objective) "penalty_manual_tak_cap" 40) in *.
  assert (Hprod : forall k, 0 <= Z.max 0 (k - 1) * add) by (intros k; nia).
  split.
  - destruct (Z.gtb_spec n 0); [|lia]. specialize (Hprod n). lia.
  - intros Hle. pose proof (Hprod n'). 
    assert (0 < n -> Z.max 0 (n - 1) * add <= Z.max 0 (n' - 1) * add) by nia.
    destruct (Z.gtb_spec n 0), (Z.gtb_spec n' 0); lia.
Qed.

Lemma manual_tak_penalty_monotone_witness :
  manual_tak_penalty Sample.objective 2 <= manual_tak_penalty Sample.objective 5.
Proof.
  apply (manual_tak_penalty_monotone Sample.objective 2 5);
    vm_compute; discriminate.
Defined.

Lemma ratio_self_above (l : Z) (bound : Q) :
  0 < l -> (bound < 1)%Q -> Py.Qgtb (Git.ratio l l) bound = true.
Proof.
  intros Hl Hb. unfold Py.Qgtb. apply negb_true_iff.
  destruct (Qle_bool (Git.ratio l l) bound) eqn:E; [|reflexivity].
  apply Qle_bool_iff in E. rewrite (ratio_self l Hl) in E.
  exfalso. apply (Qlt_not_le _ _ Hb E).
Qed.

(** X10: the commit penalties of a report scored on the metrics of a commit
    list: no commit costs 30 and zeroes git_discipline; one to three
    commits cost 10; four or more cost nothing; and a single commit that
    changes at least one line always draws the giant_final_commit penalty
    of 8. *)
Theorem commit_penalties
  (objective : ObjectiveConfig) (public_result : ExecResult)
  (hidden_result change_probe_result : option ExecResult)
  (tak : TakMetrics) (transcript : TranscriptMetrics)
  (change_injected : bool) (epoch : option Q) (commits : list Commit) :
  let report :=
    run_scoring objective public_result hidden_result change_probe_result tak
      (Git.collect_git_metrics commits epoch) transcript change_injected epoch in
  let p := pn_components (penalties report) in
  (commits = [] ->
   no_commits p = 30 /\ few_commits p = 0 /\ giant_final_commit p = 0
   /\ gd_score (git_discipline report) = 0)
  /\ ((1 <= length commits <= 3)%nat -> no_commits p = 0 /\ few_commits p = 10)
  /\ ((4 <= length commits)%nat -> no_commits p = 0 /\ few_commits p = 0)
  /\ (forall c, commits = [c] -> 0 < lines_changed c ->
        giant_final_commit p = 8).
Proof.
  cbv zeta. unfold run_scoring.
  cbn [penalties pn_components git_discipline gd_score].
  unfold score_penalties, git_score.
  cbn [no_commits few_commits giant_final_commit].
  unfold Git.collect_git_metrics. cbn [commit_count final_commit_ratio].
  split; [|split; [|split]].
  - intros ->. simpl. tauto.
  - intros H. case_cmp; lia.
  - intros H. case_cmp; lia.
  - intros c -> Hl. cbn [length last Git.sum_lines fold_left].
    replace (0 + lines_changed c) with (lines_changed c) by lia.
    change (Z.of_nat 1 >? 0) with true. cbn [andb].
    destruct (Z.gtb_spec (lines_changed c) 0); [|lia].
    rewrite ratio_self_above by (try assumption; reflexivity).
    reflexivity.
Qed.

Lemma commit_penalties_witness :
  giant_final_commit (pn_components (penalties
    (run_scoring Sample.objective (Sample.exited "pytest -q" 0) None None
       (Sample.tak_with [])
       (Git.collect_git_metrics [Sample.commit_touching ["src/markdown.py"]] None)
       (Sample.transcript_with []) false None))) = 8.
Proof.
  apply (proj2 (proj2 (proj2 (commit_penalties Sample.objective
           (Sample.exited "pytest -q" 0) None None (Sample.tak_with [])
           (Sample.transcript_with []) false None
           [Sample.commit_touching ["src/markdown.py"]])))
           (Sample.commit_touching ["src/markdown.py"])).
  - reflexivity.
  - reflexivity.
Defined.

(** X11: when the functional_hidden weight is not negative, a hidden test
    that passes instead of failing, all else equal, lowers neither the
    change_adaptation score nor the raw and clamped totals. *)
Theorem total_monotone_in_hidden
  (objective : ObjectiveConfig) (public_result : ExecResult)
  (change_probe_result : option ExecResult)
  (tak : TakMetrics) (git : GitMetrics) (transcript : TranscriptMetrics)
  (change_injected : bool) (epoch : option Q)
  (hidden_fail hidden_ok : option ExecResult) :
  0 <= dict_get (scoring objective) "functional_hidden" 30 ->
  (forall r, hidden_fail = Some r -> exit_code r <> 0) ->
  (exists r, hidden_ok = Some r /\ exit_code r = 0) ->
  let before :=
    run_scoring objective public_result hidden_fail change_probe_result
      tak git transcript change_injected epoch in
  let after :=
    run_scoring objective public_result hidden_ok change_probe_result
      tak git transcript change_injected epoch in
  ca_score (change_adaptation before) <= ca_score (change_adaptation after)
  /\ tot_raw (totals before) <= tot_raw (totals after)
  /\ tot_clamped (totals before) <= tot_clamped (totals after).
Proof.
  intros Hw Hfail [r [-> Hr]]. cbv zeta.
  assert (Hf : score_hidden_pass hidden_fail = false).
  { unfold score_hidden_pass. destruct hidden_fail as [r'|]; [|reflexivity].
    apply Z.eqb_neq. now apply Hfail. }
  assert (Hp : score_hidden_pass (Some r) = true)
    by (unfold score_hidden_pass; rewrite Hr; reflexivity).
  unfold run_scoring.
  cbn [change_adaptation totals ca_score tot_raw tot_clamped].
  unfold functional_score, change_score, score_change_components.
  rewrite Hf, Hp.
  set (w := dict_get (scoring objective) "functional_hidden" 30) in *.
  destruct change_injected, (score_change_probe_pass change_probe_result),
    (score_public_pass public_result);
    cbn [andb replan_after_change implement_and_validate_change close_loop];
    lia.
Qed.

Lemma total_monotone_in_hidden_witness :
  let score hidden :=
    tot_clamped (totals
      (run_scoring Sample.objective (Sample.exited "pytest -q" 0) hidden None
         (Sample.tak_with []) (Git.collect_git_metrics [] None)
         (Sample.transcript_with []) true None)) in
  score None <= score (Some (Sample.exited "pytest -q hidden" 0)).
Proof.
  apply (total_monotone_in_hidden Sample.objective (Sample.exited "pytest -q" 0)
           None (Sample.tak_with []) (Git.collect_git_metrics [] None)
           (Sample.transcript_with []) true None None
           (Some (Sample.exited "pytest -q hidden" 0))).
  - vm_compute. discriminate.
  - intros r [=].
  - eexists. split; reflexivity.
Defined.

(** ** More on the git metrics *)

Lemma fold_lines_acc (l : list Commit) (a : Z) :
  fold_left (fun acc c => acc + lines_changed c) l a
  = a + Git.sum_lines l.
Proof.
  unfold Git.sum_lines. revert a.
  induction l as [|c l IH]; intros a; simpl; [lia|].
  rewrite (IH (a + lines_changed c)), (IH (0 + lines_changed c)). lia.
Qed.

Lemma sum_lines_cons (c : Commit) (l : list Commit) :
  Git.sum_lines (c :: l) = lines_changed c + Git.sum_lines l.
Proof.
  unfold Git.sum_lines at 1. simpl. rewrite fold_lines_acc. lia.
Qed.

Lemma sum_lines_bounds (l : list Commit) :
  (forall c, In c l -> 0 <= lines_changed c) ->
  0 <= Git.sum_lines l
  /\ (forall c, In c l -> lines_changed c <= Git.sum_lines l).
Proof.
  induction l as [|a l IH]; intros Hpos.
  - split; [reflexivity | intros c []].
  - rewrite sum_lines_cons.
    destruct IH as [IH0 IHc]; [intros c Hc; apply Hpos; right; exact Hc|].
    pose proof (Hpos a (or_introl eq_refl)).
    split; [lia|]. intros c [<-|Hc]; [lia|]. specialize (IHc c Hc). lia.
Qed.

Lemma last_In {A} (l : list A) (x : A) : last l = Some x -> In x l.
Proof.
  induction l as [|a [|b l] IH]; simpl; [discriminate| |].
  - intros [= <-]. left. reflexivity.
  - intros H. right. apply IH. exact H.
Qed.

(** X12: the metrics of every commit list: the commit count is the length
    of the list, good_message_ratio lies in [0,1], commits_after_change lies
    between 0 and the commit count and is 0 without a change epoch, and when
    no commit has a negative line count final_commit_ratio lies in [0,1]. *)
Theorem git_metrics_ranges (commits : list Commit) (change_epoch : option Q) :
  let g := Git.collect_git_metrics commits change_epoch in
  commit_count g = Z.of_nat (length commits)
  /\ (0 <= good_message_ratio g <= 1)%Q
  /\ 0 <= commits_after_change g <= commit_count g
  /\ (change_epoch = None -> commits_after_change g = 0)
  /\ ((forall c, In c commits -> 0 <= lines_changed c) ->
      (0 <= final_commit_ratio g <= 1)%Q).
Proof.
  cbv zeta. unfold Git.collect_git_metrics.
  cbn [commit_count good_message_ratio commits_after_change final_commit_ratio].
  split; [reflexivity|]. split; [|split; [|split]].
  - destruct (Z.gtb_spec (Z.of_nat (length commits)) 0) as [H|H].
    + apply ratio_unit_interval; [apply count_if_bounds | lia].
    + split; [apply Qle_refl | discriminate].
  - destruct change_epoch; [apply count_if_bounds | lia].
  - intros ->. reflexivity.
  - intros Hpos. destruct (last commits) as [c|] eqn:El;
      [|split; [apply Qle_refl | discriminate]].
    destruct (sum_lines_bounds commits Hpos) as [H0 Hc].
    pose proof (Hc c (last_In _ _ El)).
    pose proof (Hpos c (last_In _ _ El)).
    destruct (Z.gtb_spec (Z.of_nat (length commits)) 0),
      (Z.gtb_spec (Git.sum_lines commits) 0); cbn [andb];
      try (split; [apply Qle_refl | discriminate]).
    apply ratio_unit_interval; lia.
Qed.

Lemma git_metrics_ranges_witness :
  (0 <= final_commit_ratio
          (Git.collect_git_metrics
             [Sample.commit_touching ["a.py"]; Sample.commit_touching ["b.py"]]
             None) <= 1)%Q.
Proof.
  apply (git_metrics_ranges
           [Sample.commit_touching ["a.py"]; Sample.commit_touching ["b.py"]]
           None).
  intros c [<-|[<-|[]]]; vm_compute; discriminate.
Defined.

Lemma first_index_none {A} (p : A -> bool) (l : list A) :
  forall i, (forall x, In x l -> p x = false) -> Git.first_index p i l = None.
Proof.
  induction l as [|a l IH]; intros i H; simpl; [reflexivity|].
  rewrite (H a) by (left; reflexivity). apply IH.
  intros x Hx. apply H. right. exact Hx.
Qed.

Lemma first_index_lower {A} (p : A -> bool) (l : list A) :
  forall i j, Git.first_index p i l = Some j -> i <= j.
Proof.
  induction l as [|a l IH]; intros i j; simpl; [discriminate|].
  destruct (p a); [intros [= <-]; lia|]. intros H. apply IH in H. lia.
Qed.

Section EarlyAdoption.

Variable objective : ObjectiveConfig.
Variable public_result : ExecResult.
Variables hidden_result change_probe_result : option ExecResult.
Variable tak : TakMetrics.
Variable transcript : TranscriptMetrics.
Variable change_injected : bool.
Variable epoch : option Q.

(** X13: early_adoption as scored on the metrics of a commit list: 5 when
    the first commit touches a path under [.tak/]; 3 when the first commit
    touches only other paths and the second touches [.tak/]; and, when no
    commit touches [.tak/], 1 if the store holds a task and 0 otherwise. *)
Theorem early_adoption_from_commits (commits : list Commit) :
  let report :=
    run_scoring objective public_result hidden_result change_probe_result tak
      (Git.collect_git_metrics commits epoch) transcript change_injected epoch in
  let early := early_adoption (tw_components (tak_workflow report)) in
  (forall c rest, commits = c :: rest -> Git.touches_tak c = true -> early = 5)
  /\ (forall c0 c1 rest, commits = c0 :: c1 :: rest ->
        Git.touches_tak c0 = false -> Git.touches_code c0 = true ->
        Git.touches_tak c1 = true -> early = 3)
  /\ ((forall c, In c commits -> Git.touches_tak c = false) ->
      early = if task_count tak >? 0 then 1 else 0).
Proof.
  cbv zeta. unfold run_scoring. cbn [tak_workflow tw_components].
  unfold score_tak_components. cbn [early_adoption].
  unfold Git.collect_git_metrics.
  cbn [first_tak_commit_index first_code_commit_index].
  split; [|split].
  - intros c rest -> Hc. simpl. rewrite Hc.
    destruct (Git.touches_code c); [reflexivity|].
    destruct (Git.first_index Git.touches_code (0 + 1) rest) as [j|] eqn:E;
      [|reflexivity].
    apply first_index_lower in E. destruct (Z.leb_spec 0 j); [reflexivity|lia].
  - intros c0 c1 rest -> H0 Hc0 H1. simpl. rewrite H0, Hc0, H1. reflexivity.
  - intros Hnone. rewrite (first_index_none _ _ 0 Hnone). reflexivity.
Qed.

End EarlyAdoption.

Lemma early_adoption_from_commits_witness :
  early_adoption (tw_components (tak_workflow
    (run_scoring Sample.objective (Sample.exited "pytest -q" 0) None None
       (Sample.tak_with [])
       (Git.collect_git_metrics
          [Sample.commit_touching ["src/markdown.py"];
           Sample.commit_touching [".tak/tasks/1.json"]] None)
       (Sample.transcript_with []) false None))) = 3.
Proof.
  apply (proj1 (proj2 (early_adoption_from_commits Sample.objective
           (Sample.exited "pytest -q" 0) None None (Sample.tak_with [])
           (Sample.transcript_with []) false None _))
           (Sample.commit_touching ["src/markdown.py"])
           (Sample.commit_touching [".tak/tasks/1.json"]) []);
    reflexivity.
Defined.

(** X14: a commit subject is weak exactly as a whole word: after one of
    wip, update, fix, changes, misc, tmp, the subject is weak when it ends
    there or goes on with a character that is not a word character, and is
    not weak when a letter, digit or underscore follows (fixes, updated). *)
Theorem weak_message_whole_word (word rest : string) :
  In word ["wip"; "update"; "fix"; "changes"; "misc"; "tmp"] ->
  Git.weak_message (word ++ rest)
  = match rest with
    | EmptyString => true
    | String c _ => negb (Git.is_word c)
    end.
Proof.
  intros Hw. simpl in Hw.
  repeat (destruct Hw as [<-|Hw];
          [destruct rest as [|c rest]; [reflexivity|];
           unfold Git.weak_message; simpl;
           destruct (Git.is_word c); reflexivity|]).
  destruct Hw.
Qed.

Lemma weak_message_whole_word_witness :
  Git.weak_message "fixes the parser" = false
  /\ Git.weak_message "fix: the parser" = true.
Proof.
  split.
  - apply (weak_message_whole_word "fix" "es the parser"). simpl. tauto.
  - apply (weak_message_whole_word "fix" ": the parser"). simpl. tauto.
Defined.

(** ** More on the task store *)

Lemma insert_by_name_length f l :
  length (Store.insert_by_name f l) = S (length l).
Proof.
  induction l as [|g l IH]; simpl; [reflexivity|].
  destruct (negb _); simpl; [reflexivity | now rewrite IH].
Qed.

Lemma sort_by_name_length l : length (Store.sort_by_name l) = length l.
Proof.
  induction l as [|f l IH]; simpl; [reflexivity|].
  rewrite insert_by_name_length. now rewrite IH.
Qed.

Lemma issues_of_kind_app kind l l' :
  issues_of_kind kind (l ++ l')
  = (issues_of_kind kind l + issues_of_kind kind l')%nat.
Proof. unfold issues_of_kind. rewrite List.filter_app. apply length_app. Qed.

(** The checks on one decoded task record only the three normalization
    kinds, each at most once. *)
Lemma check_task_kinds f task found :
  Store.check_task f task = Ok found ->
  (forall i, In i found ->
     issue_file i = Store.rel_path f
     /\ In (issue_kind i) ["tags_not_sorted_unique";
                           "depends_on_not_sorted_unique"; "title_not_trimmed"])
  /\ issues_of_kind "invalid_json" found = 0%nat
  /\ (length found <= 3)%nat.
Proof.
  unfold Store.check_task, Json.get. destruct task; try discriminate.
  cbn [rbind].
  set (tags := default (JArr []) (Json.lookup "tags" fields)).
  set (deps := default (JArr []) (Json.lookup "depends_on" fields)).
  set (title := default JNull (Json.lookup "title" fields)).
  assert (Hflag : forall (b : bool) k,
            In k ["tags_not_sorted_unique"; "depends_on_not_sorted_unique";
                  "title_not_trimmed"] ->
            let l := if b then [Store.issue f k] else [] in
            (forall i, In i l ->
               issue_file i = Store.rel_path f
               /\ In (issue_kind i) ["tags_not_sorted_unique";
                     "depends_on_not_sorted_unique"; "title_not_trimmed"])
            /\ issues_of_kind "invalid_json" l = 0%nat /\ (length l <= 1)%nat).
  { intros b k Hk. destruct b; cbv zeta.
    - split; [|split; [|simpl; lia]].
      + intros i [<-|[]]. split; [reflexivity | exact Hk].
      + simpl in Hk. unfold issues_of_kind. simpl.
        destruct Hk as [<-|[<-|[<-|[]]]]; reflexivity.
    - split; [intros i []|]. split; [reflexivity | simpl; lia]. }
  assert (Hnil : (forall i : Issue, In i [] ->
               issue_file i = Store.rel_path f
               /\ In (issue_kind i) ["tags_not_sorted_unique";
                     "depends_on_not_sorted_unique"; "title_not_trimmed"])
            /\ issues_of_kind "invalid_json" [] = 0%nat /\ (length (@nil Issue) <= 1)%nat).
  { split; [intros i []|]. split; [reflexivity | simpl; lia]. }
  assert (Htags : forall tag_issues,
            match tags with
            | JArr items =>
                rbind (Json.sorted_set items) (fun s =>
                Ok (if negb (Json.list_eqb items s)
                    then [Store.issue f "tags_not_sorted_unique"] else []))
            | _ => Ok []
            end = Ok tag_issues ->
            (forall i, In i tag_issues ->
               issue_file i = Store.rel_path f
               /\ In (issue_kind i) ["tags_not_sorted_unique";
                     "depends_on_not_sorted_unique"; "title_not_trimmed"])
            /\ issues_of_kind "invalid_json" tag_issues = 0%nat
            /\ (length tag_issues <= 1)%nat).
  { intros tag_issues. destruct tags; try (intros [= <-]; exact Hnil).
    destruct (Json.sorted_set items) as [s|e]; [|discriminate]. cbn [rbind].
    intros [= <-]. apply Hflag. simpl. tauto. }
  match goal with
  | |- rbind ?x _ = _ -> _ => destruct x as [tag_issues|e] eqn:Et
  end; [|discriminate].
  cbn [rbind]. intros [= <-].
  destruct (Htags tag_issues eq_refl) as (Ht1 & Ht2 & Ht3).
  destruct (Hflag (negb (Nat.eqb (length (Store.dep_ids_of deps)) 0)
                   && negb (Store.list_Z_eqb (Store.dep_ids_of deps)
                              (Store.sorted_set_int (Store.dep_ids_of deps))))
              "depends_on_not_sorted_unique") as (Hd1 & Hd2 & Hd3);
    [simpl; tauto|].
  assert (Hti : exists b : bool,
            match title with
            | JStr t => if negb (String.eqb t (Py.strip t))
                        then [Store.issue f "title_not_trimmed"] else []
            | _ => []
            end = if b then [Store.issue f "title_not_trimmed"] else []).
  { destruct title; try (exists false; reflexivity). eexists. reflexivity. }
  destruct Hti as [b ->].
  destruct (Hflag b "title_not_trimmed") as (Hl1 & Hl2 & Hl3); [simpl; tauto|].
  cbv zeta in Hd1, Hd2, Hd3, Hl1, Hl2, Hl3.
  split; [|split].
  - intros i Hi. rewrite !in_app_iff in Hi. destruct Hi as [Hi|[Hi|Hi]]; auto.
  - rewrite !issues_of_kind_app. lia.
  - rewrite !length_app. lia.
Qed.

Lemma scan_accounting (todo : list TaskFile) :
  forall tasks issues tasks' issues',
    Store.scan todo tasks issues = Ok (tasks', issues') ->
    (length tasks' + issues_of_kind "invalid_json" issues'
     = length tasks + issues_of_kind "invalid_json" issues + length todo)%nat
    /\ ((forall i, In i issues -> In (issue_kind i) issue_kinds) ->
        forall i, In i issues' -> In (issue_kind i) issue_kinds)
    /\ (length issues' <= length issues + 3 * length todo)%nat.
Proof.
  induction todo as [|f rest IH]; intros tasks issues tasks' issues'; simpl.
  - intros [= <- <-]. split; [lia|]. split; [tauto | lia].
  - destruct (tf_loaded f) as [| |task]; [discriminate| |].
    + intros H. apply IH in H. destruct H as (Hc & Hk & Hl).
      rewrite issues_of_kind_app, length_app in *. simpl in *.
      split; [unfold issues_of_kind in *; simpl in *; lia|]. split; [|lia].
      intros Hin. apply Hk. intros i Hi. apply in_app_iff in Hi.
      destruct Hi as [Hi|[<-|[]]]; [now apply Hin|]. simpl. tauto.
    + destruct (Store.check_task f task) as [found|e] eqn:Ec; [|discriminate].
      cbn [rbind]. intros H. apply IH in H. destruct H as (Hc & Hk & Hl).
      destruct (check_task_kinds f task found Ec) as (Hf1 & Hf2 & Hf3).
      rewrite issues_of_kind_app, !length_app in *. simpl in *.
      split; [lia|]. split; [|lia].
      intros Hin. apply Hk. intros i Hi. apply in_app_iff in Hi.
      destruct Hi as [Hi|Hi]; [now apply Hin|].
      destruct (Hf1 i Hi) as [_ Hkind]. simpl in Hkind. simpl. tauto.
Qed.

(** X15: when [load_tasks] returns, every task file is accounted for: it
    either gave a task or one "invalid_json" issue; every issue has one of
    the four kinds, and a file gives at most three issues. *)
Theorem load_tasks_accounting (entries : list TaskFile)
  (tasks : list JValue) (issues : list Issue) :
  Store.load_tasks (Some entries) = Ok (tasks, issues) ->
  (length tasks + issues_of_kind "invalid_json" issues = length entries)%nat
  /\ (forall i, In i issues -> In (issue_kind i) issue_kinds)
  /\ (length issues <= 3 * length entries)%nat.
Proof.
  unfold Store.load_tasks. intros H. apply scan_accounting in H.
  rewrite sort_by_name_length in H. destruct H as (Hc & Hk & Hl).
  simpl in *. split; [lia|]. split; [|lia]. apply Hk. intros i [].
Qed.

Lemma load_tasks_accounting_witness :
  (1 + issues_of_kind "invalid_json"
         [{| issue_file := ".tak/tasks/2.json"; issue_kind := "invalid_json" |}]
   = 2)%nat.
Proof.
  apply (load_tasks_accounting
           [{| tf_name := "2.json"; tf_loaded := NotJson |};
            {| tf_name := "1.json";
               tf_loaded := Json (JObj [("title", JStr "Parse headings")]) |}]
           [JObj [("title", JStr "Parse headings")]]
           [{| issue_file := ".tak/tasks/2.json"; issue_kind := "invalid_json" |}]).
  reflexivity.
Defined.

(** The issues of one decoded task, when the checks complete: one optional
    issue per check, in the order tags, depends_on, title. *)
Lemma check_task_shape f fields found :
  Store.check_task f (JObj fields) = Ok found ->
  exists tags_bad : bool,
    found
    = (if tags_bad then [Store.issue f "tags_not_sorted_unique"] else [])
      ++ (let dep_ids :=
            Store.dep_ids_of (default (JArr []) (Json.lookup "depends_on" fields)) in
          if negb (Nat.eqb (length dep_ids) 0)
             && negb (Store.list_Z_eqb dep_ids (Store.sorted_set_int dep_ids))
          then [Store.issue f "depends_on_not_sorted_unique"] else [])
      ++ (match default JNull (Json.lookup "title" fields) with
          | JStr t =>
              if negb (String.eqb t (Py.strip t))
              then [Store.issue f "title_not_trimmed"] else []
          | _ => []
          end).
Proof.
  unfold Store.check_task, Json.get. cbn [rbind].
  match goal with
  | |- rbind ?x _ = _ -> _ => destruct x as [tag_issues|e] eqn:Et
  end; [|discriminate].
  cbn [rbind]. intros [= <-].
  assert (Hb : exists b : bool,
            tag_issues = if b then [Store.issue f "tags_not_sorted_unique"] else []).
  { destruct (default (JArr []) (Json.lookup "tags" fields));
      try (injection Et as <-; exists false; reflexivity).
    destruct (Json.sorted_set items); [|discriminate].
    cbn [rbind] in Et. injection Et as <-. eexists. reflexivity. }
  destruct Hb as [b ->]. exists b. reflexivity.
Qed.

Lemma issue_kind_inj f k k' : Store.issue f k = Store.issue f k' -> k = k'.
Proof. unfold Store.issue. intros [= H]. exact H. Qed.

Lemma in_optional_issue (b : bool) f k k' :
  In (Store.issue f k') (if b then [Store.issue f k] else [])
  <-> b = true /\ k = k'.
Proof.
  destruct b; simpl; split.
  - intros [H|[]]. apply issue_kind_inj in H. tauto.
  - intros [_ ->]. left. reflexivity.
  - intros [].
  - intros [H _]. discriminate.
Qed.

Lemma insert_int_spec (x : Z) (l : list Z) :
  StronglySorted Z.lt l -> ~ In x l ->
  StronglySorted Z.lt (Store.insert_int x l)
  /\ forall y, In y (Store.insert_int x l) <-> y = x \/ In y l.
Proof.
  induction l as [|a l IH]; intros Hs Hn; simpl.
  - split; [repeat constructor | intros y; simpl; intuition].
  - apply StronglySorted_inv in Hs as [Hs Ha].
    destruct (Z.ltb_spec x a) as [Hlt|Hge].
    + split; [|intros y; simpl; intuition].
      constructor; [constructor; assumption|].
      constructor; [exact Hlt|].
      apply List.Forall_forall. intros y Hy.
      rewrite List.Forall_forall in Ha. specialize (Ha y Hy). simpl in Ha. lia.
    + destruct IH as [IHs IHm]; [exact Hs | simpl in Hn; tauto|].
      split; [|intros y; simpl; rewrite IHm; intuition].
      constructor; [exact IHs|]. apply List.Forall_forall. intros y Hy.
      apply IHm in Hy. destruct Hy as [->|Hy].
      * simpl in Hn. lia.
      * rewrite List.Forall_forall in Ha. now apply Ha.
Qed.

Lemma dedupe_int_spec (l : list Z) :
  List.NoDup (Store.dedupe_int l)
  /\ forall y, In y (Store.dedupe_int l) <-> In y l.
Proof.
  induction l as [|x l [IHn IHm]]; simpl.
  - split; [constructor | tauto].
  - split.
    + constructor.
      * rewrite filter_In. intros [_ H]. rewrite Z.eqb_refl in H. discriminate.
      * now apply List.NoDup_filter.
    + intros y. rewrite filter_In, IHm. split; [tauto|].
      intros [->|Hy]; [tauto|].
      destruct (Z.eqb_spec x y); [tauto|right; tauto].
Qed.

Lemma sort_ints_spec (d : list Z) :
  List.NoDup d ->
  StronglySorted Z.lt (fold_right Store.insert_int [] d)
  /\ forall y, In y (fold_right Store.insert_int [] d) <-> In y d.
Proof.
  induction d as [|x d IH]; intros Hn; simpl.
  - split; [constructor | tauto].
  - apply List.NoDup_cons_iff in Hn as [Hx Hn]. destruct (IH Hn) as [IHs IHm].
    destruct (insert_int_spec x _ IHs) as [Hs Hm]; [now rewrite IHm|].
    split; [exact Hs|]. intros y. rewrite Hm, IHm. intuition congruence.
Qed.

Lemma sorted_ints_fixed (l : list Z) :
  StronglySorted Z.lt l ->
  Store.dedupe_int l = l /\ fold_right Store.insert_int [] l = l.
Proof.
  induction l as [|x l IH]; intros Hs; [split; reflexivity|].
  apply StronglySorted_inv in Hs as [Hs Hx]. destruct (IH Hs) as [IHd IHf].
  simpl. rewrite IHd, IHf. split.
  - f_equal. apply forallb_filter_id. apply forallb_forall.
    intros y Hy. rewrite List.Forall_forall in Hx. specialize (Hx y Hy). simpl in Hx.
    apply negb_true_iff, Z.eqb_neq. lia.
  - destruct l as [|a l]; [reflexivity|]. simpl.
    apply Forall_inv in Hx. simpl in Hx.
    destruct (Z.ltb_spec x a); [reflexivity | lia].
Qed.

(** [sorted(set(ids))] gives the list back exactly when it is strictly
    increasing. *)
Lemma sorted_set_int_fixed_iff (l : list Z) :
  Store.sorted_set_int l = l <-> StronglySorted Z.lt l.
Proof.
  unfold Store.sorted_set_int. split.
  - intros H. rewrite <- H. apply sort_ints_spec, dedupe_int_spec.
  - intros H. destruct (sorted_ints_fixed l H) as [-> ->]. reflexivity.
Qed.

(** X16: for a task whose checks complete, [load_tasks] records
    "depends_on_not_sorted_unique" exactly when the dependency ids read from
    it are not empty and not strictly increasing. *)
Theorem depends_on_issue_iff (f : TaskFile) (fields : list (string * JValue))
  (found : list Issue) :
  Store.check_task f (JObj fields) = Ok found ->
  let dep_ids :=
    Store.dep_ids_of (default (JArr []) (Json.lookup "depends_on" fields)) in
  In (Store.issue f "depends_on_not_sorted_unique") found
  <-> dep_ids <> [] /\ ~ StronglySorted Z.lt dep_ids.
Proof.
  intros H. apply check_task_shape in H as [b ->]. cbv zeta.
  set (dep_ids := Store.dep_ids_of _).
  rewrite !in_app_iff, !in_optional_issue.
  assert (Ht : ~ In (Store.issue f "depends_on_not_sorted_unique")
                 (match default JNull (Json.lookup "title" fields) with
                  | JStr t =>
                      if negb (String.eqb t (Py.strip t))
                      then [Store.issue f "title_not_trimmed"] else []
                  | _ => []
                  end)).
  { destruct (default JNull (Json.lookup "title" fields)); try (intros []).
    rewrite in_optional_issue. intros [_ [=]]. }
  rewrite andb_true_iff, !negb_true_iff. unfold Store.list_Z_eqb.
  rewrite bool_decide_eq_false, Nat.eqb_neq.
  assert (Hfix := sorted_set_int_fixed_iff dep_ids).
  split.
  - intros [[_ [=]]|[[[Hlen Hne] _]|Hti]]; [|tauto].
    split; [intros E; rewrite E in Hlen; simpl in Hlen; lia|].
    intros Hs. apply Hne. symmetry. now apply Hfix.
  - intros [Hne Hns]. right. left. split; [|reflexivity]. split.
    + destruct dep_ids; [congruence | simpl; lia].
    + intros E. apply Hns, Hfix. congruence.
Qed.

Lemma depends_on_issue_iff_witness :
  In (Store.issue {| tf_name := "4.json"; tf_loaded := NotJson |}
        "depends_on_not_sorted_unique")
     [Store.issue {| tf_name := "4.json"; tf_loaded := NotJson |}
        "depends_on_not_sorted_unique"]
  <-> [3; 1] <> [] /\ ~ StronglySorted Z.lt [3; 1].
Proof.
  apply (depends_on_issue_iff {| tf_name := "4.json"; tf_loaded := NotJson |}
           [("depends_on", JArr [JInt 3; JObj [("id", JInt 1)]; JStr "x"])]).
  reflexivity.
Defined.

(** *** Titles *)

Lemma lstrip_length s : (String.length (Py.lstrip s) <= String.length s)%nat.
Proof.
  induction s as [|c s IH]; simpl; [lia|].
  destruct (Py.isspace c); simpl; lia.
Qed.

Lemma rstrip_length s : (String.length (Py.rstrip s) <= String.length s)%nat.
Proof.
  induction s as [|c s IH]; simpl; [lia|].
  destruct (Py.rstrip s); [destruct (Py.isspace c)|]; simpl in *; lia.
Qed.

Lemma lstrip_fixed s : starts_space s = false -> Py.lstrip s = s.
Proof. destruct s as [|c s]; simpl; [reflexivity|]. now intros ->. Qed.

Lemma rstrip_fixed_iff s : Py.rstrip s = s <-> ends_space s = false.
Proof.
  induction s as [|c s IH]; [simpl; tauto|].
  destruct s as [|d s].
  - simpl. destruct (Py.isspace c); split; congruence.
  - change (ends_space (String c (String d s))) with (ends_space (String d s)).
    rewrite <- IH. cbn [Py.rstrip].
    change (match Py.rstrip s with
            | EmptyString =>
                if Py.isspace d then EmptyString else String d EmptyString
            | String a r => String d (String a r)
            end) with (Py.rstrip (String d s)).
    destruct (Py.rstrip (String d s)) as [|a r] eqn:E.
    + destruct (Py.isspace c); split; congruence.
    + split; congruence.
Qed.

(** [s.strip()] gives [s] back exactly when [s] has no whitespace at
    either end. *)
Lemma strip_fixed_iff s :
  Py.strip s = s <-> starts_space s = false /\ ends_space s = false.
Proof.
  unfold Py.strip. split.
  - intros H. destruct (starts_space s) eqn:Es.
    + exfalso. destruct s as [|c s]; [discriminate|]. simpl in Es.
      assert (Hl : (String.length (Py.rstrip (Py.lstrip (String c s)))
                    <= String.length s)%nat).
      { etransitivity; [apply rstrip_length|]. simpl. rewrite Es.
        apply lstrip_length. }
      rewrite H in Hl. simpl in Hl. lia.
    + rewrite (lstrip_fixed s Es) in H. split; [reflexivity|].
      now apply rstrip_fixed_iff.
  - intros [Hs He]. rewrite (lstrip_fixed s Hs). now apply rstrip_fixed_iff.
Qed.

(** X17: for a task whose checks complete, [load_tasks] records
    "title_not_trimmed" exactly when the title is a string that begins or
    ends with a whitespace character; a missing title or one that is not a
    string is never reported. *)
Theorem title_issue_iff (f : TaskFile) (fields : list (string * JValue))
  (found : list Issue) :
  Store.check_task f (JObj fields) = Ok found ->
  In (Store.issue f "title_not_trimmed") found
  <-> exists t, Json.lookup "title" fields = Some (JStr t)
        /\ (starts_space t = true \/ ends_space t = true).
Proof.
  intros H. apply check_task_shape in H as [b ->]. cbv zeta.
  rewrite !in_app_iff, !in_optional_issue.
  assert (Htitle : In (Store.issue f "title_not_trimmed")
                     (match default JNull (Json.lookup "title" fields) with
                      | JStr t =>
                          if negb (String.eqb t (Py.strip t))
                          then [Store.issue f "title_not_trimmed"] else []
                      | _ => []
                      end)
                   <-> exists t, Json.lookup "title" fields = Some (JStr t)
                         /\ (starts_space t = true \/ ends_space t = true)).
  { destruct (Json.lookup "title" fields) as [v|]; simpl;
      [|split; [intros [] | intros (t & [=] & _)]].
    destruct v; try (split; [intros [] | intros (t & [=] & _)]).
    rewrite in_optional_issue, negb_true_iff, String.eqb_neq.
    pose proof (strip_fixed_iff s) as Hfix. split.
    - intros [Hne _]. exists s. split; [reflexivity|].
      destruct (starts_space s), (ends_space s); auto.
      exfalso. apply Hne. symmetry. now apply Hfix.
    - intros (t & [= <-] & Hsp). split; [|reflexivity].
      intros E. symmetry in E. apply Hfix in E. destruct E, Hsp; congruence. }
  rewrite <- Htitle. split; [|tauto].
  intros [[_ [=]]|[[_ [=]]|Ht]]. exact Ht.
Qed.

Lemma title_issue_iff_witness :
  In (Store.issue {| tf_name := "7.json"; tf_loaded := NotJson |}
        "title_not_trimmed")
     [Store.issue {| tf_name := "7.json"; tf_loaded := NotJson |}
        "title_not_trimmed"]
  <-> exists t, Json.lookup "title" [("title", JStr "Parse lists ")]
                = Some (JStr t)
        /\ (starts_space t = true \/ ends_space t = true).
Proof.
  apply (title_issue_iff {| tf_name := "7.json"; tf_loaded := NotJson |}
           [("title", JStr "Parse lists ")]).
  reflexivity.
Defined.

(** *** Tags that cannot be hashed *)

(** X18: a task object whose tags list holds a nested list or object stops
    the whole scan with [TypeError]: no result is returned for the files
    before it or after it. *)
Theorem unhashable_tag_aborts_scan (f : TaskFile)
  (fields : list (string * JValue)) (items : list JValue)
  (rest : list TaskFile) (tasks : list JValue) (issues : list Issue) :
  tf_loaded f = Json (JObj fields) ->
  Json.lookup "tags" fields = Some (JArr items) ->
  existsb Json.unhashable items = true ->
  Store.scan (f :: rest) tasks issues = Raise TypeError.
Proof.
  intros Hf Ht Hu. simpl. rewrite Hf.
  unfold Store.check_task, Json.get. cbn [rbind]. rewrite Ht. cbn [default from_option id].
  unfold Json.sorted_set. rewrite Hu. reflexivity.
Qed.

Lemma unhashable_tag_aborts_scan_witness :
  Store.load_tasks
    (Some [{| tf_name := "1.json";
              tf_loaded := Json (JObj [("tags", JArr [JStr "cli"; JArr []])]) |};
           {| tf_name := "0.json"; tf_loaded := NotJson |}])
  = Raise TypeError.
Proof.
  unfold Store.load_tasks. simpl Store.sort_by_name.
  rewrite scan_invalid_json by reflexivity.
  apply (unhashable_tag_aborts_scan _ [("tags", JArr [JStr "cli"; JArr []])]
           [JStr "cli"; JArr []]); reflexivity.
Defined.

(** ** The session: what the driver logs and returns *)

Lemma loop_progress_refl v m : loop_progress v m v m.
Proof.
  exists []. rewrite app_nil_r. simpl. rewrite app_nil_r, orb_false_r.
  repeat split; auto.
Qed.

Lemma events_of_type_app kind l l' :
  events_of_type kind (l ++ l')
  = events_of_type kind l ++ events_of_type kind l'.
Proof. apply List.filter_app. Qed.

Lemma loop_progress_trans v1 m1 v2 m2 v3 m3 :
  loop_progress v1 m1 v2 m2 -> loop_progress v2 m2 v3 m3 ->
  loop_progress v1 m1 v3 m3.
Proof.
  intros (a & Hl & Hf & Hp & Hpp & H1 & H2 & H3 & Hc)
         (b & Hl' & Hf' & Hp' & Hpp' & H1' & H2' & H3' & Hc').
  exists (a ++ b). rewrite Hl', Hl, Hp', Hp, Hpp', Hpp, events_of_type_app.
  rewrite existsb_app, <- !app_assoc, orb_assoc.
  repeat split; auto; [|lia].
  apply List.Forall_app. split; assumption.
Qed.

Section SessionFacts.

Variable objective : ObjectiveConfig.
Variables repo_dir pane_target initial_prompt change_prompt worker_cmd : string.

(** The top of a pass makes progress in the sense above and leaves the
    latch and the end reason alone. *)
Lemma observe_progress start v w m :
  exists v1 m1,
    observe objective start v w m
    = Returns ((clock w (calls m) - start)%Q, v1) m1
    /\ loop_progress v m v1 m1
    /\ change_injected v1 = change_injected v
    /\ (calls m < calls m1)%nat.
Proof.
  unfold observe. run_step.
  destruct (Py.Qgeb _ _); run_step.
  - do 2 eexists. split; [reflexivity|]. split; [|simpl; split; [reflexivity|lia]].
    eexists [_]. cbn. split; [reflexivity|].
    split; [repeat constructor; simpl; auto|].
    split; [reflexivity|].
    split.
    { destruct (exit_code _ =? 0), (public_probe_pass v); reflexivity. }
    repeat split; auto; try lia.
    + intros ->. now destruct (Py.contains _ _).
    + intros ->. now destruct (Py.contains _ _).
  - do 2 eexists. split; [reflexivity|]. split; [|simpl; split; [reflexivity|lia]].
    exists []. cbn. rewrite !app_nil_r, orb_false_r.
    repeat split; auto; try lia.
    + intros ->. now destruct (Py.contains _ _).
    + intros ->. now destruct (Py.contains _ _).
Qed.

Lemma inject_change_progress elapsed v w m v' m' :
  inject_change objective pane_target change_prompt elapsed v w m
  = Returns v' m' ->
  loop_progress v m v' m'
  /\ final_done_seen v' = final_done_seen v.
Proof.
  unfold inject_change.
  destruct (change_trigger objective elapsed v && negb (change_injected v)).
  - unfold bind.
    destruct (tmux_send_prompt_spec pane_target change_prompt "change_prompt" w m)
      as [(e & m1 & -> & _) | (m1 & -> & Hc & Hl)]; [discriminate|].
    run_step. intros [= <- <-]. split; [|reflexivity].
    eexists. split; [exact Hl|]. cbn. rewrite app_nil_r, orb_false_r.
    split; [constructor; [simpl; auto | constructor]|].
    repeat split; auto. lia.
  - unfold ret. intros [= <- <-]. split; [apply loop_progress_refl|reflexivity].
Qed.

(** A failed change prompt leaves the log as the pass found it. *)
Lemma inject_change_raises elapsed v w m e m' :
  inject_change objective pane_target change_prompt elapsed v w m
  = Raises e m' ->
  log m' = log m /\ exists context r, e = RuntimeError context r.
Proof.
  unfold inject_change.
  destruct (change_trigger objective elapsed v && negb (change_injected v));
    [|discriminate].
  unfold bind, tmux_send_prompt. run_step.
  destruct (exit_code (tmux w (calls m) _ _) =? 0); run_step;
    [|intros [= <- <-]; eauto].
  destruct (exit_code (tmux w (S (calls m)) _ _) =? 0); run_step;
    [|intros [= <- <-]; eauto].
  destruct (exit_code (tmux w (S (S (calls m))) _ _) =? 0); run_step;
    [discriminate|intros [= <- <-]; eauto].
Qed.

(** The end of a pass: the three exits in their order. *)
Lemma end_checks_progress elapsed v w m :
  exists v' stop m',
    end_checks objective pane_target elapsed v w m = Returns (v', stop) m'
    /\ loop_progress v m v' m'
    /\ change_injected v' = change_injected v
    /\ final_done_seen v' = final_done_seen v
    /\ (calls m < calls m')%nat
    /\ (stop = true ->
        (end_reason v' = "final_done_token_seen" ->
         change_injected v && final_done_seen v = true)
        /\ (end_reason v' = "time_budget_reached" ->
            change_injected v && final_done_seen v = false
            /\ (inject_Z (budget_seconds objective) <= elapsed)%Q))
    /\ (stop = false ->
        change_injected v && final_done_seen v = false
        /\ (elapsed < inject_Z (budget_seconds objective))%Q).
Proof.
  assert (Hset : forall r m1, (calls m <= calls m1)%nat -> log m1 = log m ->
            loop_progress v m (set_end_reason v r) m1).
  { intros r m1 Hc Hl. exists []. rewrite Hl, app_nil_r. simpl.
    rewrite app_nil_r, orb_false_r. repeat split; auto. }
  unfold end_checks, pane_dead. run_step.
  destruct (negb _); run_step.
  { do 3 eexists. split; [reflexivity|]. split; [apply Hset; simpl; [lia|reflexivity]|].
    simpl. repeat split; try lia; try discriminate. }
  destruct (String.eqb _ "1"); run_step.
  { do 3 eexists. split; [reflexivity|]. split; [apply Hset; simpl; [lia|reflexivity]|].
    simpl. repeat split; try lia; try discriminate. }
  destruct (change_injected v && final_done_seen v) eqn:Efin; run_step.
  { do 3 eexists. split; [reflexivity|]. split; [apply Hset; simpl; [lia|reflexivity]|].
    simpl. repeat split; try lia; try discriminate. }
  destruct (Py.Qgeb _ _) eqn:Ebud; run_step.
  { do 3 eexists. split; [reflexivity|]. split; [apply Hset; simpl; [lia|reflexivity]|].
    simpl. repeat split; try lia; try discriminate.
    apply Qle_bool_iff. exact Ebud. }
  do 3 eexists. split; [reflexivity|].
  split.
  { exists []. cbn. rewrite !app_nil_r, orb_false_r. repeat split; auto; lia. }
  simpl. repeat split; try lia; try discriminate.
  apply Qltb_true_iff. unfold Py.Qltb. unfold Py.Qgeb in Ebud. now rewrite Ebud.
Qed.

(** One pass of the loop, when it does not raise. *)
Lemma loop_body_progress start v w m v' stop m' :
  loop_body objective pane_target change_prompt start v w m
  = Returns (v', stop) m' ->
  loop_progress v m v' m'
  /\ (calls m < calls m')%nat
  /\ (stop = true ->
      (end_reason v' = "final_done_token_seen" ->
       change_injected v' && final_done_seen v' = true)
      /\ (end_reason v' = "time_budget_reached" ->
          change_injected v' && final_done_seen v' = false
          /\ (inject_Z (budget_seconds objective)
              <= clock w (calls m) - start)%Q))
  /\ (stop = false ->
      (clock w (calls m) - start < inject_Z (budget_seconds objective))%Q).
Proof.
  unfold loop_body, bind.
  destruct (observe_progress start v w m) as (v1 & m1 & -> & Hp1 & _ & Hc1).
  simpl.
  destruct (inject_change objective pane_target change_prompt _ v1 w m1)
    as [v2 m2| |] eqn:Einj; try discriminate.
  apply inject_change_progress in Einj as [Hp2 _].
  destruct (end_checks_progress (clock w (calls m) - start) v2 w m2)
    as (v3 & stop3 & m3 & -> & Hp3 & Hi3 & Hf3 & Hc3 & Hstop & Hgo).
  intros [= <- <- <-].
  split; [eauto using loop_progress_trans|].
  split.
  { destruct Hp2 as (? & _ & _ & _ & _ & _ & _ & _ & ?). lia. }
  rewrite Hi3, Hf3. split; [exact Hstop|]. intros H. now apply Hgo.
Qed.

(** A run of the main loop that does not raise: progress, and what the two
    exits other than the dead pane tell. *)
Lemma main_loop_progress fuel start w :
  forall v m v' stop m',
    main_loop objective pane_target change_prompt fuel start v w m
    = Returns (v', stop) m' ->
    loop_progress v m v' m'
    /\ (stop = true ->
        (calls m < calls m')%nat
        /\ (end_reason v' = "final_done_token_seen" ->
            change_injected v' && final_done_seen v' = true)
        /\ (end_reason v' = "time_budget_reached" ->
            change_injected v' && final_done_seen v' = false
            /\ exists n, (calls m <= n < calls m')%nat
                 /\ (inject_Z (budget_seconds objective)
                     <= clock w n - start)%Q)).
Proof.
  induction fuel as [|fuel IH]; intros v m v' stop m'; simpl.
  - unfold ret. intros [= <- <- <-].
    split; [apply loop_progress_refl|discriminate].
  - unfold bind.
    destruct (loop_body objective pane_target change_prompt start v w m)
      as [[v1 stop1] m1| |] eqn:E; try discriminate.
    apply loop_body_progress in E as (Hp & Hc & Hstop & _).
    simpl. destruct stop1.
    + unfold ret. intros [= <- <- <-]. split; [exact Hp|]. intros _.
      destruct (Hstop eq_refl) as [Hfin Hbud].
      split; [exact Hc|]. split; [exact Hfin|].
      intros Hr. destruct (Hbud Hr) as [Hno Hle].
      split; [exact Hno|]. exists (calls m). split; [lia|exact Hle].
    + intros Hrest. apply IH in Hrest as [Hp' Hstop'].
      split; [eauto using loop_progress_trans|].
      intros Hs. destruct (Hstop' Hs) as (Hc' & Hfin & Hbud).
      split; [lia|]. split; [exact Hfin|].
      intros Hr. destruct (Hbud Hr) as (Hno & n & Hn & Hle).
      split; [exact Hno|]. exists n. split; [lia|exact Hle].
Qed.

(** [tmux_send_line] either raises on one of its two commands, leaving the
    log as it was, or appends one entry of the given type. *)
Lemma tmux_send_line_spec line kind w m :
  (exists context r m',
     tmux_send_line pane_target line kind w m
     = Raises (RuntimeError context r) m'
     /\ log m' = log m)
  \/ (exists m', tmux_send_line pane_target line kind w m = Returns tt m'
       /\ calls m' = (3 + calls m)%nat
       /\ log m' = log m ++ [{| ev_timestamp := utc w (2 + calls m);
                                ev_type := kind;
                                ev_target := Some pane_target;
                                ev_payload := PLine line |}]).
Proof.
  unfold tmux_send_line. run_step.
  destruct (exit_code (tmux w (calls m) _ _) =? 0); run_step;
    [|left; do 3 eexists; split; reflexivity].
  destruct (exit_code (tmux w (S (calls m)) _ _) =? 0); run_step;
    [|left; do 3 eexists; split; reflexivity].
  right. eexists. split; [reflexivity|]. simpl. repeat split; reflexivity.
Qed.

Lemma tmux_send_line_ok line kind w m :
  (forall i args input, exit_code (tmux w i args input) = 0) ->
  tmux_send_line pane_target line kind w m
  = Returns tt
      {| calls := 3 + calls m;
         log := log m ++ [{| ev_timestamp := utc w (2 + calls m);
                             ev_type := kind;
                             ev_target := Some pane_target;
                             ev_payload := PLine line |}] |}.
Proof.
  intros Htmux. unfold tmux_send_line. run_step.
  repeat (rewrite Htmux; run_step). reflexivity.
Qed.

(** The launch, when it returns: the transport is the supported one and the
    log has gained three "setup" lines and the worker command. *)
Lemma launch_worker_returns w m m' :
  launch_worker objective repo_dir pane_target worker_cmd w m = Returns tt m' ->
  worker_prompt_transport objective = "tmux_buffer_paste"
  /\ exists launch,
       log m' = log m ++ launch
       /\ map ev_type launch = ["setup"; "setup"; "setup"; "worker_start"]
       /\ map ev_payload launch
          = [PLine ("cd " ++ Shlex.quote repo_dir);
             PLine ("export TAKBENCH_OBJECTIVE="
                    ++ Shlex.quote (objective_id objective));
             PLine ("export TAKBENCH_REPO=" ++ Shlex.quote repo_dir);
             PLine worker_cmd].
Proof.
  unfold launch_worker, bind.
  destruct (tmux_send_line_spec ("cd " ++ Shlex.quote repo_dir) "setup" w m)
    as [(c & r & m1 & -> & _) | (m1 & -> & _ & Hl1)]; [discriminate|].
  destruct (tmux_send_line_spec
              ("export TAKBENCH_OBJECTIVE=" ++ Shlex.quote (objective_id objective))
              "setup" w m1)
    as [(c & r & m2 & -> & _) | (m2 & -> & _ & Hl2)]; [discriminate|].
  destruct (tmux_send_line_spec ("export TAKBENCH_REPO=" ++ Shlex.quote repo_dir)
              "setup" w m2)
    as [(c & r & m3 & -> & _) | (m3 & -> & _ & Hl3)]; [discriminate|].
  destruct (String.eqb (worker_prompt_transport objective) "tmux_buffer_paste")
    eqn:Et; [|discriminate].
  cbn [negb]. unfold ret.
  destruct (tmux_send_line_spec worker_cmd "worker_start" w m3)
    as [(c & r & m4 & -> & _) | (m4 & -> & _ & Hl4)]; [discriminate|].
  intros [= <-]. split; [now apply String.eqb_eq|].
  eexists. rewrite Hl4, Hl3, Hl2, Hl1, <- !app_assoc.
  split; [reflexivity|]. split; reflexivity.
Qed.

(** The polling loop never raises and never writes to the log; when it
    returns, ready is false exactly on the timeout. *)
Lemma poll_ready_token_outcome fuel token started deadline w :
  forall m,
    match poll_ready_token fuel token started deadline w m with
    | Returns rs m' =>
        log m' = log m
        /\ (ready rs = true /\ reason rs = "ready_token_seen"
            \/ ready rs = false /\ reason rs = "ready_token_timeout")
    | Raises _ _ => False
    | Diverges => True
    end.
Proof.
  induction fuel as [|fuel IH]; intros m; simpl; [exact I|].
  run_step. destruct (Py.Qltb _ _); run_step; [|auto].
  destruct (Py.contains _ _); run_step; [auto|].
  specialize (IH {| calls := S (S (S (calls m))); log := log m |}).
  exact IH.
Qed.

Lemma wait_for_worker_ready_outcome fuel w m :
  match wait_for_worker_ready fuel objective w m with
  | Returns rs m' =>
      log m' = log m
      /\ In (reason rs) ready_reasons
      /\ (ready rs = false <-> reason rs = "ready_token_timeout")
      /\ (ready rs = false ->
          worker_ready_strategy objective <> "none"
          /\ worker_ready_strategy objective <> "delay")
  | Raises _ _ => False
  | Diverges =>
      worker_ready_strategy objective <> "none"
      /\ worker_ready_strategy objective <> "delay"
  end.
Proof.
  unfold wait_for_worker_ready. run_step.
  destruct (String.eqb (worker_ready_strategy objective) "none") eqn:En.
  { simpl. repeat split; auto; discriminate. }
  destruct (String.eqb (worker_ready_strategy objective) "delay") eqn:Ed.
  { destruct (_ >? 0); simpl; repeat split; auto; discriminate. }
  apply String.eqb_neq in En, Ed.
  match goal with
  | |- match poll_ready_token ?f ?t ?s ?d w ?m1 with _ => _ end =>
      pose proof (poll_ready_token_outcome f t s d w m1) as H;
      destruct (poll_ready_token f t s d w m1) as [rs m'| |]
  end; [|exact H|tauto].
  destruct H as [Hl [[Hr ->]|[Hr ->]]]; rewrite Hr; simpl;
    repeat split; auto; try discriminate.
Qed.

(** Everything before the main loop, when it returns: six entries, in the
    order of [startup_event_types], with the lines and prompt sent and the
    readiness result. *)
Lemma start_worker_returns fuel w m rs m' :
  start_worker objective repo_dir pane_target initial_prompt worker_cmd fuel w m
  = Returns rs m' ->
  worker_prompt_transport objective = "tmux_buffer_paste"
  /\ exists startup,
       log m' = log m ++ startup
       /\ map ev_type startup = startup_event_types
       /\ map ev_payload startup
          = [PLine ("cd " ++ Shlex.quote repo_dir);
             PLine ("export TAKBENCH_OBJECTIVE="
                    ++ Shlex.quote (objective_id objective));
             PLine ("export TAKBENCH_REPO=" ++ Shlex.quote repo_dir);
             PLine worker_cmd;
             PReady "tmux_buffer_paste" rs;
             PPrompt initial_prompt].
Proof.
  unfold start_worker, bind.
  destruct (launch_worker objective repo_dir pane_target worker_cmd w m)
    as [[] m1| |] eqn:El; try discriminate.
  apply launch_worker_returns in El as (Ht & launch & Hl1 & Hty & Hpay).
  pose proof (wait_for_worker_ready_outcome fuel w m1) as Hw.
  destruct (wait_for_worker_ready fuel objective w m1) as [rs1 m2| |];
    try discriminate.
  destruct Hw as [Hl2 _]. run_step.
  match goal with
  | |- match tmux_send_prompt ?p ?t ?k w ?m3 with _ => _ end = _ -> _ =>
      destruct (tmux_send_prompt_spec p t k w m3)
        as [(e & m4 & -> & _) | (m4 & -> & _ & Hl4)]; [discriminate|]
  end.
  intros [= <- <-]. split; [exact Ht|].
  eexists. rewrite Hl4. cbn [log]. rewrite Hl2, Hl1, <- !app_assoc.
  split; [reflexivity|].
  rewrite !map_app, Hty, Hpay, Ht. split; reflexivity.
Qed.

Lemma start_worker_ready_state fuel w m rs m' :
  start_worker objective repo_dir pane_target initial_prompt worker_cmd fuel w m
  = Returns rs m' ->
  In (reason rs) ready_reasons
  /\ (ready rs = false <-> reason rs = "ready_token_timeout").
Proof.
  unfold start_worker, bind.
  destruct (launch_worker objective repo_dir pane_target worker_cmd w m)
    as [[] m1| |]; try discriminate.
  pose proof (wait_for_worker_ready_outcome fuel w m1) as Hw.
  destruct (wait_for_worker_ready fuel objective w m1) as [rs1 m2| |];
    try discriminate.
  destruct Hw as (_ & Hin & Hiff & _). run_step.
  destruct (tmux_send_prompt _ _ _ w _) as [[] m4| |]; try discriminate.
  intros [= <- <-]. tauto.
Qed.

(** A returning session, taken apart. *)
Lemma drive_worker_session_returns fuel w m r m' :
  drive_worker_session objective repo_dir pane_target initial_prompt
    change_prompt worker_cmd fuel w m = Returns r m' ->
  exists rs m1 v m2,
    start_worker objective repo_dir pane_target initial_prompt worker_cmd
      fuel w m = Returns rs m1
    /\ main_loop objective pane_target change_prompt fuel (clock w (calls m1))
         (initial_vars objective (clock w (calls m1))) w (tick m1)
       = Returns (v, true) m2
    /\ m' = tick (tick m2)
    /\ r = {| sr_start_epoch := clock w (calls m1);
              sr_end_epoch := clock w (calls m2);
              sr_duration_seconds :=
                (clock w (S (calls m2)) - clock w (calls m1))%Q;
              sr_end_reason := end_reason v;
              sr_worker_ready := ready rs;
              sr_worker_ready_strategy := strategy rs;
              sr_worker_ready_wait_seconds := wait_seconds rs;
              sr_worker_ready_reason := reason rs;
              sr_change_injected := change_injected v;
              sr_change_injected_epoch := change_injected_epoch v;
              sr_phase1_done_seen := phase1_done_seen v;
              sr_final_done_seen := final_done_seen v;
              sr_public_probe_pass := public_probe_pass v;
              sr_probe_results := probe_results v |}.
Proof.
  unfold drive_worker_session, bind at 1.
  destruct (start_worker _ _ _ _ _ _ w m) as [rs m1| |]; try discriminate.
  unfold run_session. run_step.
  destruct (main_loop _ _ _ _ _ _ w _) as [[v stop] m2| |] eqn:E;
    try discriminate.
  simpl. destruct stop; [|discriminate].
  intros [= <- <-]. exists rs, m1, v, m2. repeat split. exact E.
Qed.

(** X19: when [drive_worker_session] returns, the command log has gained,
    in this order, three "setup" lines, "worker_start" with the worker
    command, "worker_ready" with the readiness result that the session
    reports, "initial_prompt" with the prompt, and after them only
    "public_probe" and "change_prompt" entries; the probe entries are the
    returned [probe_results], [public_probe_pass] tells whether one of them
    passed, and there is one "change_prompt" entry when the change was
    injected and none otherwise. *)
Theorem session_log_shape fuel w m r m' :
  drive_worker_session objective repo_dir pane_target initial_prompt
    change_prompt worker_cmd fuel w m = Returns r m' ->
  exists startup rest,
    log m' = log m ++ startup ++ rest
    /\ map ev_type startup = startup_event_types
    /\ map ev_payload startup
       = [PLine ("cd " ++ Shlex.quote repo_dir);
          PLine ("export TAKBENCH_OBJECTIVE="
                 ++ Shlex.quote (objective_id objective));
          PLine ("export TAKBENCH_REPO=" ++ Shlex.quote repo_dir);
          PLine worker_cmd;
          PReady "tmux_buffer_paste"
            {| ready := sr_worker_ready r;
               strategy := sr_worker_ready_strategy r;
               wait_seconds := sr_worker_ready_wait_seconds r;
               reason := sr_worker_ready_reason r |};
          PPrompt initial_prompt]
    /\ Forall (fun ev => In (ev_type ev) main_loop_event_types) rest
    /\ sr_probe_results r = events_of_type "public_probe" rest
    /\ sr_public_probe_pass r = existsb probe_passed (sr_probe_results r)
    /\ length (events_of_type "change_prompt" rest)
       = (if sr_change_injected r then 1 else 0)%nat.
Proof.
  intros H.
  apply drive_worker_session_returns in H
    as (rs & m1 & v & m2 & Hstart & Hloop & -> & ->).
  apply start_worker_returns in Hstart as (_ & startup & Hl1 & Hty & Hpay).
  pose proof (main_loop_latch_ok objective pane_target change_prompt
                (clock w (calls m1)) w (tick m1) fuel) as Hlatch.
  rewrite Hloop in Hlatch. destruct Hlatch as [Hcount _].
  apply main_loop_progress in Hloop
    as [(rest & Hl2 & Hf & Hpr & Hpp & _) _].
  exists startup, rest. cbn [log tick] in *.
  split; [now rewrite Hl2, Hl1, <- app_assoc|].
  split; [exact Hty|].
  split; [rewrite Hpay; now destruct rs|].
  split; [exact Hf|].
  cbn [sr_probe_results sr_public_probe_pass sr_change_injected].
  simpl in Hpr, Hpp. rewrite Hpr.
  split; [reflexivity|]. split; [exact Hpp|].
  rewrite Hl2, change_prompts_app in Hcount.
  unfold change_prompts in Hcount. unfold events_of_type. lia.
Qed.

(** X20: what the returned end reason tells.  "final_done_token_seen" is
    reported only with the change injected and the final token seen, and
    "time_budget_reached" only without that pair; ready is false exactly
    with the reason "ready_token_timeout"; under a clock that never runs
    backwards the reported duration is at least the span from start to end,
    and at least the budget when the budget ended the run. *)
Theorem session_end_facts fuel w m r m' :
  drive_worker_session objective repo_dir pane_target initial_prompt
    change_prompt worker_cmd fuel w m = Returns r m' ->
  (sr_end_reason r = "final_done_token_seen" ->
   sr_change_injected r = true /\ sr_final_done_seen r = true)
  /\ (sr_end_reason r = "time_budget_reached" ->
      sr_change_injected r && sr_final_done_seen r = false)
  /\ (sr_worker_ready r = false
      <-> sr_worker_ready_reason r = "ready_token_timeout")
  /\ ((forall i j, (i <= j)%nat -> (clock w i <= clock w j)%Q) ->
      (sr_start_epoch r <= sr_end_epoch r)%Q
      /\ (sr_end_epoch r - sr_start_epoch r <= sr_duration_seconds r)%Q
      /\ (sr_end_reason r = "time_budget_reached" ->
          (inject_Z (budget_seconds objective) <= sr_duration_seconds r)%Q)).
Proof.
  intros H.
  apply drive_worker_session_returns in H
    as (rs & m1 & v & m2 & Hstart & Hloop & -> & ->).
  apply start_worker_ready_state in Hstart as [_ Hready].
  apply main_loop_progress in Hloop as [_ Hstop].
  destruct (Hstop eq_refl) as (Hc & Hfin & Hbud). cbn [calls tick] in *.
  cbn [sr_end_reason sr_change_injected sr_final_done_seen sr_worker_ready
       sr_worker_ready_reason sr_start_epoch sr_end_epoch sr_duration_seconds].
  split; [intros Hr; now apply andb_true_iff, Hfin|].
  split; [intros Hr; now apply Hbud|].
  split; [exact Hready|].
  intros Hmono.
  pose proof (Hmono (calls m1) (calls m2) ltac:(lia)) as H1.
  pose proof (Hmono (calls m2) (S (calls m2)) ltac:(lia)) as H2.
  split; [exact H1|]. split; [lra|].
  intros Hr. destruct (Hbud Hr) as (_ & n & Hn & Hle).
  pose proof (Hmono n (S (calls m2)) ltac:(lia)) as H3. lra.
Qed.





(** *** The loop ends *)




(** *** The transport check *)

(** X23: with a prompt transport other than "tmux_buffer_paste" the session
    always raises; the log gains "setup" lines only, so the worker command is
    never sent; and when tmux succeeds the exception is the one about the
    unsupported transport, raised after exactly three "setup" lines. *)
Theorem unsupported_transport_never_starts_worker fuel w m :
  worker_prompt_transport objective <> "tmux_buffer_paste" ->
  exists e m' added,
    drive_worker_session objective repo_dir pane_target initial_prompt
      change_prompt worker_cmd fuel w m = Raises e m'
    /\ log m' = log m ++ added
    /\ Forall (fun ev => ev_type ev = "setup") added
    /\ ((forall i args input, exit_code (tmux w i args input) = 0) ->
        e = UnsupportedTransport (worker_prompt_transport objective)
        /\ length added = 3%nat).
Proof.
  intros Ht. apply String.eqb_neq in Ht.
  unfold drive_worker_session, start_worker, launch_worker, bind.
  destruct (tmux_send_line_spec ("cd " ++ Shlex.quote repo_dir) "setup" w m)
    as [(c & r & m1 & E1 & Hl1) | (m1 & E1 & Hc1 & Hl1)].
  { rewrite E1. exists (RuntimeError c r), m1, [].
    rewrite app_nil_r. split; [reflexivity|]. split; [exact Hl1|].
    split; [constructor|].
    intros Htmux; rewrite (tmux_send_line_ok _ _ _ _ Htmux) in E1;
      discriminate. }
  rewrite E1.
  destruct (tmux_send_line_spec
              ("export TAKBENCH_OBJECTIVE=" ++ Shlex.quote (objective_id objective))
              "setup" w m1)
    as [(c & r & m2 & E2 & Hl2) | (m2 & E2 & Hc2 & Hl2)].
  { rewrite E2. exists (RuntimeError c r), m2. eexists [_].
    rewrite Hl2, Hl1. split; [reflexivity|]. split; [reflexivity|].
    split; [repeat constructor|].
    intros Htmux; rewrite (tmux_send_line_ok _ _ _ _ Htmux) in E2;
      discriminate. }
  rewrite E2.
  destruct (tmux_send_line_spec ("export TAKBENCH_REPO=" ++ Shlex.quote repo_dir)
              "setup" w m2)
    as [(c & r & m3 & E3 & Hl3) | (m3 & E3 & Hc3 & Hl3)].
  { rewrite E3. exists (RuntimeError c r), m3. eexists [_; _].
    rewrite Hl3, Hl2, Hl1, <- app_assoc. split; [reflexivity|].
    split; [reflexivity|]. split; [repeat constructor|].
    intros Htmux; rewrite (tmux_send_line_ok _ _ _ _ Htmux) in E3;
      discriminate. }
  rewrite E3, Ht. cbn [negb]. unfold raise.
  exists (UnsupportedTransport (worker_prompt_transport objective)), m3.
  eexists [_; _; _].
  rewrite Hl3, Hl2, Hl1, <- !app_assoc. split; [reflexivity|].
  split; [reflexivity|]. split; [repeat constructor|]. auto.
Qed.

(** *** The readiness wait *)

(** X24: [wait_for_worker_ready] never raises and never writes to the
    command log.  When it returns, the reason is one of "no_wait",
    "delay_elapsed", "ready_token_seen" and "ready_token_timeout", ready is
    false exactly with the last of them, and only under a strategy other than
    "none" and "delay"; and only under such a strategy can the wait go on
    beyond any given number of polls. *)
Theorem worker_ready_outcomes fuel w m :
  match wait_for_worker_ready fuel objective w m with
  | Returns rs m' =>
      log m' = log m
      /\ In (reason rs) ready_reasons
      /\ (ready rs = false <-> reason rs = "ready_token_timeout")
      /\ (ready rs = false ->
          worker_ready_strategy objective <> "none"
          /\ worker_ready_strategy objective <> "delay")
  | Raises _ _ => False
  | Diverges =>
      worker_ready_strategy objective <> "none"
      /\ worker_ready_strategy objective <> "delay"
  end.
Proof. apply wait_for_worker_ready_outcome. Qed.

(** *** A dead pane *)

(** X25: a pass in which the liveness query fails or prints 1 ends the loop
    with "worker_pane_dead", whether or not the final token was seen and the
    budget reached; the probe and the change prompt of that pass have been
    carried out before. *)
Theorem dead_pane_ends_loop fuel start v w m elapsed v1 m1 v2 m2 :
  observe objective start v w m = Returns (elapsed, v1) m1 ->
  inject_change objective pane_target change_prompt elapsed v1 w m1
  = Returns v2 m2 ->
  (exit_code (tmux w (calls m2)
                ["display-message"; "-p"; "-t"; pane_target; "#{pane_dead}"]
                None) <> 0
   \/ Py.strip (stdout (tmux w (calls m2)
                          ["display-message"; "-p"; "-t"; pane_target;
                           "#{pane_dead}"] None)) = "1") ->
  main_loop objective pane_target change_prompt (S fuel) start v w m
  = Returns (set_end_reason v2 "worker_pane_dead", true) (tick m2).
Proof.
  intros Hobs Hinj Hdead. simpl. unfold bind at 1.
  unfold loop_body, bind at 1. rewrite Hobs. simpl.
  unfold bind at 1. rewrite Hinj.
  unfold end_checks, pane_dead. run_step.
  destruct (exit_code _ =? 0) eqn:Ec; simpl; [|reflexivity].
  destruct Hdead as [Hne|Hone]; [apply Z.eqb_eq in Ec; contradiction|].
  rewrite Hone. reflexivity.
Qed.

End SessionFacts.


Lemma session_log_shape_witness :
  exists r m',
    drive_worker_session Sample.objective "/repo" "%0" "initial prompt"
      "change prompt" "worker" 5 Sample.slow_world Sample.machine
    = Returns r m'
    /\ exists startup rest,
         log m' = log Sample.machine ++ startup ++ rest
         /\ map ev_type startup = startup_event_types
         /\ map ev_payload startup
            = [PLine ("cd " ++ Shlex.quote "/repo");
               PLine ("export TAKBENCH_OBJECTIVE="
                      ++ Shlex.quote (objective_id Sample.objective));
               PLine ("export TAKBENCH_REPO=" ++ Shlex.quote "/repo");
               PLine "worker";
               PReady "tmux_buffer_paste"
                 {| ready := sr_worker_ready r;
                    strategy := sr_worker_ready_strategy r;
                    wait_seconds := sr_worker_ready_wait_seconds r;
                    reason := sr_worker_ready_reason r |};
               PPrompt "initial prompt"]
         /\ Forall (fun ev => In (ev_type ev) main_loop_event_types) rest
         /\ sr_probe_results r = events_of_type "public_probe" rest
         /\ sr_public_probe_pass r = existsb probe_passed (sr_probe_results r)
         /\ length (events_of_type "change_prompt" rest)
            = (if sr_change_injected r then 1 else 0)%nat.
Proof.
  do 2 eexists. split; [vm_compute; reflexivity|].
  refine (session_log_shape Sample.objective "/repo" "%0" "initial prompt"
            "change prompt" "worker" 5 Sample.slow_world Sample.machine _ _ _).
  vm_compute. reflexivity.
Defined.

Lemma session_end_facts_witness :
  exists r m',
    drive_worker_session Sample.objective "/repo" "%0" "initial prompt"
      "change prompt" "worker" 5 Sample.slow_world Sample.machine
    = Returns r m'
    /\ sr_end_reason r = "time_budget_reached"
    /\ (sr_end_reason r = "final_done_token_seen" ->
        sr_change_injected r = true /\ sr_final_done_seen r = true)
    /\ (sr_end_reason r = "time_budget_reached" ->
        sr_change_injected r && sr_final_done_seen r = false)
    /\ (sr_worker_ready r = false
        <-> sr_worker_ready_reason r = "ready_token_timeout")
    /\ ((forall i j, (i <= j)%nat ->
           (clock Sample.slow_world i <= clock Sample.slow_world j)%Q) ->
        (sr_start_epoch r <= sr_end_epoch r)%Q
        /\ (sr_end_epoch r - sr_start_epoch r <= sr_duration_seconds r)%Q
        /\ (sr_end_reason r = "time_budget_reached" ->
            (inject_Z (budget_seconds Sample.objective)
             <= sr_duration_seconds r)%Q)).
Proof.
  do 2 eexists. split; [vm_compute; reflexivity|].
  split; [reflexivity|].
  refine (session_end_facts Sample.objective "/repo" "%0" "initial prompt"
            "change prompt" "worker" 5 Sample.slow_world Sample.machine _ _ _).
  vm_compute. reflexivity.
Defined.



Lemma unsupported_transport_never_starts_worker_witness :
  exists e m' added,
    drive_worker_session (Sample.objective_over "ssh") "/repo" "%0"
      "initial prompt" "change prompt" "worker" 5 Sample.world Sample.machine
    = Raises e m'
    /\ log m' = log Sample.machine ++ added
    /\ Forall (fun ev => ev_type ev = "setup") added
    /\ ((forall i args input,
           exit_code (tmux Sample.world i args input) = 0) ->
        e = UnsupportedTransport "ssh" /\ length added = 3%nat).
Proof.
  apply (unsupported_transport_never_starts_worker (Sample.objective_over "ssh")
           "/repo" "%0" "initial prompt" "change prompt" "worker" 5
           Sample.world Sample.machine).
  simpl. discriminate.
Defined.

Lemma dead_pane_ends_loop_witness :
  match main_loop Sample.objective "%0" "change prompt" 1 0
          (initial_vars Sample.objective 0) Sample.dead_pane_world
          Sample.machine with
  | Returns (v, stop) _ => end_reason v = "worker_pane_dead" /\ stop = true
  | _ => False
  end.
Proof.
  erewrite (dead_pane_ends_loop Sample.objective "%0" "change prompt").
  - simpl. split; reflexivity.
  - vm_compute. reflexivity.
  - vm_compute. reflexivity.
  - right. vm_compute. reflexivity.
Defined.
